(** * Authorization/Trust Engine and Message Router of chonky-remote-pilot

    A shallow embedding of [auth/ChallengeAuth.ts] (the engine) and of
    [transports/TransportManager.ts] (the router), followed by the
    properties of the specification that concern them.

    Conventions of the embedding.
    - A JavaScript [Map<string, V>] is a [gmap string V], a [Set<string>]
      a [gset string].  None of the operations modelled here depends on
      the insertion order of a map.
    - Every method that mutates [this] takes the state and returns the
      new state next to its result.
    - The methods of the engine that a handler calls change the maps
      before their first [await] (what they wait for is the write to
      the secret storage), so such a call is one step; [initialize] is
      awaited when the extension is activated, before any transport is
      connected.  The handler of the router is not one step: it waits
      for [handleAdminCommand] before it hands a direct message over and
      for [verifyChallenge] before it reports the answer, and the
      handlers of other messages run in between.  [handleMessageStart]
      is the handler up to that wait, [handleMessageResume] what it does
      afterwards; [handleMessage] is the run of one handler with no
      other handler in between.
    - Numbers are integers.  The two computations the source makes in
      floating point, the days since the last activity and the minutes
      of a lockout that remain, are exact at the magnitudes of time
      stamps and are modelled with rationals and integer division.
    - [Date.now()] / [new Date()] is the argument [now] (milliseconds
      since the epoch).  All clock reads of one call happen in one
      synchronous stretch of the source, so one reading per call is used.
    - An ISO date string is represented by the instant it denotes
      ([new Date(s).getTime()]); [None] stands for a string that [Date]
      cannot read (its time is NaN).
    - Console logging and the editor notifications are not modelled. *)

From Stdlib Require Import ZArith QArith String Ascii List Bool Lia.
From stdpp Require Import base option gmap strings list fin_maps.

Local Open Scope string_scope.
Local Open Scope Z_scope.

(** ** Shared contracts ([ITransportProvider.ts]) *)

Module ExternalMessage.
Record t := mk
  { id : string;
    chatId : string;
    userId : string;
    username : option string;
    content : string;
    timestamp : Z;
    transport : string;
    isDM : bool;
    mentionsBot : option bool;
    channelName : option string }.
End ExternalMessage.

(** JavaScript truthiness of an optional string ([undefined] and the
    empty string are falsy) and of an optional boolean. *)
Definition truthy_string (o : option string) : bool :=
  match o with
  | Some s => negb (String.eqb s "")
  | None => false
  end.

Definition truthy_bool (o : option bool) : bool :=
  match o with
  | Some b => b
  | None => false
  end.

(** [a || b] on optional strings, with a string fallback. *)
Definition or_else (o : option string) (d : string) : string :=
  match o with
  | Some s => if String.eqb s "" then d else s
  | None => d
  end.

(** ** Data model of the engine ([ChallengeAuth.ts]) *)

Module PendingChallenge.
Record t := mk
  { key : string;
    expiresAt : Z;
    attempts : Z }.
End PendingChallenge.

Module BlockedUser.
Record t := mk { until : Z }.
End BlockedUser.

Module TrustedUser.
Record t := mk
  { transport : string;
    userId : string;
    username : string;
    dmChatId : string;
    authenticatedAt : option Z;
    lastActiveAt : option Z }.
End TrustedUser.

Module AuthorizedChannel.
(** [mode] is typed ['all' | 'mentions' | 'trusted-only'] in the source,
    but the router stores the third word of an [enable] command there
    unchecked, so at run time it is an arbitrary string; the [default]
    arm of [canRespondTo] exists for that. *)
Record t := mk
  { transport : string;
    channelId : string;
    channelName : option string;
    authorizedBy : string;
    authorizedAt : Z;
    mode : string }.
End AuthorizedChannel.

Module PersistedAuthData.
Record t := mk
  { trustedUsers : gmap string TrustedUser.t;
    version : Z }.
End PersistedAuthData.

(** The host's secret storage, seen through the one key the engine uses.
    [slot] is what [get(STORAGE_KEY)] yields: nothing, a text that
    [JSON.parse] rejects, or a document.  [failing] makes every [get] and
    [store] reject (the engine catches that).  [writes] counts the
    successful [store] calls. *)
Module SecretStorage.
Inductive value :=
  | Unparsable
  | Document (d : PersistedAuthData.t).

Record t := mk
  { slot : option value;
    failing : bool;
    writes : nat }.

Definition get (st : t) : option (option value) :=
  if failing st then None else Some (slot st).

Definition store (st : t) (d : PersistedAuthData.t) : t :=
  if failing st then st
  else mk (Some (Document d)) false (S (writes st)).
End SecretStorage.

Inductive DenyReason :=
  | not_dm_authed
  | channel_not_authorized
  | not_trusted_in_channel
  | no_mention.

Inductive ChannelAuthResult :=
  | Allowed
  | Denied (reason : DenyReason).

(** The four results of [verifyChallenge]: ['success'], ['expired'],
    ['wrong'], ['blocked']. *)
Inductive VerifyResult :=
  | Success
  | Expired
  | Wrong
  | Blocked.

(** ** The engine *)

Module ChallengeAuth.

Record t := mk
  { authenticatedChats : gset string;
    pendingChallenges : gmap string PendingChallenge.t;
    blockedUsers : gmap string BlockedUser.t;
    trustedUsers : gmap string TrustedUser.t;
    authorizedChannels : gmap string AuthorizedChannel.t;
    seenChannels : gmap string (string * string);
    secretStorage : option SecretStorage.t }.

(** The state of [new ChallengeAuth()]. *)
Definition init : t := mk ∅ ∅ ∅ ∅ ∅ ∅ None.

Definition with_authenticatedChats (s : t) (v : gset string) : t :=
  mk v (pendingChallenges s) (blockedUsers s) (trustedUsers s)
     (authorizedChannels s) (seenChannels s) (secretStorage s).

Definition with_pendingChallenges (s : t) (v : gmap string PendingChallenge.t) : t :=
  mk (authenticatedChats s) v (blockedUsers s) (trustedUsers s)
     (authorizedChannels s) (seenChannels s) (secretStorage s).

Definition with_blockedUsers (s : t) (v : gmap string BlockedUser.t) : t :=
  mk (authenticatedChats s) (pendingChallenges s) v (trustedUsers s)
     (authorizedChannels s) (seenChannels s) (secretStorage s).

Definition with_trustedUsers (s : t) (v : gmap string TrustedUser.t) : t :=
  mk (authenticatedChats s) (pendingChallenges s) (blockedUsers s) v
     (authorizedChannels s) (seenChannels s) (secretStorage s).

Definition with_authorizedChannels (s : t) (v : gmap string AuthorizedChannel.t) : t :=
  mk (authenticatedChats s) (pendingChallenges s) (blockedUsers s) (trustedUsers s)
     v (seenChannels s) (secretStorage s).

Definition with_seenChannels (s : t) (v : gmap string (string * string)) : t :=
  mk (authenticatedChats s) (pendingChallenges s) (blockedUsers s) (trustedUsers s)
     (authorizedChannels s) v (secretStorage s).

Definition with_secretStorage (s : t) (v : option SecretStorage.t) : t :=
  mk (authenticatedChats s) (pendingChallenges s) (blockedUsers s) (trustedUsers s)
     (authorizedChannels s) (seenChannels s) v.

Definition STORAGE_VERSION : Z := 1.
Definition TRUST_EXPIRY_DAYS : Z := 30.
Definition CHALLENGE_EXPIRY_MS : Z := 2 * 60 * 1000.
Definition MAX_ATTEMPTS : Z := 3.
Definition BLOCK_DURATION_MS : Z := 5 * 60 * 1000.

(** [`${transport}:${id}`] *)
Definition makeKey (transport id : string) : string :=
  transport +:+ ":" +:+ id.

Definition makeUserKey (transport userId : string) : string :=
  transport +:+ ":" +:+ userId.

Definition makeChannelKey (transport channelId : string) : string :=
  transport +:+ ":" +:+ channelId.

(** *** Persistence *)

Definition saveToStorage (s : t) : t :=
  match secretStorage s with
  | None => s
  | Some st =>
      with_secretStorage s
        (Some (SecretStorage.store st
                 (PersistedAuthData.mk (trustedUsers s) STORAGE_VERSION)))
  end.

(** [(now.getTime() - lastActive.getTime()) / (1000 * 60 * 60 * 24)];
    [None] is NaN. *)
Definition daysSinceActive (now : Z) (user : TrustedUser.t) : option Q :=
  match TrustedUser.lastActiveAt user with
  | Some lastActive => Some (inject_Z (now - lastActive) / inject_Z (1000 * 60 * 60 * 24))%Q
  | None => None
  end.

(** [daysSinceActive > TRUST_EXPIRY_DAYS]; a comparison with NaN is false. *)
Definition trustExpired (now : Z) (user : TrustedUser.t) : bool :=
  match daysSinceActive now user with
  | Some d => negb (Qle_bool d (inject_Z TRUST_EXPIRY_DAYS))
  | None => false
  end.

(** The accumulator of the loading loop: the engine and the two counters. *)
Definition loadEntry (now : Z) (key : string) (user : TrustedUser.t)
    (acc : t * nat * nat) : t * nat * nat :=
  let '(s, loadedCount, expiredCount) := acc in
  if trustExpired now user then (s, loadedCount, S expiredCount)
  else
    let s1 := with_trustedUsers s (<[key := user]> (trustedUsers s)) in
    let s2 := with_authenticatedChats s1
                ({[ makeKey (TrustedUser.transport user) (TrustedUser.dmChatId user) ]}
                 ∪ authenticatedChats s1) in
    (s2, S loadedCount, expiredCount).

Definition loadFromStorage (s : t) (now : Z) : t :=
  match secretStorage s with
  | None => s
  | Some st =>
      match SecretStorage.get st with
      | None => s                          (* get rejected: caught *)
      | Some None => s                     (* no persisted data *)
      | Some (Some SecretStorage.Unparsable) => s   (* JSON.parse threw: caught *)
      | Some (Some (SecretStorage.Document parsed)) =>
          if negb (Z.eqb (PersistedAuthData.version parsed) STORAGE_VERSION) then s
          else
            let '(s', _, expiredCount) :=
              map_fold (loadEntry now) (s, 0%nat, 0%nat)
                       (PersistedAuthData.trustedUsers parsed) in
            if Nat.ltb 0 expiredCount then saveToStorage s' else s'
      end
  end.

Definition initialize (s : t) (storage : SecretStorage.t) (now : Z) : t :=
  loadFromStorage (with_secretStorage s (Some storage)) now.

(** *** Trusted users *)

Definition isUserTrusted (s : t) (transport userId : string) : bool :=
  bool_decide (is_Some (trustedUsers s !! makeUserKey transport userId)).

Definition getTrustedUser (s : t) (transport userId : string) : option TrustedUser.t :=
  trustedUsers s !! makeUserKey transport userId.

Definition trustUser (s : t) (transport userId username dmChatId : string) (now : Z) : t :=
  let key := makeUserKey transport userId in
  saveToStorage
    (with_trustedUsers s
       (<[key := TrustedUser.mk transport userId username dmChatId (Some now) (Some now)]>
          (trustedUsers s))).

Definition touchUser (s : t) (transport userId : string) (now : Z) : t :=
  let key := makeUserKey transport userId in
  match trustedUsers s !! key with
  | Some user =>
      with_trustedUsers s
        (<[key := TrustedUser.mk (TrustedUser.transport user) (TrustedUser.userId user)
                    (TrustedUser.username user) (TrustedUser.dmChatId user)
                    (TrustedUser.authenticatedAt user) (Some now)]> (trustedUsers s))
  | None => s
  end.

(** The body of the revocation loop: one visited entry of the map. *)
Definition revokeIfAuthorizedBy (key : string) (channelKey : string)
    (channel : AuthorizedChannel.t) (channels : gmap string AuthorizedChannel.t)
    : gmap string AuthorizedChannel.t :=
  if decide (AuthorizedChannel.authorizedBy channel = key)
  then delete channelKey channels
  else channels.

Definition untrustUser (s : t) (transport userId : string) : bool * t :=
  let key := makeUserKey transport userId in
  match trustedUsers s !! key with
  | Some user =>
      let channels :=
        map_fold (revokeIfAuthorizedBy key) (authorizedChannels s) (authorizedChannels s) in
      let s1 := with_authorizedChannels s channels in
      let s2 := with_authenticatedChats s1
                  (authenticatedChats s1 ∖ {[ makeKey transport (TrustedUser.dmChatId user) ]}) in
      let s3 := with_trustedUsers s2 (delete key (trustedUsers s2)) in
      (true, saveToStorage s3)
  | None => (false, s)
  end.

(** *** Channel authorization *)

Definition authorizeChannel (s : t) (transport channelId authorizedByUserId : string)
    (channelName : option string) (mode : string) (now : Z) : bool * t :=
  let userKey := makeUserKey transport authorizedByUserId in
  if negb (bool_decide (is_Some (trustedUsers s !! userKey))) then (false, s)
  else
    let channelKey := makeChannelKey transport channelId in
    (true,
     with_authorizedChannels s
       (<[channelKey := AuthorizedChannel.mk transport channelId channelName userKey now mode]>
          (authorizedChannels s))).

Definition revokeChannel (s : t) (transport channelId byUserId : string) : bool * t :=
  let channelKey := makeChannelKey transport channelId in
  match authorizedChannels s !! channelKey with
  | None => (false, s)
  | Some _ =>
      let userKey := makeUserKey transport byUserId in
      if negb (bool_decide (is_Some (trustedUsers s !! userKey))) then (false, s)
      else (true, with_authorizedChannels s (delete channelKey (authorizedChannels s)))
  end.

Definition isChannelAuthorized (s : t) (transport channelId : string) : bool :=
  bool_decide (is_Some (authorizedChannels s !! makeChannelKey transport channelId)).

Definition getChannelAuth (s : t) (transport channelId : string)
    : option AuthorizedChannel.t :=
  authorizedChannels s !! makeChannelKey transport channelId.

(** [toLowerCase] is the host language's [String.prototype.toLowerCase]. *)
Definition trackChannel (toLowerCase : string → string) (s : t)
    (transport channelId : string) (channelName : option string) : t :=
  match channelName with
  | None => s
  | Some name =>
      if String.eqb name "" then s
      else
        let key := makeKey transport (toLowerCase name) in
        with_seenChannels s (<[key := (channelId, name)]> (seenChannels s))
  end.

(** *** Legacy chat-based authentication *)

Definition isAuthenticated (s : t) (transport chatId : string) : bool :=
  bool_decide (makeKey transport chatId ∈ authenticatedChats s).

(** *** Message permission check *)

Definition canRespondTo (s : t) (msg : ExternalMessage.t) : ChannelAuthResult :=
  let transport := ExternalMessage.transport msg in
  let chatId := ExternalMessage.chatId msg in
  let userId := ExternalMessage.userId msg in
  if ExternalMessage.isDM msg then
    let chatAuthed := isAuthenticated s transport chatId in
    let userTrusted := isUserTrusted s transport userId in
    if chatAuthed || userTrusted then Allowed
    else Denied not_dm_authed
  else
    match getChannelAuth s transport chatId with
    | None => Denied channel_not_authorized
    | Some channelAuth =>
        let userTrusted := isUserTrusted s transport userId in
        if String.eqb (AuthorizedChannel.mode channelAuth) "all" then Allowed
        else if String.eqb (AuthorizedChannel.mode channelAuth) "trusted-only" then
          if userTrusted then Allowed else Denied not_trusted_in_channel
        else
          if userTrusted || truthy_bool (ExternalMessage.mentionsBot msg) then Allowed
          else Denied no_mention
    end.

(** *** Lockouts and challenges *)

Definition isBlocked (s : t) (transport chatId : string) (now : Z) : bool * t :=
  let key := makeKey transport chatId in
  match blockedUsers s !! key with
  | None => (false, s)
  | Some blocked =>
      if BlockedUser.until blocked <? now
      then (false, with_blockedUsers s (delete key (blockedUsers s)))
      else (true, s)
  end.

(** [Math.ceil(x / 1000 / 60)] for an integer [x]. *)
Definition ceilMinutes (x : Z) : Z := - ((- x) / (1000 * 60)).

Definition getBlockTimeRemaining (s : t) (transport chatId : string) (now : Z) : Z :=
  let key := makeKey transport chatId in
  match blockedUsers s !! key with
  | None => 0
  | Some blocked => ceilMinutes (BlockedUser.until blocked - now)
  end.

Definition hasPendingChallenge (s : t) (transport chatId : string) (now : Z) : bool * t :=
  let key := makeKey transport chatId in
  match pendingChallenges s !! key with
  | None => (false, s)
  | Some challenge =>
      if PendingChallenge.expiresAt challenge <? now
      then (false, with_pendingChallenges s (delete key (pendingChallenges s)))
      else (true, s)
  end.

(** [code] is the value drawn by [generateCode()]. *)
Definition createChallenge (s : t) (transport chatId username : string)
    (code : string) (now : Z) : string * t :=
  let key := makeKey transport chatId in
  (code,
   with_pendingChallenges s
     (<[key := PendingChallenge.mk code (now + CHALLENGE_EXPIRY_MS) 0]>
        (pendingChallenges s))).

Definition verifyChallenge (s : t) (transport chatId response userId username : string)
    (isDM : bool) (now : Z) : VerifyResult * t :=
  let key := makeKey transport chatId in
  match pendingChallenges s !! key with
  | None => (Expired, s)
  | Some challenge =>
      if PendingChallenge.expiresAt challenge <? now then
        (Expired, with_pendingChallenges s (delete key (pendingChallenges s)))
      else if String.eqb response (PendingChallenge.key challenge) then
        let s1 := with_pendingChallenges s (delete key (pendingChallenges s)) in
        let s2 := with_authenticatedChats s1 ({[ key ]} ∪ authenticatedChats s1) in
        let s3 := if isDM then trustUser s2 transport userId username chatId now else s2 in
        (Success, s3)
      else
        let attempts' := PendingChallenge.attempts challenge + 1 in
        let s1 := with_pendingChallenges s
                    (<[key := PendingChallenge.mk (PendingChallenge.key challenge)
                                (PendingChallenge.expiresAt challenge) attempts']>
                       (pendingChallenges s)) in
        let remaining := MAX_ATTEMPTS - attempts' in
        if remaining <=? 0 then
          let s2 := with_pendingChallenges s1 (delete key (pendingChallenges s1)) in
          (Blocked,
           with_blockedUsers s2
             (<[key := BlockedUser.mk (now + BLOCK_DURATION_MS)]> (blockedUsers s2)))
        else (Wrong, s1)
  end.

Definition getAttemptsRemaining (s : t) (transport chatId : string) : Z :=
  let key := makeKey transport chatId in
  match pendingChallenges s !! key with
  | None => 0
  | Some challenge => MAX_ATTEMPTS - PendingChallenge.attempts challenge
  end.

Definition clearOnConnect (s : t) : t :=
  with_pendingChallenges (with_blockedUsers s ∅) ∅.

Definition reset (s : t) : t :=
  mk ∅ ∅ ∅ ∅ ∅ (seenChannels s) (secretStorage s).

End ChallengeAuth.

(** ** The router ([TransportManager.ts]) *)

(** The fixed reply texts of the router, by kind. *)
Inductive Reply :=
  | LockoutNotice (mins : Z)          (* Too many failed attempts. Try again in [mins] minute(s). *)
  | CodeLengthReminder                (* The code is exactly 6 digits. ... *)
  | AuthenticatedNotice               (* Authenticated! You are now trusted. ... *)
  | ChallengeExpiredNotice            (* Challenge expired. Send any message to get a new code. *)
  | BlockedNotice                     (* Too many failed attempts. You are blocked for 5 minutes. *)
  | WrongCodeNotice (remaining : Z)   (* Wrong code. [remaining] attempt(s) remaining. *)
  | AuthenticationRequired            (* Authentication Required ... *)
  | CommandReply (text : string).     (* the answer to an admin command *)

(** What a call makes happen outside the two objects: a message sent
    through a transport, or the registered waiter resolved with a message. *)
Inductive Effect :=
  | Send (transport chatId : string) (reply : Reply)
  | Resolve (resolver : nat) (msg : ExternalMessage.t).

(** [/^\d+$/.test(input)] *)
Definition isDigit (c : ascii) : bool :=
  (Nat.leb 48 (nat_of_ascii c) && Nat.leb (nat_of_ascii c) 57)%bool.

Fixpoint allDigits (s : string) : bool :=
  match s with
  | EmptyString => true
  | String c rest => isDigit c && allDigits rest
  end.

Definition isNumeric (input : string) : bool :=
  negb (String.eqb input "") && allDigits input.

Module TransportManager.

(** [transports] keeps the names of the registered providers; a waiter is
    identified by a number standing for the [resolve] function of the
    promise that [waitForMessage] returned. *)
Record t := mk
  { transports : gset string;
    messageQueue : list ExternalMessage.t;
    waitingResolver : option nat }.

Definition init : t := mk ∅ [] None.

Definition register (m : t) (name : string) : t :=
  mk ({[ name ]} ∪ transports m) (messageQueue m) (waitingResolver m).

(** The hand-over that [handleMessage] performs, in both places, on a
    message that goes to the agent. *)
Definition deliver (m : t) (msg : ExternalMessage.t) : t * list Effect :=
  match waitingResolver m with
  | Some resolver => (mk (transports m) (messageQueue m) None, [Resolve resolver msg])
  | None => (mk (transports m) (messageQueue m ++ [msg])%list (waitingResolver m), [])
  end.

(** [resolver] is the [resolve] function of the promise created by this
    call; the result is the message when the call returns one at once. *)
Definition waitForMessage (m : t) (resolver : nat) : option ExternalMessage.t * t :=
  match messageQueue m with
  | msg :: rest => (Some msg, mk (transports m) rest (waitingResolver m))
  | [] => (None, mk (transports m) [] (Some resolver))
  end.

Definition onCancellationRequested (m : t) : t :=
  mk (transports m) (messageQueue m) None.

(** What a handler still has to do when it comes back from the call it
    waited for: nothing, the hand-over of a direct message that was no
    command, or the reply to a code that [verifyChallenge] answered. *)
Inductive Continuation :=
  | Finished
  | HandOver (msg : ExternalMessage.t)
  | Report (result : VerifyResult) (msg : ExternalMessage.t).

Section Router.

(** Host functions and the command interpreter.  [adminCommands] is the
    part of [handleAdminCommand] that follows its two guards: it
    recognises the command, runs it against the engine, and yields
    whether there was one, the engine afterwards and the replies sent to
    the chat. *)
Variable toLowerCase : string → string.
Variable trim : string → string.
Variable adminCommands :
  ChallengeAuth.t → ExternalMessage.t → Z → bool * ChallengeAuth.t * list Reply.

Definition handleAdminCommand (a : ChallengeAuth.t) (msg : ExternalMessage.t) (now : Z)
    : bool * ChallengeAuth.t * list Effect :=
  if negb (ExternalMessage.isDM msg) then (false, a, [])
  else
    match ChallengeAuth.getTrustedUser a (ExternalMessage.transport msg)
            (ExternalMessage.userId msg) with
    | None => (false, a, [])
    | Some _ =>
        let '(wasCommand, a', replies) := adminCommands a msg now in
        (wasCommand, a',
         map (Send (ExternalMessage.transport msg) (ExternalMessage.chatId msg)) replies)
    end.

(** A handler that runs to its end before any other handler starts.
    [code] is the draw that [createChallenge] would make. *)
Definition handleMessage (a : ChallengeAuth.t) (m : t) (msg : ExternalMessage.t)
    (code : string) (now : Z) : ChallengeAuth.t * t * list Effect :=
  let transport := ExternalMessage.transport msg in
  let chatId := ExternalMessage.chatId msg in
  if negb (bool_decide (transport ∈ transports m)) then (a, m, [])
  else
    let username := or_else (ExternalMessage.username msg) chatId in
    let '(isBlocked, a1) := ChallengeAuth.isBlocked a transport chatId now in
    if isBlocked then
      let mins := ChallengeAuth.getBlockTimeRemaining a1 transport chatId now in
      (a1, m, [Send transport chatId (LockoutNotice mins)])
    else if ExternalMessage.isDM msg && ChallengeAuth.isAuthenticated a1 transport chatId then
      let '(wasCommand, a2, out) := handleAdminCommand a1 msg now in
      if wasCommand then (a2, m, out)
      else
        let '(m', out') := deliver m msg in
        (a2, m', (out ++ out')%list)
    else if negb (ExternalMessage.isDM msg) then
      let a2 := ChallengeAuth.trackChannel toLowerCase a1 transport chatId
                  (ExternalMessage.channelName msg) in
      match ChallengeAuth.canRespondTo a2 msg with
      | Denied _ => (a2, m, [])
      | Allowed =>
          let '(m', out) := deliver m msg in
          (a2, m', out)
      end
    else
      let '(pending, a2) := ChallengeAuth.hasPendingChallenge a1 transport chatId now in
      if pending then
        let input := trim (ExternalMessage.content msg) in
        if negb (isNumeric input) then (a2, m, [])
        else if Nat.eqb (String.length input) 5 || Nat.eqb (String.length input) 7 then
          (a2, m, [Send transport chatId CodeLengthReminder])
        else if negb (Nat.eqb (String.length input) 6) then (a2, m, [])
        else
          let '(result, a3) :=
            ChallengeAuth.verifyChallenge a2 transport chatId input
              (ExternalMessage.userId msg) username (ExternalMessage.isDM msg) now in
          match result with
          | Success => (a3, m, [Send transport chatId AuthenticatedNotice])
          | Expired => (a3, m, [Send transport chatId ChallengeExpiredNotice])
          | Blocked => (a3, m, [Send transport chatId BlockedNotice])
          | Wrong =>
              let remaining := ChallengeAuth.getAttemptsRemaining a3 transport chatId in
              (a3, m, [Send transport chatId (WrongCodeNotice remaining)])
          end
      else
        let '(_, a3) := ChallengeAuth.createChallenge a2 transport chatId username code now in
        (a3, m, [Send transport chatId AuthenticationRequired]).

(** The handler up to the point where it waits for the call of
    [handleAdminCommand] (l.180) or of [verifyChallenge] (l.246) to
    return.  Both calls make their changes to the engine before they
    wait themselves, so the engine that results is the one other
    handlers see from here on.  The replies of a command are listed with
    this stretch; the interpreter is a parameter, and the one wait
    inside it that comes before a reply (the command [revoke] waits for
    [untrustUser]) is not modelled.  The branches for a lockout, a group
    message, an input that is no attempt and a new challenge wait for
    nothing but the sending of their reply, and have nothing left to
    do. *)
Definition handleMessageStart (a : ChallengeAuth.t) (m : t) (msg : ExternalMessage.t)
    (code : string) (now : Z) : ChallengeAuth.t * t * list Effect * Continuation :=
  let transport := ExternalMessage.transport msg in
  let chatId := ExternalMessage.chatId msg in
  if negb (bool_decide (transport ∈ transports m)) then (a, m, [], Finished)
  else
    let username := or_else (ExternalMessage.username msg) chatId in
    let '(isBlocked, a1) := ChallengeAuth.isBlocked a transport chatId now in
    if isBlocked then
      let mins := ChallengeAuth.getBlockTimeRemaining a1 transport chatId now in
      (a1, m, [Send transport chatId (LockoutNotice mins)], Finished)
    else if ExternalMessage.isDM msg && ChallengeAuth.isAuthenticated a1 transport chatId then
      let '(wasCommand, a2, out) := handleAdminCommand a1 msg now in
      (a2, m, out, if wasCommand then Finished else HandOver msg)
    else if negb (ExternalMessage.isDM msg) then
      let a2 := ChallengeAuth.trackChannel toLowerCase a1 transport chatId
                  (ExternalMessage.channelName msg) in
      match ChallengeAuth.canRespondTo a2 msg with
      | Denied _ => (a2, m, [], Finished)
      | Allowed =>
          let '(m', out) := deliver m msg in
          (a2, m', out, Finished)
      end
    else
      let '(pending, a2) := ChallengeAuth.hasPendingChallenge a1 transport chatId now in
      if pending then
        let input := trim (ExternalMessage.content msg) in
        if negb (isNumeric input) then (a2, m, [], Finished)
        else if Nat.eqb (String.length input) 5 || Nat.eqb (String.length input) 7 then
          (a2, m, [Send transport chatId CodeLengthReminder], Finished)
        else if negb (Nat.eqb (String.length input) 6) then (a2, m, [], Finished)
        else
          let '(result, a3) :=
            ChallengeAuth.verifyChallenge a2 transport chatId input
              (ExternalMessage.userId msg) username (ExternalMessage.isDM msg) now in
          (a3, m, [], Report result msg)
      else
        let '(_, a3) := ChallengeAuth.createChallenge a2 transport chatId username code now in
        (a3, m, [Send transport chatId AuthenticationRequired], Finished).

(** The handler from the point where the call it waited for has
    returned; [a] and [m] are the engine and the router as they are
    then.  The hand-over (l.188-193) looks at the waiter and the queue
    of that moment, and the reply to a wrong code (l.273) reads the
    attempts remaining from the engine of that moment. *)
Definition handleMessageResume (a : ChallengeAuth.t) (m : t) (k : Continuation)
    : t * list Effect :=
  match k with
  | Finished => (m, [])
  | HandOver msg => deliver m msg
  | Report result msg =>
      let transport := ExternalMessage.transport msg in
      let chatId := ExternalMessage.chatId msg in
      match result with
      | Success => (m, [Send transport chatId AuthenticatedNotice])
      | Expired => (m, [Send transport chatId ChallengeExpiredNotice])
      | Blocked => (m, [Send transport chatId BlockedNotice])
      | Wrong =>
          let remaining := ChallengeAuth.getAttemptsRemaining a transport chatId in
          (m, [Send transport chatId (WrongCodeNotice remaining)])
      end
  end.

End Router.

End TransportManager.

(** * Notions used in the statements *)

(** Whether a string contains the separator of the keys. *)
Fixpoint hasColon (s : string) : bool :=
  match s with
  | EmptyString => false
  | String c rest => Ascii.eqb c ":" || hasColon rest
  end.

(** "Inactive for more than thirty days", in the words of the
    specification: the inactivity in days, computed from [lastActiveAt],
    exceeds 30. *)
Definition inactivityExceedsExpiry (now : Z) (user : TrustedUser.t) : Prop :=
  ∃ days : Q, ChallengeAuth.daysSinceActive now user = Some days ∧ (inject_Z 30 < days)%Q.

(** The state of the loading loop after it has visited the ledger. *)
Definition loaded_as (s : ChallengeAuth.t) (now : Z)
    (acc : ChallengeAuth.t * nat * nat) (ledger : gmap string TrustedUser.t) : Prop :=
  (∀ key,
     ChallengeAuth.trustedUsers acc.1.1 !! key
     = match ledger !! key with
       | Some user =>
           if ChallengeAuth.trustExpired now user
           then ChallengeAuth.trustedUsers s !! key
           else Some user
       | None => ChallengeAuth.trustedUsers s !! key
       end)
  ∧ (∀ chat,
       chat ∈ ChallengeAuth.authenticatedChats acc.1.1
       ↔ chat ∈ ChallengeAuth.authenticatedChats s
         ∨ ∃ key user, ledger !! key = Some user
                       ∧ ChallengeAuth.trustExpired now user = false
                       ∧ chat = ChallengeAuth.makeKey (TrustedUser.transport user)
                                  (TrustedUser.dmChatId user))
  ∧ (acc.2 = 0%nat
     ↔ ∀ key user, ledger !! key = Some user → ChallengeAuth.trustExpired now user = false)
  ∧ ChallengeAuth.pendingChallenges acc.1.1 = ChallengeAuth.pendingChallenges s
  ∧ ChallengeAuth.blockedUsers acc.1.1 = ChallengeAuth.blockedUsers s
  ∧ ChallengeAuth.authorizedChannels acc.1.1 = ChallengeAuth.authorizedChannels s
  ∧ ChallengeAuth.seenChannels acc.1.1 = ChallengeAuth.seenChannels s
  ∧ ChallengeAuth.secretStorage acc.1.1 = ChallengeAuth.secretStorage s.



(** Two engine states that grant the same access: the same authenticated
    chats, trusted users, authorized channels, seen channels and storage. *)
Definition same_access (s s' : ChallengeAuth.t) : Prop :=
  ChallengeAuth.authenticatedChats s' = ChallengeAuth.authenticatedChats s
  ∧ ChallengeAuth.trustedUsers s' = ChallengeAuth.trustedUsers s
  ∧ ChallengeAuth.authorizedChannels s' = ChallengeAuth.authorizedChannels s
  ∧ ChallengeAuth.seenChannels s' = ChallengeAuth.seenChannels s
  ∧ ChallengeAuth.secretStorage s' = ChallengeAuth.secretStorage s.

(** The calls by which a client changes the engine (the pure queries are
    left out), and the engine that a sequence of such calls produces from
    a new one. *)
Inductive EngineCall :=
  | Initialize (storage : SecretStorage.t) (now : Z)
  | TrustUser (transport userId username dmChatId : string) (now : Z)
  | TouchUser (transport userId : string) (now : Z)
  | UntrustUser (transport userId : string)
  | AuthorizeChannel (transport channelId userId : string) (channelName : option string)
      (mode : string) (now : Z)
  | RevokeChannel (transport channelId byUserId : string)
  | TrackChannel (transport channelId : string) (channelName : option string)
  | IsBlocked (transport chatId : string) (now : Z)
  | HasPendingChallenge (transport chatId : string) (now : Z)
  | CreateChallenge (transport chatId username code : string) (now : Z)
  | VerifyChallenge (transport chatId response userId username : string) (isDM : bool)
      (now : Z)
  | ClearOnConnect
  | Reset.

Definition callEngine (toLowerCase : string → string) (s : ChallengeAuth.t)
    (c : EngineCall) : ChallengeAuth.t :=
  match c with
  | Initialize storage now => ChallengeAuth.initialize s storage now
  | TrustUser transport userId username dmChatId now =>
      ChallengeAuth.trustUser s transport userId username dmChatId now
  | TouchUser transport userId now => ChallengeAuth.touchUser s transport userId now
  | UntrustUser transport userId => (ChallengeAuth.untrustUser s transport userId).2
  | AuthorizeChannel transport channelId userId channelName mode now =>
      (ChallengeAuth.authorizeChannel s transport channelId userId channelName mode now).2
  | RevokeChannel transport channelId byUserId =>
      (ChallengeAuth.revokeChannel s transport channelId byUserId).2
  | TrackChannel transport channelId channelName =>
      ChallengeAuth.trackChannel toLowerCase s transport channelId channelName
  | IsBlocked transport chatId now => (ChallengeAuth.isBlocked s transport chatId now).2
  | HasPendingChallenge transport chatId now =>
      (ChallengeAuth.hasPendingChallenge s transport chatId now).2
  | CreateChallenge transport chatId username code now =>
      (ChallengeAuth.createChallenge s transport chatId username code now).2
  | VerifyChallenge transport chatId response userId username isDM now =>
      (ChallengeAuth.verifyChallenge s transport chatId response userId username isDM now).2
  | ClearOnConnect => ChallengeAuth.clearOnConnect s
  | Reset => ChallengeAuth.reset s
  end.

Definition engineAfter (toLowerCase : string → string) (calls : list EngineCall)
    : ChallengeAuth.t :=
  foldl (callEngine toLowerCase) ChallengeAuth.init calls.

(** Every authorized channel is stored under the key of its own transport
    and id, and was authorized by a user of that transport who is trusted
    now. *)
Definition channels_have_trusted_authorizers (s : ChallengeAuth.t) : Prop :=
  ∀ key channel,
    ChallengeAuth.authorizedChannels s !! key = Some channel →
    key = ChallengeAuth.makeChannelKey (AuthorizedChannel.transport channel)
            (AuthorizedChannel.channelId channel)
    ∧ ∃ userId,
        AuthorizedChannel.authorizedBy channel
        = ChallengeAuth.makeUserKey (AuthorizedChannel.transport channel) userId
        ∧ ChallengeAuth.isUserTrusted s (AuthorizedChannel.transport channel) userId = true.

(** Every recorded challenge has used fewer than three attempts. *)
Definition challenges_have_attempts_left (s : ChallengeAuth.t) : Prop :=
  ∀ key challenge,
    ChallengeAuth.pendingChallenges s !! key = Some challenge →
    0 ≤ PendingChallenge.attempts challenge < 3.

(** An effect that is a message sent to the chat the incoming message
    came from, or the incoming message itself given to a waiter. *)
Definition concerns (msg : ExternalMessage.t) (e : Effect) : Prop :=
  match e with
  | Send transport chatId _ =>
      transport = ExternalMessage.transport msg ∧ chatId = ExternalMessage.chatId msg
  | Resolve _ delivered => delivered = msg
  end.

Definition isSend (e : Effect) : bool :=
  match e with
  | Send _ _ _ => true
  | Resolve _ _ => false
  end.

(** Whether the router may pass a message on to the consumer: its
    transport is registered, its chat is not locked out, and it is a
    direct message of an authenticated chat or a group message that
    [canRespondTo] allows. *)
Definition routable (a : ChallengeAuth.t) (m : TransportManager.t)
    (msg : ExternalMessage.t) (now : Z) : bool :=
  bool_decide (ExternalMessage.transport msg ∈ TransportManager.transports m)
  && negb (ChallengeAuth.isBlocked a (ExternalMessage.transport msg)
             (ExternalMessage.chatId msg) now).1
  && (if ExternalMessage.isDM msg
      then ChallengeAuth.isAuthenticated a (ExternalMessage.transport msg)
             (ExternalMessage.chatId msg)
      else match ChallengeAuth.canRespondTo a msg with
           | Allowed => true
           | Denied _ => false
           end).

(** Whether the router consults the command interpreter for a message:
    in addition, the message is a direct one and its sender is trusted. *)
Definition reachesCommands (a : ChallengeAuth.t) (m : TransportManager.t)
    (msg : ExternalMessage.t) (now : Z) : bool :=
  routable a m msg now
  && ExternalMessage.isDM msg
  && ChallengeAuth.isUserTrusted a (ExternalMessage.transport msg)
       (ExternalMessage.userId msg).

(** The handlers of the messages that a provider passes on in one loop
    (the WhatsApp provider does so for the messages of one
    [messages.upsert] event): each handler runs up to its wait before
    the next message is passed on, and the handlers resume, in the order
    in which they started, once the loop has ended.  This is the order
    of the run when none of the awaited calls waits itself, as is the
    case when no command is given and no code is right.  Each message
    comes with the draw that a new challenge would make. *)
Fixpoint startAll (toLowerCase trim : string → string)
    (adminCommands :
       ChallengeAuth.t → ExternalMessage.t → Z → bool * ChallengeAuth.t * list Reply)
    (a : ChallengeAuth.t) (m : TransportManager.t)
    (batch : list (ExternalMessage.t * string)) (now : Z)
    : ChallengeAuth.t * TransportManager.t * list Effect
      * list TransportManager.Continuation :=
  match batch with
  | [] => (a, m, [], [])
  | (msg, code) :: rest =>
      let '(a1, m1, out1, k) :=
        TransportManager.handleMessageStart toLowerCase trim adminCommands a m msg code now in
      let '(a2, m2, out2, ks) := startAll toLowerCase trim adminCommands a1 m1 rest now in
      (a2, m2, (out1 ++ out2)%list, k :: ks)
  end.


Fixpoint resumeAll (a : ChallengeAuth.t) (m : TransportManager.t)
    (ks : list TransportManager.Continuation) : TransportManager.t * list Effect :=
  match ks with
  | [] => (m, [])
  | k :: rest =>
      let '(m1, out1) := TransportManager.handleMessageResume a m k in
      let '(m2, out2) := resumeAll a m1 rest in
      (m2, (out1 ++ out2)%list)
  end.

Definition handleBatch (toLowerCase trim : string → string)
    (adminCommands :
       ChallengeAuth.t → ExternalMessage.t → Z → bool * ChallengeAuth.t * list Reply)
    (a : ChallengeAuth.t) (m : TransportManager.t)
    (batch : list (ExternalMessage.t * string)) (now : Z)
    : ChallengeAuth.t * TransportManager.t * list Effect :=
  let '(a1, m1, out1, ks) := startAll toLowerCase trim adminCommands a m batch now in
  let '(m2, out2) := resumeAll a1 m1 ks in
  (a1, m2, (out1 ++ out2)%list).

(** * Runs used to exercise the statements *)

(** A new engine in which the chat [telegram:chat123] has just been
    challenged with the code [123456] at time 0; a router with the four
    transports of the extension; a command interpreter that knows no
    command; a direct message on Telegram. *)
Definition challenged_engine : ChallengeAuth.t :=
  (ChallengeAuth.createChallenge ChallengeAuth.init "telegram" "chat123" "testuser"
     "123456" 0).2.

Definition four_transports : TransportManager.t :=
  TransportManager.register
    (TransportManager.register
       (TransportManager.register
          (TransportManager.register TransportManager.init "telegram") "whatsapp")
       "slack")
    "discord".

Definition no_commands (a : ChallengeAuth.t) (msg : ExternalMessage.t) (now : Z)
    : bool * ChallengeAuth.t * list Reply :=
  (false, a, []).

Definition dm (chatId userId content : string) : ExternalMessage.t :=
  ExternalMessage.mk "1" chatId userId (Some "testuser") content 0 "telegram" true None None.

(** The router run on a sequence of messages, each handled to its end
    before the next one arrives, each with the code that a new challenge
    would draw and the time of its arrival; the result lists what each
    message made happen. *)
Fixpoint route (a : ChallengeAuth.t) (m : TransportManager.t)
    (inputs : list (ExternalMessage.t * string * Z)) : list (list Effect) :=
  match inputs with
  | [] => []
  | (msg, code, now) :: rest =>
      let r := TransportManager.handleMessage id id no_commands a m msg code now in
      r.2 :: route r.1.1 r.1.2 rest
  end.

(** The engine after the code was entered correctly at time 1000. *)
Definition trusted_engine : ChallengeAuth.t :=
  (ChallengeAuth.verifyChallenge challenged_engine "telegram" "chat123" "123456"
     "user123" "testuser" true 1000).2.

(** Two trusted users, one channel authorized by each: revoking the first
    user removes the first channel and keeps the second. *)
Definition two_admins : ChallengeAuth.t :=
  let s1 := ChallengeAuth.trustUser trusted_engine "telegram" "user456" "other" "dm456" 2000 in
  let s2 := (ChallengeAuth.authorizeChannel s1 "telegram" "general" "user123"
               (Some "general") "all" 3000).2 in
  (ChallengeAuth.authorizeChannel s2 "telegram" "random" "user456"
     (Some "random") "mentions" 4000).2.

(** The engine in which the chat [telegram:chat123] was locked out at
    time 3000, until 303000. *)
Definition locked_engine : ChallengeAuth.t :=
  let v1 := ChallengeAuth.verifyChallenge challenged_engine "telegram" "chat123"
              "000000" "user123" "testuser" true 1000 in
  let v2 := ChallengeAuth.verifyChallenge v1.2 "telegram" "chat123"
              "000000" "user123" "testuser" true 2000 in
  (ChallengeAuth.verifyChallenge v2.2 "telegram" "chat123"
     "000000" "user123" "testuser" true 3000).2.

(** The restart simulation of the specification: at day 100, a ledger
    with one user last active 31 days ago and one last active 29 days
    ago. *)
Definition day : Z := 1000 * 60 * 60 * 24.

Definition stale_user : TrustedUser.t :=
  TrustedUser.mk "telegram" "old" "olduser" "dm-old" (Some 0) (Some (69 * day)).

Definition recent_user : TrustedUser.t :=
  TrustedUser.mk "telegram" "recent" "recentuser" "dm-recent" (Some 0) (Some (71 * day)).

Definition stored_ledger : PersistedAuthData.t :=
  PersistedAuthData.mk
    (<["telegram:old" := stale_user]> (<["telegram:recent" := recent_user]> ∅)) 1.

Definition storage_at_restart : SecretStorage.t :=
  SecretStorage.mk (Some (SecretStorage.Document stored_ledger)) false 0.

(** A Slack user who authenticated in the direct-message chat [D0001]
    and is therefore trusted, and the same user writing [help] in another
    direct-message conversation, [G0002] (Slack marks a multi-party
    conversation as a direct message too). *)
Definition slack_trusted_engine : ChallengeAuth.t :=
  let created := ChallengeAuth.createChallenge ChallengeAuth.init "slack" "D0001" "alice"
                   "654321" 0 in
  (ChallengeAuth.verifyChallenge created.2 "slack" "D0001" "654321" "U0001" "alice"
     true 1000).2.

Definition help_from_other_chat : ExternalMessage.t :=
  ExternalMessage.mk "1700000000.000100" "G0002" "U0001" (Some "alice") "help" 2000
    "slack" true (Some false) None.

(** The set-up of the repository's test "Should handle trusted user in DM
    even if not in authenticatedChats": a user trusted directly, with
    the direct-message chat [dm123], who writes from the chat [dm456]. *)
Definition directly_trusted_engine : ChallengeAuth.t :=
  ChallengeAuth.trustUser ChallengeAuth.init "telegram" "user123" "testuser" "dm123" 0.

Definition hello_from_other_chat : ExternalMessage.t :=
  ExternalMessage.mk "msg1" "dm456" "user123" (Some "testuser") "hello" 1000
    "telegram" true None None.

(** The challenged engine after two wrong codes. *)
Definition twice_failed_engine : ChallengeAuth.t :=
  let v1 := ChallengeAuth.verifyChallenge challenged_engine "telegram" "chat123"
              "000000" "user123" "testuser" true 1000 in
  (ChallengeAuth.verifyChallenge v1.2 "telegram" "chat123"
     "000000" "user123" "testuser" true 2000).2.

(** A WhatsApp user who entered the code in the direct chat and then
    enabled a group for everyone; a direct message of that user, a
    message in the group and a second direct message, as the provider
    builds them (the user id is the part of the chat id before [@], and
    no message counts as a mention). *)
Definition whatsapp_engine : ChallengeAuth.t :=
  let created := ChallengeAuth.createChallenge ChallengeAuth.init "whatsapp"
                   "15550001111@s.whatsapp.net" "Alice" "246810" 0 in
  let verified := ChallengeAuth.verifyChallenge created.2 "whatsapp"
                    "15550001111@s.whatsapp.net" "246810" "15550001111" "Alice"
                    true 1000 in
  (ChallengeAuth.authorizeChannel verified.2 "whatsapp" "120363000000000001@g.us"
     "15550001111" (Some "120363000000000001") "all" 2000).2.

Definition whatsapp_dm (id content : string) : ExternalMessage.t :=
  ExternalMessage.mk id "15550001111@s.whatsapp.net" "15550001111" (Some "Alice")
    content 5000 "whatsapp" true (Some false) None.

Definition whatsapp_group_message (id content : string) : ExternalMessage.t :=
  ExternalMessage.mk id "120363000000000001@g.us" "120363000000000001" (Some "Bob")
    content 5000 "whatsapp" false (Some false) (Some "120363000000000001").

Definition mixed_batch : list ExternalMessage.t :=
  [whatsapp_dm "3A01" "first"; whatsapp_group_message "3A02" "second";
   whatsapp_dm "3A03" "third"].

(** A WhatsApp chat that was challenged with the code [135790] at time
    0, and a message of that chat with a wrong code. *)
Definition whatsapp_challenged_engine : ChallengeAuth.t :=
  (ChallengeAuth.createChallenge ChallengeAuth.init "whatsapp"
     "15550002222@s.whatsapp.net" "Carol" "135790" 0).2.

Definition wrong_code (id : string) : ExternalMessage.t :=
  ExternalMessage.mk id "15550002222@s.whatsapp.net" "15550002222" (Some "Carol")
    "000000" 1000 "whatsapp" true (Some false) None.



(** * Properties *)

(** ** Reading the fields of an updated engine *)

Ltac unfold_updates :=
  unfold ChallengeAuth.with_authenticatedChats, ChallengeAuth.with_pendingChallenges,
    ChallengeAuth.with_blockedUsers, ChallengeAuth.with_trustedUsers,
    ChallengeAuth.with_authorizedChannels, ChallengeAuth.with_seenChannels,
    ChallengeAuth.with_secretStorage in *; simpl in *.

Lemma engine_eta (s : ChallengeAuth.t) :
  ChallengeAuth.mk (ChallengeAuth.authenticatedChats s) (ChallengeAuth.pendingChallenges s)
    (ChallengeAuth.blockedUsers s) (ChallengeAuth.trustedUsers s)
    (ChallengeAuth.authorizedChannels s) (ChallengeAuth.seenChannels s)
    (ChallengeAuth.secretStorage s) = s.
Proof. by destruct s. Qed.

Lemma saveToStorage_fields (s : ChallengeAuth.t) :
  ChallengeAuth.authenticatedChats (ChallengeAuth.saveToStorage s) = ChallengeAuth.authenticatedChats s
  ∧ ChallengeAuth.pendingChallenges (ChallengeAuth.saveToStorage s) = ChallengeAuth.pendingChallenges s
  ∧ ChallengeAuth.blockedUsers (ChallengeAuth.saveToStorage s) = ChallengeAuth.blockedUsers s
  ∧ ChallengeAuth.trustedUsers (ChallengeAuth.saveToStorage s) = ChallengeAuth.trustedUsers s
  ∧ ChallengeAuth.authorizedChannels (ChallengeAuth.saveToStorage s) = ChallengeAuth.authorizedChannels s
  ∧ ChallengeAuth.seenChannels (ChallengeAuth.saveToStorage s) = ChallengeAuth.seenChannels s.
Proof. unfold ChallengeAuth.saveToStorage. by destruct (ChallengeAuth.secretStorage s). Qed.

Lemma trustUser_fields (s : ChallengeAuth.t) transport userId username dmChatId now :
  let s' := ChallengeAuth.trustUser s transport userId username dmChatId now in
  ChallengeAuth.authenticatedChats s' = ChallengeAuth.authenticatedChats s
  ∧ ChallengeAuth.pendingChallenges s' = ChallengeAuth.pendingChallenges s
  ∧ ChallengeAuth.blockedUsers s' = ChallengeAuth.blockedUsers s
  ∧ ChallengeAuth.trustedUsers s' =
      <[ChallengeAuth.makeUserKey transport userId :=
          TrustedUser.mk transport userId username dmChatId (Some now) (Some now)]>
        (ChallengeAuth.trustedUsers s)
  ∧ ChallengeAuth.authorizedChannels s' = ChallengeAuth.authorizedChannels s.
Proof.
  intros s'; subst s'; unfold ChallengeAuth.trustUser.
  match goal with |- context [ChallengeAuth.saveToStorage ?x] =>
    destruct (saveToStorage_fields x) as (-> & -> & -> & -> & -> & _) end.
  done.
Qed.

Lemma isUserTrusted_true (s : ChallengeAuth.t) transport userId :
  ChallengeAuth.isUserTrusted s transport userId = true
  ↔ is_Some (ChallengeAuth.trustedUsers s !! ChallengeAuth.makeUserKey transport userId).
Proof. unfold ChallengeAuth.isUserTrusted. by rewrite bool_decide_eq_true. Qed.


Lemma isAuthenticated_true (s : ChallengeAuth.t) transport chatId :
  ChallengeAuth.isAuthenticated s transport chatId = true
  ↔ ChallengeAuth.makeKey transport chatId ∈ ChallengeAuth.authenticatedChats s.
Proof. unfold ChallengeAuth.isAuthenticated. by rewrite bool_decide_eq_true. Qed.


(** ** The permission decision *)

Section PermissionDecision.

Variable s : ChallengeAuth.t.
Variable msg : ExternalMessage.t.

Let transport := ExternalMessage.transport msg.
Let chatId := ExternalMessage.chatId msg.
Let userId := ExternalMessage.userId msg.
Let trusted := ChallengeAuth.isUserTrusted s transport userId.
Let mentioned := truthy_bool (ExternalMessage.mentionsBot msg).

(** C1.  [canRespondTo] follows the truth table of the specification.
    A direct message is allowed exactly when its chat is authenticated or
    its sender is trusted, and is otherwise denied as [not-dm-authed].  A
    group message in a channel without a record is denied as
    [channel-not-authorized]; with a record, mode [all] allows, mode
    [trusted-only] allows exactly the trusted senders and denies the
    others as [not-trusted-in-channel], and mode [mentions] (like any
    other mode string) allows exactly the trusted senders and the
    messages that mention the bot and denies the rest as [no-mention]. *)
Theorem canRespondTo_truth_table :
  (ExternalMessage.isDM msg = true →
     (ChallengeAuth.canRespondTo s msg = Allowed
      ↔ ChallengeAuth.isAuthenticated s transport chatId = true ∨ trusted = true)
     ∧ (ChallengeAuth.canRespondTo s msg ≠ Allowed
        → ChallengeAuth.canRespondTo s msg = Denied not_dm_authed))
  ∧ (ExternalMessage.isDM msg = false →
     (ChallengeAuth.getChannelAuth s transport chatId = None
      → ChallengeAuth.canRespondTo s msg = Denied channel_not_authorized)
     ∧ ∀ channelAuth,
         ChallengeAuth.getChannelAuth s transport chatId = Some channelAuth →
         (AuthorizedChannel.mode channelAuth = "all"
          → ChallengeAuth.canRespondTo s msg = Allowed)
         ∧ (AuthorizedChannel.mode channelAuth = "trusted-only"
            → (ChallengeAuth.canRespondTo s msg = Allowed ↔ trusted = true)
              ∧ (trusted = false
                 → ChallengeAuth.canRespondTo s msg = Denied not_trusted_in_channel))
         ∧ (AuthorizedChannel.mode channelAuth = "mentions"
            ∨ (AuthorizedChannel.mode channelAuth ≠ "all"
               ∧ AuthorizedChannel.mode channelAuth ≠ "trusted-only")
            → (ChallengeAuth.canRespondTo s msg = Allowed
               ↔ trusted = true ∨ mentioned = true)
              ∧ (trusted = false → mentioned = false
                 → ChallengeAuth.canRespondTo s msg = Denied no_mention))).
Proof.
  unfold ChallengeAuth.canRespondTo, trusted, mentioned.
  fold transport chatId userId.
  destruct (ChallengeAuth.isUserTrusted s transport userId) eqn:Htrusted;
    destruct (truthy_bool (ExternalMessage.mentionsBot msg)) eqn:Hmention;
    (split; intros ->;
     [ destruct (ChallengeAuth.isAuthenticated s transport chatId); simpl;
       intuition congruence
     | split; [by intros -> |];
       intros channelAuth ->;
       destruct (String.eqb_spec (AuthorizedChannel.mode channelAuth) "all");
       destruct (String.eqb_spec (AuthorizedChannel.mode channelAuth) "trusted-only");
       simpl; intuition congruence ]).
Qed.

End PermissionDecision.
(** ** The challenge life cycle *)

Section ChallengeLifecycle.

Variable a : ChallengeAuth.t.
Variables transport chatId : string.

Let key := ChallengeAuth.makeKey transport chatId.

Lemma verifyChallenge_none response userId username isDM now :
  ChallengeAuth.pendingChallenges a !! key = None →
  ChallengeAuth.verifyChallenge a transport chatId response userId username isDM now
  = (Expired, a).
Proof. unfold ChallengeAuth.verifyChallenge. fold key. by intros ->. Qed.

Lemma verifyChallenge_stale challenge response userId username isDM now :
  ChallengeAuth.pendingChallenges a !! key = Some challenge →
  PendingChallenge.expiresAt challenge < now →
  ChallengeAuth.verifyChallenge a transport chatId response userId username isDM now
  = (Expired,
     ChallengeAuth.with_pendingChallenges a (delete key (ChallengeAuth.pendingChallenges a))).
Proof.
  unfold ChallengeAuth.verifyChallenge. fold key. intros -> Hlate.
  apply Z.ltb_lt in Hlate. by rewrite Hlate.
Qed.

Lemma verifyChallenge_match challenge userId username isDM now :
  ChallengeAuth.pendingChallenges a !! key = Some challenge →
  now ≤ PendingChallenge.expiresAt challenge →
  let r := ChallengeAuth.verifyChallenge a transport chatId
             (PendingChallenge.key challenge) userId username isDM now in
  r.1 = Success
  ∧ ChallengeAuth.pendingChallenges r.2 = delete key (ChallengeAuth.pendingChallenges a)
  ∧ ChallengeAuth.authenticatedChats r.2 = {[ key ]} ∪ ChallengeAuth.authenticatedChats a
  ∧ ChallengeAuth.blockedUsers r.2 = ChallengeAuth.blockedUsers a
  ∧ ChallengeAuth.trustedUsers r.2 =
      (if isDM
       then <[ChallengeAuth.makeUserKey transport userId :=
                TrustedUser.mk transport userId username chatId (Some now) (Some now)]>
              (ChallengeAuth.trustedUsers a)
       else ChallengeAuth.trustedUsers a).
Proof.
  unfold ChallengeAuth.verifyChallenge. fold key. intros -> Hlive.
  assert ((PendingChallenge.expiresAt challenge <? now) = false) as -> by by apply Z.ltb_ge.
  rewrite String.eqb_refl. simpl.
  destruct isDM; [| done].
  match goal with |- context [ChallengeAuth.trustUser ?x ?t ?u ?n ?d ?w] =>
    destruct (trustUser_fields x t u n d w) as (-> & -> & -> & -> & _) end.
  done.
Qed.

Lemma verifyChallenge_mismatch challenge response userId username isDM now :
  ChallengeAuth.pendingChallenges a !! key = Some challenge →
  now ≤ PendingChallenge.expiresAt challenge →
  response ≠ PendingChallenge.key challenge →
  ChallengeAuth.verifyChallenge a transport chatId response userId username isDM now
  = if ChallengeAuth.MAX_ATTEMPTS - (PendingChallenge.attempts challenge + 1) <=? 0
    then (Blocked,
          ChallengeAuth.with_blockedUsers
            (ChallengeAuth.with_pendingChallenges a
               (delete key (ChallengeAuth.pendingChallenges a)))
            (<[key := BlockedUser.mk (now + ChallengeAuth.BLOCK_DURATION_MS)]>
               (ChallengeAuth.blockedUsers a)))
    else (Wrong,
          ChallengeAuth.with_pendingChallenges a
            (<[key := PendingChallenge.mk (PendingChallenge.key challenge)
                        (PendingChallenge.expiresAt challenge)
                        (PendingChallenge.attempts challenge + 1)]>
               (ChallengeAuth.pendingChallenges a))).
Proof.
  unfold ChallengeAuth.verifyChallenge. fold key. intros -> Hlive Hne.
  assert ((PendingChallenge.expiresAt challenge <? now) = false) as -> by by apply Z.ltb_ge.
  apply String.eqb_neq in Hne. rewrite Hne.
  destruct (_ <=? 0); [| done].
  unfold_updates. by rewrite delete_insert_eq.
Qed.

End ChallengeLifecycle.

(** ** The lockout gate of the router *)

Section LockoutGate.

Variable toLowerCase : string → string.
Variable trim : string → string.
Variable adminCommands :
  ChallengeAuth.t → ExternalMessage.t → Z → bool * ChallengeAuth.t * list Reply.

Lemma handleMessage_locked_out (a : ChallengeAuth.t) (m : TransportManager.t)
    (msg : ExternalMessage.t) (code : string) (now : Z) (blocked : BlockedUser.t) :
  ExternalMessage.transport msg ∈ TransportManager.transports m →
  ChallengeAuth.blockedUsers a
    !! ChallengeAuth.makeKey (ExternalMessage.transport msg) (ExternalMessage.chatId msg)
  = Some blocked →
  now ≤ BlockedUser.until blocked →
  TransportManager.handleMessage toLowerCase trim adminCommands a m msg code now
  = (a, m,
     [Send (ExternalMessage.transport msg) (ExternalMessage.chatId msg)
        (LockoutNotice (ChallengeAuth.ceilMinutes (BlockedUser.until blocked - now)))]).
Proof.
  intros Hreg Hblocked Hstill.
  unfold TransportManager.handleMessage.
  rewrite (bool_decide_eq_true_2 _ Hreg). simpl.
  unfold ChallengeAuth.isBlocked, ChallengeAuth.getBlockTimeRemaining.
  rewrite Hblocked.
  assert ((BlockedUser.until blocked <? now) = false) as -> by by apply Z.ltb_ge.
  by rewrite Hblocked.
Qed.

End LockoutGate.

(** C2.  Three wrong codes in a row on a challenge that has no failed
    attempt yet, each submitted before the challenge expires, are
    answered [wrong], [wrong], [blocked]; the third removes the challenge
    and records a lockout that ends five minutes later; and until that
    moment the router answers every message of that chat, whatever its
    content, with the lockout notice and changes nothing. *)
Theorem three_wrong_codes_then_blocked
    (toLowerCase trim : string → string)
    (adminCommands :
       ChallengeAuth.t → ExternalMessage.t → Z → bool * ChallengeAuth.t * list Reply)
    (a : ChallengeAuth.t) (transport chatId : string) (challenge : PendingChallenge.t)
    (r1 r2 r3 u1 u2 u3 n1 n2 n3 : string) (d1 d2 d3 : bool) (t1 t2 t3 : Z) :
  ChallengeAuth.pendingChallenges a !! ChallengeAuth.makeKey transport chatId
  = Some challenge →
  PendingChallenge.attempts challenge = 0 →
  t1 ≤ PendingChallenge.expiresAt challenge →
  t2 ≤ PendingChallenge.expiresAt challenge →
  t3 ≤ PendingChallenge.expiresAt challenge →
  r1 ≠ PendingChallenge.key challenge →
  r2 ≠ PendingChallenge.key challenge →
  r3 ≠ PendingChallenge.key challenge →
  let v1 := ChallengeAuth.verifyChallenge a transport chatId r1 u1 n1 d1 t1 in
  let v2 := ChallengeAuth.verifyChallenge v1.2 transport chatId r2 u2 n2 d2 t2 in
  let v3 := ChallengeAuth.verifyChallenge v2.2 transport chatId r3 u3 n3 d3 t3 in
  v1.1 = Wrong ∧ v2.1 = Wrong ∧ v3.1 = Blocked
  ∧ ChallengeAuth.pendingChallenges v3.2 !! ChallengeAuth.makeKey transport chatId = None
  ∧ ChallengeAuth.blockedUsers v3.2 !! ChallengeAuth.makeKey transport chatId
    = Some (BlockedUser.mk (t3 + 5 * 60 * 1000))
  ∧ ∀ (m : TransportManager.t) (msg : ExternalMessage.t) (code : string) (now : Z),
      ExternalMessage.transport msg = transport →
      ExternalMessage.chatId msg = chatId →
      transport ∈ TransportManager.transports m →
      now ≤ t3 + 5 * 60 * 1000 →
      TransportManager.handleMessage toLowerCase trim adminCommands v3.2 m msg code now
      = (v3.2, m,
         [Send transport chatId
            (LockoutNotice (ChallengeAuth.ceilMinutes (t3 + 5 * 60 * 1000 - now)))]).
Proof.
  intros Hpending Hfresh Ht1 Ht2 Ht3 Hr1 Hr2 Hr3 v1 v2 v3.
  set (key := ChallengeAuth.makeKey transport chatId) in *.
  assert (v1 = (Wrong,
            ChallengeAuth.with_pendingChallenges a
              (<[key := PendingChallenge.mk (PendingChallenge.key challenge)
                          (PendingChallenge.expiresAt challenge) 1]>
                 (ChallengeAuth.pendingChallenges a)))) as E1.
  { subst v1.
    rewrite (verifyChallenge_mismatch a transport chatId challenge) by done.
    by rewrite Hfresh. }
  assert (v2 = (Wrong,
            ChallengeAuth.with_pendingChallenges a
              (<[key := PendingChallenge.mk (PendingChallenge.key challenge)
                          (PendingChallenge.expiresAt challenge) 2]>
                 (ChallengeAuth.pendingChallenges a)))) as E2.
  { subst v2. rewrite E1. simpl.
    rewrite (verifyChallenge_mismatch _ transport chatId
               (PendingChallenge.mk (PendingChallenge.key challenge)
                  (PendingChallenge.expiresAt challenge) 1));
      [| apply lookup_insert_eq | done | done].
    simpl. unfold_updates. fold key. by rewrite insert_insert_eq. }
  assert (v3 = (Blocked,
            ChallengeAuth.with_blockedUsers
              (ChallengeAuth.with_pendingChallenges a
                 (delete key (ChallengeAuth.pendingChallenges a)))
              (<[key := BlockedUser.mk (t3 + 5 * 60 * 1000)]>
                 (ChallengeAuth.blockedUsers a)))) as E3.
  { subst v3. rewrite E2. simpl.
    rewrite (verifyChallenge_mismatch _ transport chatId
               (PendingChallenge.mk (PendingChallenge.key challenge)
                  (PendingChallenge.expiresAt challenge) 2));
      [| apply lookup_insert_eq | done | done].
    simpl. unfold_updates. fold key. by rewrite delete_insert_eq. }
  rewrite E1, E2, E3. simpl.
  repeat split.
  - apply lookup_delete_eq.
  - apply lookup_insert_eq.
  - intros m msg code now <- <- Hreg Hnow.
    by apply handleMessage_locked_out with (blocked := BlockedUser.mk (t3 + 5 * 60 * 1000));
      [| apply lookup_insert_eq |].
Qed.

Lemma three_wrong_codes_then_blocked_witness :
  let v1 := ChallengeAuth.verifyChallenge challenged_engine "telegram" "chat123"
              "000000" "user123" "testuser" true 1000 in
  let v2 := ChallengeAuth.verifyChallenge v1.2 "telegram" "chat123"
              "111111" "user123" "testuser" true 2000 in
  let v3 := ChallengeAuth.verifyChallenge v2.2 "telegram" "chat123"
              "222222" "user123" "testuser" true 3000 in
  v1.1 = Wrong ∧ v2.1 = Wrong ∧ v3.1 = Blocked
  ∧ ChallengeAuth.pendingChallenges v3.2 !! ChallengeAuth.makeKey "telegram" "chat123" = None
  ∧ ChallengeAuth.blockedUsers v3.2 !! ChallengeAuth.makeKey "telegram" "chat123"
    = Some (BlockedUser.mk (3000 + 5 * 60 * 1000))
  ∧ ∀ (m : TransportManager.t) (msg : ExternalMessage.t) (code : string) (now : Z),
      ExternalMessage.transport msg = "telegram" →
      ExternalMessage.chatId msg = "chat123" →
      "telegram" ∈ TransportManager.transports m →
      now ≤ 3000 + 5 * 60 * 1000 →
      TransportManager.handleMessage id id no_commands v3.2 m msg code now
      = (v3.2, m,
         [Send "telegram" "chat123"
            (LockoutNotice (ChallengeAuth.ceilMinutes (3000 + 5 * 60 * 1000 - now)))]).
Proof.
  apply (three_wrong_codes_then_blocked id id no_commands challenged_engine
           "telegram" "chat123" (PendingChallenge.mk "123456" 120000 0)).
  - vm_compute. reflexivity.
  - reflexivity.
  - simpl. lia.
  - simpl. lia.
  - simpl. lia.
  - discriminate.
  - discriminate.
  - discriminate.
Defined.

(** The same through the router, from the first message of an unknown
    chat: the prompt, two wrong codes, the third that locks the chat, the
    right code refused during the lockout, and a new prompt once the
    lockout has passed. *)
Example three_wrong_codes_through_the_router :
  route ChallengeAuth.init four_transports
    [ (dm "chat123" "user123" "hello", "123456", 0);
      (dm "chat123" "user123" "000000", "", 1000);
      (dm "chat123" "user123" "111111", "", 2000);
      (dm "chat123" "user123" "222222", "", 3000);
      (dm "chat123" "user123" "123456", "", 4000);
      (dm "chat123" "user123" "anything", "", 303000);
      (dm "chat123" "user123" "hello again", "777777", 303001) ]
  = [ [Send "telegram" "chat123" AuthenticationRequired];
      [Send "telegram" "chat123" (WrongCodeNotice 2)];
      [Send "telegram" "chat123" (WrongCodeNotice 1)];
      [Send "telegram" "chat123" BlockedNotice];
      [Send "telegram" "chat123" (LockoutNotice 5)];
      [Send "telegram" "chat123" (LockoutNotice 0)];
      [Send "telegram" "chat123" AuthenticationRequired] ].
Proof. vm_compute. reflexivity. Qed.

(** C3.  The correct code, submitted for a pending challenge that has not
    expired, is answered [success] and consumes the challenge, so every
    later submission for that chat (the same code included) is answered
    [expired] and changes nothing; a submission without a pending
    challenge is answered [expired]; and a submission after [expiresAt]
    is answered [expired] and removes the challenge. *)
Theorem correct_code_succeeds_exactly_once
    (a : ChallengeAuth.t) (transport chatId : string) :
  (∀ (challenge : PendingChallenge.t) (userId username : string) (isDM : bool) (now : Z),
     ChallengeAuth.pendingChallenges a !! ChallengeAuth.makeKey transport chatId
     = Some challenge →
     now ≤ PendingChallenge.expiresAt challenge →
     let v := ChallengeAuth.verifyChallenge a transport chatId
                (PendingChallenge.key challenge) userId username isDM now in
     v.1 = Success
     ∧ ChallengeAuth.pendingChallenges v.2 !! ChallengeAuth.makeKey transport chatId = None
     ∧ ChallengeAuth.isAuthenticated v.2 transport chatId = true
     ∧ ∀ (response userId' username' : string) (isDM' : bool) (now' : Z),
         ChallengeAuth.verifyChallenge v.2 transport chatId response userId' username'
           isDM' now'
         = (Expired, v.2))
  ∧ (∀ (response userId username : string) (isDM : bool) (now : Z),
       ChallengeAuth.pendingChallenges a !! ChallengeAuth.makeKey transport chatId = None →
       ChallengeAuth.verifyChallenge a transport chatId response userId username isDM now
       = (Expired, a))
  ∧ (∀ (challenge : PendingChallenge.t) (response userId username : string)
       (isDM : bool) (now : Z),
       ChallengeAuth.pendingChallenges a !! ChallengeAuth.makeKey transport chatId
       = Some challenge →
       PendingChallenge.expiresAt challenge < now →
       let v := ChallengeAuth.verifyChallenge a transport chatId response userId username
                  isDM now in
       v.1 = Expired
       ∧ ChallengeAuth.pendingChallenges v.2 !! ChallengeAuth.makeKey transport chatId
         = None).
Proof.
  split; [| split].
  - intros challenge userId username isDM now Hpending Hlive v.
    destruct (verifyChallenge_match a transport chatId challenge userId username isDM now
                Hpending Hlive) as (Hres & Hpend & Hchats & _).
    fold v in Hres, Hpend, Hchats.
    assert (ChallengeAuth.pendingChallenges v.2 !! ChallengeAuth.makeKey transport chatId
            = None) as Hgone
      by (rewrite Hpend; apply lookup_delete_eq).
    repeat split; [done | done | |].
    + apply isAuthenticated_true. rewrite Hchats.
      apply elem_of_union; left. by apply elem_of_singleton.
    + intros. by apply verifyChallenge_none.
  - intros. by apply verifyChallenge_none.
  - intros challenge response userId username isDM now Hpending Hlate v. subst v.
    rewrite (verifyChallenge_stale a transport chatId challenge) by done.
    split; [done |]. apply lookup_delete_eq.
Qed.

(** The same on a challenge that was just created: the code drawn by
    [createChallenge] is accepted once, within its two minutes. *)
Lemma fresh_challenge_accepts_its_code_once :
  let created := ChallengeAuth.createChallenge ChallengeAuth.init "telegram" "chat123"
                   "testuser" "123456" 0 in
  let v := ChallengeAuth.verifyChallenge created.2 "telegram" "chat123" created.1
             "user123" "testuser" true 119999 in
  let again := ChallengeAuth.verifyChallenge v.2 "telegram" "chat123" created.1
                 "user123" "testuser" true 120000 in
  v.1 = Success ∧ again.1 = Expired
  ∧ ChallengeAuth.isUserTrusted v.2 "telegram" "user123" = true.
Proof. vm_compute. done. Qed.

(** ** Revoking trust *)

(** What the revocation loop leaves in the map, for an arbitrary map the
    deletions are applied to. *)
Lemma revocation_loop_lookup (key : string)
    (visited acc : gmap string AuthorizedChannel.t) (channelKey : string) :
  map_fold (ChallengeAuth.revokeIfAuthorizedBy key) acc visited !! channelKey
  = match visited !! channelKey with
    | Some channel =>
        if decide (AuthorizedChannel.authorizedBy channel = key) then None
        else acc !! channelKey
    | None => acc !! channelKey
    end.
Proof.
  revert channelKey.
  apply (map_fold_weak_ind
           (λ r (m : gmap string AuthorizedChannel.t), ∀ channelKey,
              r !! channelKey
              = match m !! channelKey with
                | Some channel =>
                    if decide (AuthorizedChannel.authorizedBy channel = key) then None
                    else acc !! channelKey
                | None => acc !! channelKey
                end)).
  - intros channelKey. by rewrite lookup_empty.
  - intros i x m r Hfresh IH channelKey.
    unfold ChallengeAuth.revokeIfAuthorizedBy.
    destruct (decide (i = channelKey)) as [<- | Hne].
    + rewrite lookup_insert_eq.
      destruct (decide (AuthorizedChannel.authorizedBy x = key)).
      * apply lookup_delete_eq.
      * by rewrite IH, Hfresh.
    + rewrite lookup_insert_ne by done.
      destruct (decide (AuthorizedChannel.authorizedBy x = key)).
      * rewrite lookup_delete_ne by done. apply IH.
      * apply IH.
Qed.

Lemma untrustUser_trusted (s : ChallengeAuth.t) (transport userId : string)
    (user : TrustedUser.t) :
  ChallengeAuth.trustedUsers s !! ChallengeAuth.makeUserKey transport userId = Some user →
  let key := ChallengeAuth.makeUserKey transport userId in
  let r := ChallengeAuth.untrustUser s transport userId in
  r.1 = true
  ∧ ChallengeAuth.trustedUsers r.2 = delete key (ChallengeAuth.trustedUsers s)
  ∧ ChallengeAuth.authorizedChannels r.2
    = map_fold (ChallengeAuth.revokeIfAuthorizedBy key)
        (ChallengeAuth.authorizedChannels s) (ChallengeAuth.authorizedChannels s)
  ∧ ChallengeAuth.authenticatedChats r.2
    = ChallengeAuth.authenticatedChats s
      ∖ {[ ChallengeAuth.makeKey transport (TrustedUser.dmChatId user) ]}
  ∧ ChallengeAuth.pendingChallenges r.2 = ChallengeAuth.pendingChallenges s
  ∧ ChallengeAuth.blockedUsers r.2 = ChallengeAuth.blockedUsers s
  ∧ ChallengeAuth.secretStorage r.2
    = (λ st, SecretStorage.store st
               (PersistedAuthData.mk (delete key (ChallengeAuth.trustedUsers s))
                  ChallengeAuth.STORAGE_VERSION))
      <$> ChallengeAuth.secretStorage s.
Proof.
  intros Huser key r. subst r key. unfold ChallengeAuth.untrustUser.
  rewrite Huser. simpl.
  match goal with |- context [ChallengeAuth.saveToStorage ?x] =>
    destruct (saveToStorage_fields x) as (-> & -> & -> & -> & -> & _);
    unfold ChallengeAuth.saveToStorage end.
  destruct (ChallengeAuth.secretStorage s) eqn:E; unfold_updates; rewrite ?E;
    repeat split; reflexivity.
Qed.

(** C4.  Revoking the trust of a trusted user removes the user's entry,
    removes every authorized channel whose [authorizedBy] is the user's
    key and leaves every other channel as it was, writes the remaining
    trusted users to the storage (when one is attached and accepts the
    write), and returns [true]; for a user who is not trusted the call
    returns [false] and the engine is unchanged. *)
Theorem untrustUser_cascades_to_own_channels
    (s : ChallengeAuth.t) (transport userId : string) :
  let key := ChallengeAuth.makeUserKey transport userId in
  let r := ChallengeAuth.untrustUser s transport userId in
  (is_Some (ChallengeAuth.trustedUsers s !! key) →
     r.1 = true
     ∧ ChallengeAuth.trustedUsers r.2 !! key = None
     ∧ (∀ other, other ≠ key →
          ChallengeAuth.trustedUsers r.2 !! other = ChallengeAuth.trustedUsers s !! other)
     ∧ (∀ channelKey channel,
          ChallengeAuth.authorizedChannels s !! channelKey = Some channel →
          AuthorizedChannel.authorizedBy channel = key →
          ChallengeAuth.authorizedChannels r.2 !! channelKey = None)
     ∧ (∀ channelKey,
          (∀ channel, ChallengeAuth.authorizedChannels s !! channelKey = Some channel →
                      AuthorizedChannel.authorizedBy channel ≠ key) →
          ChallengeAuth.authorizedChannels r.2 !! channelKey
          = ChallengeAuth.authorizedChannels s !! channelKey)
     ∧ (∀ st, ChallengeAuth.secretStorage s = Some st →
          SecretStorage.failing st = false →
          ChallengeAuth.secretStorage r.2
          = Some (SecretStorage.mk
                    (Some (SecretStorage.Document
                             (PersistedAuthData.mk (ChallengeAuth.trustedUsers r.2) 1)))
                    false (S (SecretStorage.writes st)))))
  ∧ (ChallengeAuth.trustedUsers s !! key = None → r = (false, s)).
Proof.
  intros key r. split.
  - intros [user Huser].
    destruct (untrustUser_trusted s transport userId user Huser)
      as (Hres & Htrusted & Hchannels & _ & _ & _ & Hstore).
    fold key in Htrusted, Hchannels, Hstore. fold r in Hres, Htrusted, Hchannels, Hstore.
    rewrite Htrusted, Hchannels, Hstore.
    repeat split; [done | apply lookup_delete_eq | | | |].
    + intros other Hother. by apply lookup_delete_ne.
    + intros channelKey channel Hlookup Hby.
      rewrite revocation_loop_lookup, Hlookup. by rewrite decide_True.
    + intros channelKey Hothers.
      rewrite revocation_loop_lookup.
      destruct (ChallengeAuth.authorizedChannels s !! channelKey) as [channel|] eqn:E;
        [| done].
      rewrite decide_False; [done | by apply Hothers].
    + intros st -> Hok. simpl. unfold SecretStorage.store. by rewrite Hok.
  - intros Hnone. subst r. unfold ChallengeAuth.untrustUser. fold key. by rewrite Hnone.
Qed.






Example untrustUser_two_admins :
  let r := ChallengeAuth.untrustUser two_admins "telegram" "user123" in
  r.1 = true
  ∧ ChallengeAuth.isChannelAuthorized two_admins "telegram" "general" = true
  ∧ ChallengeAuth.isChannelAuthorized r.2 "telegram" "general" = false
  ∧ ChallengeAuth.isChannelAuthorized r.2 "telegram" "random" = true
  ∧ ChallengeAuth.isUserTrusted r.2 "telegram" "user123" = false
  ∧ ChallengeAuth.isUserTrusted r.2 "telegram" "user456" = true
  ∧ (ChallengeAuth.untrustUser r.2 "telegram" "user123").1 = false.
Proof. vm_compute. done. Qed.

(** ** Keys *)

Lemma list_ascii_of_string_append (s1 s2 : string) :
  list_ascii_of_string (s1 +:+ s2)
  = (list_ascii_of_string s1 ++ list_ascii_of_string s2)%list.
Proof. induction s1 as [| c s1 IH]; simpl; [done | by rewrite IH]. Qed.

Lemma append_inv_tail (s1 s2 t : string) : s1 +:+ t = s2 +:+ t → s1 = s2.
Proof.
  intros H. apply (f_equal list_ascii_of_string) in H.
  rewrite !list_ascii_of_string_append in H.
  apply app_inv_tail in H.
  apply (f_equal string_of_list_ascii) in H.
  by rewrite !string_of_list_ascii_of_string in H.
Qed.

Lemma key_splits_at_first_colon (t1 t2 i1 i2 : string) :
  hasColon t1 = false → hasColon t2 = false →
  t1 +:+ ":" +:+ i1 = t2 +:+ ":" +:+ i2 →
  t1 = t2 ∧ i1 = i2.
Proof.
  revert t2. induction t1 as [| c1 t1 IH]; intros [| c2 t2]; simpl; intros H1 H2 E.
  - by inversion E.
  - inversion E; subst. by rewrite Ascii.eqb_refl in H2.
  - inversion E; subst. by rewrite Ascii.eqb_refl in H1.
  - apply orb_false_iff in H1 as [_ H1]. apply orb_false_iff in H2 as [_ H2].
    inversion E; subst.
    destruct (IH t2 H1 H2) as [-> ->]; done.
Qed.

(** C5 fails as stated: the key is the two parts joined by a colon, so a
    colon in the transport name lets two different pairs share a key, and
    trusting one makes the other read as trusted. *)
Lemma makeKey_collision :
  ("a", "b:c") ≠ ("a:b", "c")
  ∧ ChallengeAuth.makeKey "a" "b:c" = ChallengeAuth.makeKey "a:b" "c"
  ∧ ChallengeAuth.isUserTrusted ChallengeAuth.init "a:b" "c" = false
  ∧ ChallengeAuth.isUserTrusted
      (ChallengeAuth.trustUser ChallengeAuth.init "a" "b:c" "eve" "dm1" 0) "a:b" "c" = true.
Proof. split; [discriminate |]. vm_compute. done. Qed.

(** C5, amended.  For one and the same id, two different transports give
    different keys, so trusting a user on one transport leaves the answer
    of [isUserTrusted] for that id on every other transport as it was;
    and two pairs whose transport names contain no colon (as the names of
    the registered transports do) share a key only if they are the same
    pair. *)
Theorem keys_separate_transports :
  (∀ A B id : string, A ≠ B → ChallengeAuth.makeKey A id ≠ ChallengeAuth.makeKey B id)
  ∧ (∀ (s : ChallengeAuth.t) (A B userId username dmChatId : string) (now : Z),
       A ≠ B →
       ChallengeAuth.isUserTrusted
         (ChallengeAuth.trustUser s A userId username dmChatId now) B userId
       = ChallengeAuth.isUserTrusted s B userId)
  ∧ (∀ t1 i1 t2 i2 : string,
       hasColon t1 = false → hasColon t2 = false →
       (t1, i1) ≠ (t2, i2) →
       ChallengeAuth.makeKey t1 i1 ≠ ChallengeAuth.makeKey t2 i2
       ∧ ChallengeAuth.makeUserKey t1 i1 ≠ ChallengeAuth.makeUserKey t2 i2
       ∧ ChallengeAuth.makeChannelKey t1 i1 ≠ ChallengeAuth.makeChannelKey t2 i2).
Proof.
  assert (∀ A B id : string, A ≠ B → A +:+ ":" +:+ id ≠ B +:+ ":" +:+ id) as Hsame.
  { intros A B id Hne E. apply Hne. by apply append_inv_tail in E. }
  split; [exact Hsame | split].
  - intros s A B userId username dmChatId now Hne.
    unfold ChallengeAuth.isUserTrusted.
    destruct (trustUser_fields s A userId username dmChatId now) as (_ & _ & _ & -> & _).
    rewrite lookup_insert_ne; [done |]. by apply Hsame.
  - intros t1 i1 t2 i2 H1 H2 Hne.
    assert (t1 +:+ ":" +:+ i1 ≠ t2 +:+ ":" +:+ i2) as Hkey.
    { intros E. apply Hne. by destruct (key_splits_at_first_colon _ _ _ _ H1 H2 E) as [-> ->]. }
    done.
Qed.

(** The test of the repository: [telegram] and [slack] with the same id. *)
Example users_isolated_across_transports :
  let s := ChallengeAuth.trustUser ChallengeAuth.init "telegram" "user123" "testuser"
             "dm123" 0 in
  ChallengeAuth.isUserTrusted s "telegram" "user123" = true
  ∧ ChallengeAuth.isUserTrusted s "slack" "user123" = false.
Proof. vm_compute. done. Qed.

(** ** Lockouts *)

(** [ceilMinutes x] is the least whole number of minutes that covers [x]
    milliseconds. *)
Lemma ceilMinutes_is_ceiling (x : Z) :
  60000 * (ChallengeAuth.ceilMinutes x - 1) < x ≤ 60000 * ChallengeAuth.ceilMinutes x.
Proof.
  unfold ChallengeAuth.ceilMinutes.
  change (1000 * 60) with 60000.
  pose proof (Z.div_mod (- x) 60000 ltac:(lia)) as Hdiv.
  pose proof (Z.mod_pos_bound (- x) 60000 ltac:(lia)) as Hmod.
  lia.
Qed.

(** C9 fails as stated for [getBlockTimeRemaining]: asked about a lockout
    that ended more than three minutes ago, it answers -3, not 0, and the
    record is still there for the next call. *)
Lemma getBlockTimeRemaining_of_stale_lockout :
  ChallengeAuth.blockedUsers locked_engine !! ChallengeAuth.makeKey "telegram" "chat123"
  = Some (BlockedUser.mk 303000)
  ∧ ChallengeAuth.getBlockTimeRemaining locked_engine "telegram" "chat123" 500000 = -3
  ∧ ChallengeAuth.getBlockTimeRemaining locked_engine "telegram" "chat123" 500001 = -3.
Proof. vm_compute. done. Qed.

(** C9, amended.  [isBlocked] expires lockouts lazily: a lockout whose
    [until] is in the past is removed by the check and reported as not
    blocked, after which [getBlockTimeRemaining] reports 0; a lockout
    whose [until] is not in the past is reported as blocked and left in
    place.  [getBlockTimeRemaining] reports 0 when no lockout is recorded
    and otherwise the time from now to [until] in whole minutes, rounded
    up. *)
Theorem lockout_expires_lazily_on_isBlocked
    (s : ChallengeAuth.t) (transport chatId : string) (now : Z) :
  let key := ChallengeAuth.makeKey transport chatId in
  let checked := ChallengeAuth.isBlocked s transport chatId now in
  (∀ blocked : BlockedUser.t,
     ChallengeAuth.blockedUsers s !! key = Some blocked →
     BlockedUser.until blocked < now →
     checked.1 = false
     ∧ ChallengeAuth.blockedUsers checked.2 !! key = None
     ∧ ChallengeAuth.getBlockTimeRemaining checked.2 transport chatId now = 0
     ∧ ∀ later, ChallengeAuth.isBlocked checked.2 transport chatId later = (false, checked.2))
  ∧ (∀ blocked : BlockedUser.t,
       ChallengeAuth.blockedUsers s !! key = Some blocked →
       now ≤ BlockedUser.until blocked →
       checked = (true, s)
       ∧ 0 ≤ ChallengeAuth.getBlockTimeRemaining s transport chatId now)
  ∧ (ChallengeAuth.blockedUsers s !! key = None →
       checked = (false, s)
       ∧ ChallengeAuth.getBlockTimeRemaining s transport chatId now = 0)
  ∧ (∀ blocked : BlockedUser.t,
       ChallengeAuth.blockedUsers s !! key = Some blocked →
       let mins := ChallengeAuth.getBlockTimeRemaining s transport chatId now in
       60000 * (mins - 1) < BlockedUser.until blocked - now ≤ 60000 * mins).
Proof.
  intros key checked. subst checked.
  unfold ChallengeAuth.isBlocked, ChallengeAuth.getBlockTimeRemaining. fold key.
  split_and!.
  - intros blocked Hblocked Hpast. rewrite Hblocked.
    apply Z.ltb_lt in Hpast. rewrite Hpast. simpl.
    rewrite lookup_delete_eq. done.
  - intros blocked Hblocked Hactive. rewrite Hblocked.
    apply Z.ltb_ge in Hactive. rewrite Hactive. split; [done |].
    pose proof (ceilMinutes_is_ceiling (BlockedUser.until blocked - now)).
    apply Z.ltb_ge in Hactive. lia.
  - intros Hnone. by rewrite Hnone.
  - intros blocked Hblocked. rewrite Hblocked. apply ceilMinutes_is_ceiling.
Qed.

(** ** Loading the persisted ledger *)

(** The comparison in days, in milliseconds. *)
Lemma trustExpired_true (now : Z) (user : TrustedUser.t) :
  ChallengeAuth.trustExpired now user = true
  ↔ ∃ lastActive, TrustedUser.lastActiveAt user = Some lastActive
                  ∧ 30 * (1000 * 60 * 60 * 24) < now - lastActive.
Proof.
  unfold ChallengeAuth.trustExpired, ChallengeAuth.daysSinceActive.
  destruct (TrustedUser.lastActiveAt user) as [lastActive|];
    [| split; [done | by intros (? & ? & ?)]].
  rewrite negb_true_iff, <- not_true_iff_false, Qle_bool_iff.
  unfold Qle, Qdiv, Qmult, Qinv, inject_Z, ChallengeAuth.TRUST_EXPIRY_DAYS. simpl.
  split.
  - intros Hnle. exists lastActive. split; [done | lia].
  - intros (? & [= <-] & Hlt). lia.
Qed.

Lemma trustExpired_iff_inactive (now : Z) (user : TrustedUser.t) :
  ChallengeAuth.trustExpired now user = true ↔ inactivityExceedsExpiry now user.
Proof.
  unfold inactivityExceedsExpiry, ChallengeAuth.trustExpired.
  destruct (ChallengeAuth.daysSinceActive now user) as [days|];
    [| split; [done | by intros (? & ? & ?)]].
  rewrite negb_true_iff, <- not_true_iff_false, Qle_bool_iff.
  unfold ChallengeAuth.TRUST_EXPIRY_DAYS. split.
  - intros Hnle. exists days. split; [done | by apply Qnot_le_lt].
  - intros (? & [= <-] & Hlt). by apply Qlt_not_le.
Qed.

Lemma loading_loop (s : ChallengeAuth.t) (now : Z) (ledger : gmap string TrustedUser.t) :
  loaded_as s now (map_fold (ChallengeAuth.loadEntry now) (s, 0%nat, 0%nat) ledger) ledger.
Proof.
  apply (map_fold_weak_ind (loaded_as s now)).
  - unfold loaded_as. simpl.
    split_and!; [done | | | done | done | done | done | done].
    + intros chat. split; [by left |]. intros [? | (key & user & Hin & _)]; [done |].
      by rewrite lookup_empty in Hin.
    + split; [| done]. intros _ key user Hin. by rewrite lookup_empty in Hin.
  - intros i x m [[s' loadedCount] expiredCount] Hfresh
      (Htrusted & Hchats & Hcount & Hp & Hb & Hc & Hs & Hst).
    simpl in *. unfold loaded_as, ChallengeAuth.loadEntry.
    destruct (ChallengeAuth.trustExpired now x) eqn:Hexp; simpl;
      (split_and!; [ | | | done | done | done | done | done]).
    + intros key. destruct (decide (i = key)) as [<- | Hne].
      * by rewrite lookup_insert_eq, Hexp, Htrusted, Hfresh.
      * by rewrite lookup_insert_ne, Htrusted.
    + intros chat. rewrite Hchats. split.
      * intros [? | (key & user & Hin & Hok & ->)]; [by left | right].
        exists key, user. rewrite lookup_insert_ne; [done |]. intros <-. congruence.
      * intros [? | (key & user & Hin & Hok & ->)]; [by left | right].
        exists key, user. split; [| done].
        apply lookup_insert_Some in Hin as [[<- <-] | [_ Hin]]; [congruence | done].
    + split; [done |].
      intros Hall. specialize (Hall i x (lookup_insert_eq _ _ _)). congruence.
    + intros key. destruct (decide (i = key)) as [<- | Hne].
      * by rewrite !lookup_insert_eq, Hexp.
      * by rewrite !lookup_insert_ne, Htrusted.
    + intros chat. rewrite elem_of_union, elem_of_singleton, Hchats. split.
      * intros [-> | [? | (key & user & Hin & Hok & ->)]]; [right | by left | right].
        -- exists i, x. by rewrite lookup_insert_eq.
        -- exists key, user. rewrite lookup_insert_ne; [done |]. intros <-. congruence.
      * intros [? | (key & user & Hin & Hok & ->)]; [right; by left |].
        apply lookup_insert_Some in Hin as [[<- <-] | [_ Hin]]; [by left |].
        right; right. by exists key, user.
    + split.
      * intros Hzero key user Hin.
        apply lookup_insert_Some in Hin as [[<- <-] | [_ Hin]]; [done |].
        by apply (proj1 Hcount Hzero key user).
      * intros Hall. apply Hcount. intros key user Hin. apply (Hall key user).
        rewrite lookup_insert_ne; [done |]. intros <-. congruence.
Qed.

(** C6.  Loading a readable ledger at start-up.  A snapshot whose version
    is not the current one is discarded as a whole: nothing changes.
    Otherwise every entry whose inactivity in days, computed from
    [lastActiveAt], exceeds 30 is dropped (the key keeps whatever the
    memory held, nothing at start-up), and every other entry is put into
    the trusted-user map, its direct-message chat being marked
    authenticated.  If at least one entry was dropped, the trusted-user
    map is written back to the storage at once; if none was, the storage
    is not written. *)
Theorem loadFromStorage_prunes_inactive_users
    (s : ChallengeAuth.t) (st : SecretStorage.t) (parsed : PersistedAuthData.t) (now : Z) :
  ChallengeAuth.secretStorage s = Some st →
  SecretStorage.failing st = false →
  SecretStorage.slot st = Some (SecretStorage.Document parsed) →
  let ledger := PersistedAuthData.trustedUsers parsed in
  let s' := ChallengeAuth.loadFromStorage s now in
  (PersistedAuthData.version parsed ≠ 1 → s' = s)
  ∧ (PersistedAuthData.version parsed = 1 →
     (∀ key user, ledger !! key = Some user →
        (inactivityExceedsExpiry now user →
           ChallengeAuth.trustedUsers s' !! key = ChallengeAuth.trustedUsers s !! key)
        ∧ (¬ inactivityExceedsExpiry now user →
             ChallengeAuth.trustedUsers s' !! key = Some user
             ∧ ChallengeAuth.isAuthenticated s' (TrustedUser.transport user)
                 (TrustedUser.dmChatId user) = true))
     ∧ (∀ key, ledger !! key = None →
          ChallengeAuth.trustedUsers s' !! key = ChallengeAuth.trustedUsers s !! key)
     ∧ (ChallengeAuth.trustedUsers s = ∅ →
          ∀ key user,
            ChallengeAuth.trustedUsers s' !! key = Some user
            ↔ ledger !! key = Some user ∧ ¬ inactivityExceedsExpiry now user)
     ∧ ((∃ key user, ledger !! key = Some user ∧ inactivityExceedsExpiry now user) →
          ChallengeAuth.secretStorage s'
          = Some (SecretStorage.mk
                    (Some (SecretStorage.Document
                             (PersistedAuthData.mk (ChallengeAuth.trustedUsers s') 1)))
                    false (S (SecretStorage.writes st))))
     ∧ ((∀ key user, ledger !! key = Some user → ¬ inactivityExceedsExpiry now user) →
          ChallengeAuth.secretStorage s' = Some st)).
Proof.
  intros Hattached Hok Hslot ledger s'. subst s'.
  unfold ChallengeAuth.loadFromStorage, SecretStorage.get.
  rewrite Hattached, Hok, Hslot. unfold ChallengeAuth.STORAGE_VERSION.
  split.
  { intros Hversion. apply Z.eqb_neq in Hversion. by rewrite Hversion. }
  intros Hversion. rewrite Hversion. simpl. fold ledger.
  pose proof (loading_loop s now ledger) as Hloop.
  destruct (map_fold (ChallengeAuth.loadEntry now) (s, 0%nat, 0%nat) ledger)
    as [[s1 loadedCount] expiredCount].
  destruct Hloop as (Htrusted & Hchats & Hcount & _ & _ & _ & _ & Hstorage).
  simpl in Htrusted, Hchats, Hcount, Hstorage.
  set (final := if Nat.ltb 0 expiredCount then ChallengeAuth.saveToStorage s1 else s1).
  assert (ChallengeAuth.trustedUsers final = ChallengeAuth.trustedUsers s1
          ∧ ChallengeAuth.authenticatedChats final = ChallengeAuth.authenticatedChats s1)
    as [Efinal Echats].
  { subst final. destruct (Nat.ltb 0 expiredCount); [| done].
    by destruct (saveToStorage_fields s1) as (-> & _ & _ & -> & _). }
  assert (∀ user, inactivityExceedsExpiry now user
                  ↔ ChallengeAuth.trustExpired now user = true) as Hinactive.
  { intros user. by rewrite trustExpired_iff_inactive. }
  split_and!.
  - intros key user Hin. rewrite Efinal, Htrusted, Hin. split.
    + intros Hgone%Hinactive. by rewrite Hgone.
    + intros Hkept. rewrite Hinactive in Hkept. apply not_true_is_false in Hkept.
      rewrite Hkept. split; [done |].
      apply isAuthenticated_true. rewrite Echats. apply Hchats. right. by exists key, user.
  - intros key Hout. by rewrite Efinal, Htrusted, Hout.
  - intros Hempty key user. rewrite Efinal, Htrusted, Hempty, lookup_empty, Hinactive.
    destruct (ledger !! key) as [user'|]; [| split; [done | by intros [? _]]].
    destruct (ChallengeAuth.trustExpired now user') eqn:Hexp.
    + split; [done |]. intros [[= ->] Hkept]. by destruct Hkept.
    + split.
      * intros [= ->]. split; [done | congruence].
      * by intros [[= ->] _].
  - intros (key & user & Hin & Hgone%Hinactive).
    assert (expiredCount ≠ 0%nat) as Hsome.
    { intros Hzero. pose proof (proj1 Hcount Hzero key user Hin). congruence. }
    subst final. destruct expiredCount as [| n]; [done |]. simpl in *.
    unfold ChallengeAuth.saveToStorage. rewrite Hstorage, Hattached. simpl.
    unfold SecretStorage.store. by rewrite Hok.
  - intros Hall.
    assert (expiredCount = 0%nat) as ->.
    { apply Hcount. intros key user Hin. apply not_true_is_false.
      rewrite <- Hinactive. by apply (Hall key user). }
    subst final. simpl. by rewrite Hstorage.
Qed.

Example restart_simulation_runs :
  let s' := ChallengeAuth.initialize ChallengeAuth.init storage_at_restart (100 * day) in
  ChallengeAuth.isUserTrusted s' "telegram" "old" = false
  ∧ ChallengeAuth.isUserTrusted s' "telegram" "recent" = true
  ∧ ChallengeAuth.isAuthenticated s' "telegram" "dm-recent" = true
  ∧ ChallengeAuth.isAuthenticated s' "telegram" "dm-old" = false
  ∧ ChallengeAuth.secretStorage s'
    = Some (SecretStorage.mk
              (Some (SecretStorage.Document
                       (PersistedAuthData.mk (<["telegram:recent" := recent_user]> ∅) 1)))
              false 1).
Proof. vm_compute. done. Qed.

Lemma loadFromStorage_prunes_inactive_users_witness :
  let s := ChallengeAuth.with_secretStorage ChallengeAuth.init (Some storage_at_restart) in
  let s' := ChallengeAuth.loadFromStorage s (100 * day) in
  ChallengeAuth.trustedUsers s' !! "telegram:old" = None
  ∧ ChallengeAuth.trustedUsers s' !! "telegram:recent" = Some recent_user
  ∧ ChallengeAuth.secretStorage s'
    = Some (SecretStorage.mk
              (Some (SecretStorage.Document
                       (PersistedAuthData.mk (ChallengeAuth.trustedUsers s') 1)))
              false 1).
Proof.
  intros s s'.
  assert (ChallengeAuth.secretStorage s = Some storage_at_restart) as Hattached
    by reflexivity.
  assert (SecretStorage.failing storage_at_restart = false) as Hok by reflexivity.
  assert (SecretStorage.slot storage_at_restart
          = Some (SecretStorage.Document stored_ledger)) as Hslot by reflexivity.
  destruct (loadFromStorage_prunes_inactive_users s storage_at_restart stored_ledger
              (100 * day) Hattached Hok Hslot) as [_ Hcurrent].
  assert (PersistedAuthData.version stored_ledger = 1) as Hversion by reflexivity.
  destruct (Hcurrent Hversion) as (Hentries & _ & _ & Hsaved & _).
  assert (inactivityExceedsExpiry (100 * day) stale_user) as Hstale.
  { exists (inject_Z (31 * day) / inject_Z day)%Q. split; [reflexivity |].
    vm_compute. reflexivity. }
  assert (¬ inactivityExceedsExpiry (100 * day) recent_user) as Hrecent.
  { intros (days & [= <-] & Hlt). vm_compute in Hlt. discriminate. }
  assert (PersistedAuthData.trustedUsers stored_ledger !! "telegram:old"
          = Some stale_user) as Hold
    by (vm_compute; reflexivity).
  assert (PersistedAuthData.trustedUsers stored_ledger !! "telegram:recent"
          = Some recent_user) as Hnew
    by (vm_compute; reflexivity).
  split_and!.
  - exact (proj1 (Hentries "telegram:old" stale_user Hold) Hstale).
  - exact (proj1 (proj2 (Hentries "telegram:recent" recent_user Hnew) Hrecent)).
  - apply Hsaved. exists "telegram:old", stale_user. split; assumption.
Defined.

(** ** Delivery to the consumer *)



Section Delivery.

Variable toLowerCase : string → string.
Variable trim : string → string.
Variable adminCommands :
  ChallengeAuth.t → ExternalMessage.t → Z → bool * ChallengeAuth.t * list Reply.

Lemma handleMessage_group (a : ChallengeAuth.t) (m : TransportManager.t)
    (msg : ExternalMessage.t) (code : string) (now : Z) :
  ExternalMessage.transport msg ∈ TransportManager.transports m →
  (ChallengeAuth.isBlocked a (ExternalMessage.transport msg) (ExternalMessage.chatId msg)
     now).1 = false →
  ExternalMessage.isDM msg = false →
  let a1 := (ChallengeAuth.isBlocked a (ExternalMessage.transport msg)
               (ExternalMessage.chatId msg) now).2 in
  let a2 := ChallengeAuth.trackChannel toLowerCase a1 (ExternalMessage.transport msg)
              (ExternalMessage.chatId msg) (ExternalMessage.channelName msg) in
  TransportManager.handleMessage toLowerCase trim adminCommands a m msg code now
  = match ChallengeAuth.canRespondTo a2 msg with
    | Allowed => (a2, (TransportManager.deliver m msg).1, (TransportManager.deliver m msg).2)
    | Denied _ => (a2, m, [])
    end.
Proof.
  intros Hreg Hfree Hgroup a1 a2. subst a2 a1.
  unfold TransportManager.handleMessage.
  rewrite (bool_decide_eq_true_2 _ Hreg). simpl.
  destruct (ChallengeAuth.isBlocked _ _ _ _) as [isBlocked a1]. simpl in *. subst isBlocked.
  rewrite Hgroup. simpl.
  destruct (ChallengeAuth.canRespondTo _ msg); [| done].
  by destruct (TransportManager.deliver m msg).
Qed.

Lemma handleMessage_authenticated_dm (a : ChallengeAuth.t) (m : TransportManager.t)
    (msg : ExternalMessage.t) (code : string) (now : Z) :
  ExternalMessage.transport msg ∈ TransportManager.transports m →
  (ChallengeAuth.isBlocked a (ExternalMessage.transport msg) (ExternalMessage.chatId msg)
     now).1 = false →
  ExternalMessage.isDM msg = true →
  let a1 := (ChallengeAuth.isBlocked a (ExternalMessage.transport msg)
               (ExternalMessage.chatId msg) now).2 in
  ChallengeAuth.isAuthenticated a1 (ExternalMessage.transport msg)
    (ExternalMessage.chatId msg) = true →
  let cmd := TransportManager.handleAdminCommand adminCommands a1 msg now in
  TransportManager.handleMessage toLowerCase trim adminCommands a m msg code now
  = if cmd.1.1 then (cmd.1.2, m, cmd.2)
    else (cmd.1.2, (TransportManager.deliver m msg).1,
          (cmd.2 ++ (TransportManager.deliver m msg).2)%list).
Proof.
  intros Hreg Hfree HDM a1 Hauth cmd. subst cmd a1.
  unfold TransportManager.handleMessage.
  rewrite (bool_decide_eq_true_2 _ Hreg). simpl.
  destruct (ChallengeAuth.isBlocked _ _ _ _) as [isBlocked a1]. simpl in *. subst isBlocked.
  rewrite HDM, Hauth. simpl.
  destruct (TransportManager.handleAdminCommand adminCommands a1 msg now)
    as [[wasCommand a2] out].
  simpl. destruct wasCommand; [done |].
  by destruct (TransportManager.deliver m msg).
Qed.

Lemma handleMessage_runs_start_then_resume (a : ChallengeAuth.t)
    (m : TransportManager.t) (msg : ExternalMessage.t) (code : string) (now : Z) :
  let started :=
    TransportManager.handleMessageStart toLowerCase trim adminCommands a m msg code now in
  let resumed :=
    TransportManager.handleMessageResume started.1.1.1 started.1.1.2 started.2 in
  TransportManager.handleMessage toLowerCase trim adminCommands a m msg code now
  = (started.1.1.1, resumed.1, (started.1.2 ++ resumed.2)%list).
Proof.
  intros started resumed. subst resumed started.
  unfold TransportManager.handleMessage, TransportManager.handleMessageStart.
  destruct (negb (bool_decide _)); [done |].
  destruct (ChallengeAuth.isBlocked _ _ _ _) as [[] a1]; [done |].
  destruct (ExternalMessage.isDM msg && _).
  { destruct (TransportManager.handleAdminCommand adminCommands a1 msg now)
      as [[[] a2] out]; simpl.
    - by rewrite app_nil_r.
    - by destruct (TransportManager.deliver m msg). }
  destruct (negb (ExternalMessage.isDM msg)).
  { destruct (ChallengeAuth.canRespondTo _ msg); [| done].
    destruct (TransportManager.deliver m msg). simpl. by rewrite app_nil_r. }
  destruct (ChallengeAuth.hasPendingChallenge _ _ _ _) as [[] a2].
  - destruct (negb (isNumeric _)); [done |].
    destruct (Nat.eqb _ 5 || Nat.eqb _ 7); [done |].
    destruct (negb (Nat.eqb _ 6)); [done |].
    by destruct (ChallengeAuth.verifyChallenge _ _ _ _ _ _ _ _) as [[] a3].
  - by destruct (ChallengeAuth.createChallenge _ _ _ _ _ _).
Qed.





End Delivery.


(** The same three messages, each handled to its end before the next one
    arrives, are received in the order of their arrival. *)
Example messages_handled_one_by_one_keep_their_order :
  let after1 := TransportManager.handleMessage id id no_commands whatsapp_engine
                  four_transports (whatsapp_dm "3A01" "first") "" 5000 in
  let after2 := TransportManager.handleMessage id id no_commands after1.1.1 after1.1.2
                  (whatsapp_group_message "3A02" "second") "" 5000 in
  let after3 := TransportManager.handleMessage id id no_commands after2.1.1 after2.1.2
                  (whatsapp_dm "3A03" "third") "" 5000 in
  TransportManager.messageQueue after3.1.2 = mixed_batch.
Proof. vm_compute. reflexivity. Qed.

(** ** The direct-message gate of the router *)

(** A direct message of a trusted sender in a chat that is not
    authenticated, with no lockout and no pending challenge: the router
    takes its last branch, whatever the command interpreter is. *)
Lemma handleMessage_unauthenticated_dm
    (toLowerCase trim : string → string)
    (adminCommands :
       ChallengeAuth.t → ExternalMessage.t → Z → bool * ChallengeAuth.t * list Reply)
    (a : ChallengeAuth.t) (m : TransportManager.t) (msg : ExternalMessage.t)
    (code : string) (now : Z) :
  let transport := ExternalMessage.transport msg in
  let chatId := ExternalMessage.chatId msg in
  transport ∈ TransportManager.transports m →
  ExternalMessage.isDM msg = true →
  ChallengeAuth.blockedUsers a !! ChallengeAuth.makeKey transport chatId = None →
  ChallengeAuth.pendingChallenges a !! ChallengeAuth.makeKey transport chatId = None →
  ChallengeAuth.isAuthenticated a transport chatId = false →
  TransportManager.handleMessage toLowerCase trim adminCommands a m msg code now
  = ((ChallengeAuth.createChallenge a transport chatId
        (or_else (ExternalMessage.username msg) chatId) code now).2,
     m, [Send transport chatId AuthenticationRequired]).
Proof.
  intros transport chatId Hreg HDM Hfree Hnone Hauth. subst transport chatId.
  unfold TransportManager.handleMessage.
  rewrite (bool_decide_eq_true_2 _ Hreg). simpl.
  unfold ChallengeAuth.isBlocked. rewrite Hfree.
  rewrite HDM, Hauth. simpl.
  unfold ChallengeAuth.hasPendingChallenge. by rewrite Hnone.
Qed.

(** C7, on the code.  On the input of the repository's test for a
    trusted user outside the authenticated chats, the sender is trusted,
    is not locked out, and [canRespondTo] allows the message, as that
    test asserts; yet the router, whose gate reads only the set of
    authenticated chats, neither consults the command interpreter nor
    delivers the message: it opens a new challenge for the chat and
    answers with the authentication prompt. *)
Theorem trusted_sender_in_new_dm_chat_is_challenged
    (toLowerCase trim : string → string)
    (adminCommands :
       ChallengeAuth.t → ExternalMessage.t → Z → bool * ChallengeAuth.t * list Reply)
    (code : string) :
  let handled :=
    TransportManager.handleMessage toLowerCase trim adminCommands directly_trusted_engine
      four_transports hello_from_other_chat code 1000 in
  ChallengeAuth.isUserTrusted directly_trusted_engine "telegram" "user123" = true
  ∧ (ChallengeAuth.isBlocked directly_trusted_engine "telegram" "dm456" 1000).1 = false
  ∧ ChallengeAuth.canRespondTo directly_trusted_engine hello_from_other_chat = Allowed
  ∧ handled.2 = [Send "telegram" "dm456" AuthenticationRequired]
  ∧ TransportManager.messageQueue handled.1.2 = []
  ∧ TransportManager.waitingResolver handled.1.2 = None
  ∧ ChallengeAuth.pendingChallenges handled.1.1 !! ChallengeAuth.makeKey "telegram" "dm456"
    = Some (PendingChallenge.mk code (1000 + 2 * 60 * 1000) 0).
Proof.
  intros handled. subst handled.
  rewrite handleMessage_unauthenticated_dm; [| by vm_compute | done | done | done | done].
  split_and!; vm_compute; reflexivity.
Qed.

(** The same state reached through the engine's own operations: a Slack
    user who authenticated in one direct-message chat and then writes in
    a multi-party one. *)
Example trusted_slack_user_in_multi_party_dm
    (toLowerCase trim : string → string)
    (adminCommands :
       ChallengeAuth.t → ExternalMessage.t → Z → bool * ChallengeAuth.t * list Reply)
    (code : string) :
  ChallengeAuth.isUserTrusted slack_trusted_engine "slack" "U0001" = true
  ∧ ChallengeAuth.canRespondTo slack_trusted_engine help_from_other_chat = Allowed
  ∧ (TransportManager.handleMessage toLowerCase trim adminCommands slack_trusted_engine
       four_transports help_from_other_chat code 2000).2
    = [Send "slack" "G0002" AuthenticationRequired].
Proof.
  rewrite handleMessage_unauthenticated_dm; [| by vm_compute | done | done | done | done].
  split_and!; vm_compute; reflexivity.
Qed.

(** * Further properties of the engine *)

(** ** Challenges *)

(** The branches of [verifyChallenge], by the tests it makes. *)
Ltac verifyChallenge_cases :=
  unfold ChallengeAuth.verifyChallenge;
  match goal with
  | |- context [ChallengeAuth.pendingChallenges ?s !! ?k] =>
      let challenge := fresh "challenge" in
      let Hpending := fresh "Hpending" in
      destruct (ChallengeAuth.pendingChallenges s !! k) as [challenge|] eqn:Hpending;
      [ let Hlate := fresh "Hlate" in
        destruct (PendingChallenge.expiresAt challenge <? _) eqn:Hlate;
        [ | let Hcode := fresh "Hcode" in
            destruct (String.eqb _ (PendingChallenge.key challenge)) eqn:Hcode;
            [ | let Hleft := fresh "Hleft" in
                destruct (_ <=? 0) eqn:Hleft ] ]
      | ]
  end; simpl.

(** X1.  A challenge that was just created is pending until two minutes
    after its creation and not a millisecond longer, whatever was
    recorded for the chat before; it has all three attempts, and its
    code is the one handed back to the caller. *)
Theorem created_challenge_is_pending_for_two_minutes
    (s : ChallengeAuth.t) (transport chatId username code : string) (now later : Z) :
  let created := ChallengeAuth.createChallenge s transport chatId username code now in
  created.1 = code
  ∧ ((ChallengeAuth.hasPendingChallenge created.2 transport chatId later).1 = true
     ↔ later ≤ now + 2 * 60 * 1000)
  ∧ ChallengeAuth.getAttemptsRemaining created.2 transport chatId = 3
  ∧ ∀ userId isDM,
      later ≤ now + 2 * 60 * 1000 →
      (ChallengeAuth.verifyChallenge created.2 transport chatId code userId username
         isDM later).1 = Success.
Proof.
  intros created. subst created.
  unfold ChallengeAuth.createChallenge, ChallengeAuth.hasPendingChallenge,
    ChallengeAuth.getAttemptsRemaining, ChallengeAuth.verifyChallenge. simpl.
  rewrite !lookup_insert_eq. simpl.
  change ChallengeAuth.CHALLENGE_EXPIRY_MS with (2 * 60 * 1000).
  split_and!; [done | | done |].
  - destruct (now + 2 * 60 * 1000 <? later) eqn:E; simpl.
    + apply Z.ltb_lt in E. split; [done | lia].
    + apply Z.ltb_ge in E. done.
  - intros userId isDM Hlive.
    assert ((now + 2 * 60 * 1000 <? later) = false) as -> by by apply Z.ltb_ge.
    by rewrite String.eqb_refl.
Qed.

(** X2.  [verifyChallenge] answers [expired] exactly when
    [hasPendingChallenge] would answer no at that moment, and then both
    leave the engine in the same state (a stale challenge is removed by
    either). *)
Theorem expired_answer_agrees_with_hasPendingChallenge
    (s : ChallengeAuth.t) (transport chatId response userId username : string)
    (isDM : bool) (now : Z) :
  let v := ChallengeAuth.verifyChallenge s transport chatId response userId username
             isDM now in
  let p := ChallengeAuth.hasPendingChallenge s transport chatId now in
  (v.1 = Expired ↔ p.1 = false)
  ∧ (v.1 = Expired → v.2 = p.2)
  ∧ (p.1 = true → p.2 = s).
Proof.
  intros v p. subst v p. unfold ChallengeAuth.hasPendingChallenge.
  verifyChallenge_cases; rewrite ?Hlate; simpl; split_and!; try done.
  all: destruct isDM; done.
Qed.

(** What a call of [verifyChallenge] does to the engine, by its answer. *)
Lemma verifyChallenge_effect
    (s : ChallengeAuth.t) (transport chatId response userId username : string)
    (isDM : bool) (now : Z) :
  let key := ChallengeAuth.makeKey transport chatId in
  let v := ChallengeAuth.verifyChallenge s transport chatId response userId username
             isDM now in
  (v.1 = Expired
   ∧ (ChallengeAuth.pendingChallenges s !! key = None
      ∨ ∃ challenge, ChallengeAuth.pendingChallenges s !! key = Some challenge
                     ∧ PendingChallenge.expiresAt challenge < now)
   ∧ ChallengeAuth.pendingChallenges v.2 = delete key (ChallengeAuth.pendingChallenges s)
   ∧ ChallengeAuth.blockedUsers v.2 = ChallengeAuth.blockedUsers s
   ∧ same_access s v.2)
  ∨ (v.1 = Success
     ∧ (∃ challenge, ChallengeAuth.pendingChallenges s !! key = Some challenge
                     ∧ now ≤ PendingChallenge.expiresAt challenge
                     ∧ response = PendingChallenge.key challenge)
     ∧ ChallengeAuth.pendingChallenges v.2 = delete key (ChallengeAuth.pendingChallenges s)
     ∧ ChallengeAuth.blockedUsers v.2 = ChallengeAuth.blockedUsers s
     ∧ ChallengeAuth.authenticatedChats v.2 = {[ key ]} ∪ ChallengeAuth.authenticatedChats s
     ∧ ChallengeAuth.authorizedChannels v.2 = ChallengeAuth.authorizedChannels s
     ∧ ChallengeAuth.trustedUsers v.2
       = (if isDM
          then <[ChallengeAuth.makeUserKey transport userId :=
                   TrustedUser.mk transport userId username chatId (Some now) (Some now)]>
                 (ChallengeAuth.trustedUsers s)
          else ChallengeAuth.trustedUsers s)
     ∧ ChallengeAuth.secretStorage v.2
       = (if isDM
          then (λ st, SecretStorage.store st
                        (PersistedAuthData.mk (ChallengeAuth.trustedUsers v.2)
                           ChallengeAuth.STORAGE_VERSION))
               <$> ChallengeAuth.secretStorage s
          else ChallengeAuth.secretStorage s))
  ∨ (∃ challenge,
       ChallengeAuth.pendingChallenges s !! key = Some challenge
       ∧ now ≤ PendingChallenge.expiresAt challenge
       ∧ response ≠ PendingChallenge.key challenge
       ∧ ChallengeAuth.blockedUsers v.2
         = (if decide (PendingChallenge.attempts challenge + 1 < 3)
            then ChallengeAuth.blockedUsers s
            else <[key := BlockedUser.mk (now + 5 * 60 * 1000)]>
                   (ChallengeAuth.blockedUsers s))
       ∧ ChallengeAuth.pendingChallenges v.2
         = (if decide (PendingChallenge.attempts challenge + 1 < 3)
            then <[key := PendingChallenge.mk (PendingChallenge.key challenge)
                            (PendingChallenge.expiresAt challenge)
                            (PendingChallenge.attempts challenge + 1)]>
                   (ChallengeAuth.pendingChallenges s)
            else delete key (ChallengeAuth.pendingChallenges s))
       ∧ v.1 = (if decide (PendingChallenge.attempts challenge + 1 < 3)
                then Wrong else Blocked)
       ∧ same_access s v.2).
Proof.
  intros key v. subst v. unfold same_access.
  destruct (ChallengeAuth.pendingChallenges s !! key) as [challenge|] eqn:Hpending.
  - destruct (decide (PendingChallenge.expiresAt challenge < now)) as [Hlate | Hlive].
    + left. rewrite (verifyChallenge_stale s transport chatId challenge) by done.
      simpl. split_and!; try done. right. by exists challenge.
    + apply Z.nlt_ge in Hlive.
      destruct (decide (response = PendingChallenge.key challenge)) as [-> | Hne].
      * right; left.
        destruct (verifyChallenge_match s transport chatId challenge userId username isDM
                    now Hpending Hlive) as (Hres & Hpend & Hchats & Hblocked & Htrusted).
        split_and!; try done.
        -- by exists challenge.
        -- unfold ChallengeAuth.verifyChallenge. fold key. rewrite Hpending.
           assert ((PendingChallenge.expiresAt challenge <? now) = false) as ->
             by by apply Z.ltb_ge.
           rewrite String.eqb_refl. simpl. destruct isDM; [| done].
           unfold ChallengeAuth.trustUser.
           match goal with |- context [ChallengeAuth.saveToStorage ?x] =>
             destruct (saveToStorage_fields x) as (_ & _ & _ & _ & -> & _) end.
           done.
        -- rewrite Htrusted.
           unfold ChallengeAuth.verifyChallenge. fold key. rewrite Hpending.
           assert ((PendingChallenge.expiresAt challenge <? now) = false) as ->
             by by apply Z.ltb_ge.
           rewrite String.eqb_refl. simpl. destruct isDM; [| done].
           unfold ChallengeAuth.trustUser, ChallengeAuth.saveToStorage. simpl.
           destruct (ChallengeAuth.secretStorage s) eqn:E; simpl; by rewrite ?E.
      * right; right. exists challenge.
        rewrite (verifyChallenge_mismatch s transport chatId challenge) by done.
        fold key. unfold ChallengeAuth.MAX_ATTEMPTS, ChallengeAuth.BLOCK_DURATION_MS.
        destruct (decide (PendingChallenge.attempts challenge + 1 < 3)) as [Hfew | Hmany].
        -- assert ((3 - (PendingChallenge.attempts challenge + 1) <=? 0) = false) as ->
             by (apply Z.leb_gt; lia).
           simpl. split_and!; done.
        -- assert ((3 - (PendingChallenge.attempts challenge + 1) <=? 0) = true) as ->
             by (apply Z.leb_le; lia).
           simpl. split_and!; done.
  - left. rewrite (verifyChallenge_none s transport chatId) by done.
    simpl. split_and!; try done; [by left |].
    by rewrite delete_id.
Qed.

(** X3.  A wrong code costs exactly one attempt: after the answer
    [wrong] the attempts that remain are one fewer than before and at
    least one; after the answer [blocked] none remains, the challenge is
    gone and the chat is locked out. *)
Theorem wrong_code_costs_one_attempt
    (s : ChallengeAuth.t) (transport chatId response userId username : string)
    (isDM : bool) (now : Z) :
  let v := ChallengeAuth.verifyChallenge s transport chatId response userId username
             isDM now in
  (v.1 = Wrong →
     ChallengeAuth.getAttemptsRemaining v.2 transport chatId
     = ChallengeAuth.getAttemptsRemaining s transport chatId - 1
     ∧ 0 < ChallengeAuth.getAttemptsRemaining v.2 transport chatId
     ∧ (ChallengeAuth.hasPendingChallenge v.2 transport chatId now).1 = true)
  ∧ (v.1 = Blocked →
       ChallengeAuth.getAttemptsRemaining s transport chatId ≤ 1
       ∧ ChallengeAuth.getAttemptsRemaining v.2 transport chatId = 0
       ∧ (ChallengeAuth.hasPendingChallenge v.2 transport chatId now).1 = false
       ∧ (ChallengeAuth.isBlocked v.2 transport chatId now).1 = true).
Proof.
  intros v.
  unfold ChallengeAuth.getAttemptsRemaining, ChallengeAuth.hasPendingChallenge,
    ChallengeAuth.isBlocked.
  destruct (verifyChallenge_effect s transport chatId response userId username isDM now)
    as [(Hres & _) | [(Hres & _) | (challenge & Hpending & Hlive & _ & Hblocked & Hpend
                                      & Hres & _)]];
    fold v in Hres; try fold v in Hblocked, Hpend; rewrite Hres.
  - split; intros [=].
  - split; intros [=].
  - rewrite Hpending, Hpend, Hblocked. unfold ChallengeAuth.MAX_ATTEMPTS.
    apply Z.ltb_ge in Hlive.
    destruct (decide (PendingChallenge.attempts challenge + 1 < 3)); split; try done;
      intros _.
    + rewrite lookup_insert_eq. simpl. rewrite Hlive. split_and!; [lia | lia | done].
    + rewrite lookup_delete_eq, lookup_insert_eq. simpl.
      assert ((now + 5 * 60 * 1000 <? now) = false) as -> by (apply Z.ltb_ge; lia).
      split_and!; [lia | done | done | done].
Qed.

(** The permission decision reads the authenticated chats, the trusted
    users and the authorized channels, and nothing else. *)
Lemma canRespondTo_ext (s s' : ChallengeAuth.t) (msg : ExternalMessage.t) :
  ChallengeAuth.authenticatedChats s' = ChallengeAuth.authenticatedChats s →
  ChallengeAuth.trustedUsers s' = ChallengeAuth.trustedUsers s →
  ChallengeAuth.authorizedChannels s' = ChallengeAuth.authorizedChannels s →
  ChallengeAuth.canRespondTo s' msg = ChallengeAuth.canRespondTo s msg.
Proof.
  intros Hchats Htrusted Hchannels.
  unfold ChallengeAuth.canRespondTo, ChallengeAuth.isAuthenticated,
    ChallengeAuth.isUserTrusted, ChallengeAuth.getChannelAuth.
  by rewrite Hchats, Htrusted, Hchannels.
Qed.

(** X4.  A verification that does not succeed grants nothing: the
    authenticated chats, the trusted users, the authorized channels and
    the stored ledger are what they were, and so is every permission
    decision. *)
Theorem failed_verification_grants_nothing
    (s : ChallengeAuth.t) (transport chatId response userId username : string)
    (isDM : bool) (now : Z) :
  let v := ChallengeAuth.verifyChallenge s transport chatId response userId username
             isDM now in
  v.1 ≠ Success →
  same_access s v.2
  ∧ ∀ msg, ChallengeAuth.canRespondTo v.2 msg = ChallengeAuth.canRespondTo s msg.
Proof.
  intros v Hfailed.
  assert (same_access s v.2) as Hsame.
  { destruct (verifyChallenge_effect s transport chatId response userId username isDM now)
      as [(_ & _ & _ & _ & Hsame) | [(Hres & _) | (challenge & _ & _ & _ & _ & _ & _ & Hsame)]];
      [done | | done].
    by destruct Hfailed. }
  split; [done |]. intros msg.
  destruct Hsame as (Hchats & Htrusted & Hchannels & _).
  by apply canRespondTo_ext.
Qed.

Lemma failed_verification_grants_nothing_witness :
  let v := ChallengeAuth.verifyChallenge challenged_engine "telegram" "chat123" "000000"
             "user123" "testuser" true 1000 in
  same_access challenged_engine v.2
  ∧ ∀ msg, ChallengeAuth.canRespondTo v.2 msg
           = ChallengeAuth.canRespondTo challenged_engine msg.
Proof.
  apply (failed_verification_grants_nothing challenged_engine "telegram" "chat123"
           "000000" "user123" "testuser" true 1000).
  vm_compute. discriminate.
Defined.

(** X5.  A successful verification marks the chat authenticated.  In a
    direct message it also records the sender as trusted, with this chat
    as the direct-message chat and the time of the verification as both
    dates, and writes the ledger; outside a direct message the trusted
    users and the stored ledger stay as they were. *)
Theorem success_trusts_the_sender_only_in_a_dm
    (s : ChallengeAuth.t) (transport chatId response userId username : string)
    (isDM : bool) (now : Z) :
  let v := ChallengeAuth.verifyChallenge s transport chatId response userId username
             isDM now in
  v.1 = Success →
  ChallengeAuth.isAuthenticated v.2 transport chatId = true
  ∧ (ChallengeAuth.hasPendingChallenge v.2 transport chatId now).1 = false
  ∧ (isDM = true →
       ChallengeAuth.getTrustedUser v.2 transport userId
       = Some (TrustedUser.mk transport userId username chatId (Some now) (Some now))
       ∧ ∀ st, ChallengeAuth.secretStorage s = Some st →
               SecretStorage.failing st = false →
               ChallengeAuth.secretStorage v.2
               = Some (SecretStorage.mk
                         (Some (SecretStorage.Document
                                  (PersistedAuthData.mk (ChallengeAuth.trustedUsers v.2) 1)))
                         false (S (SecretStorage.writes st))))
  ∧ (isDM = false →
       ChallengeAuth.trustedUsers v.2 = ChallengeAuth.trustedUsers s
       ∧ ChallengeAuth.secretStorage v.2 = ChallengeAuth.secretStorage s).
Proof.
  intros v Hsuccess. subst v.
  destruct (verifyChallenge_effect s transport chatId response userId username isDM now)
    as [(Hres & _) | [(_ & _ & Hpend & _ & Hchats & _ & Htrusted & Hstorage)
                     | (challenge & _ & _ & _ & _ & _ & Hres & _)]].
  - congruence.
  - split_and!.
    + apply isAuthenticated_true. rewrite Hchats.
      apply elem_of_union; left. by apply elem_of_singleton.
    + unfold ChallengeAuth.hasPendingChallenge. by rewrite Hpend, lookup_delete_eq.
    + intros ->. split.
      * unfold ChallengeAuth.getTrustedUser. rewrite Htrusted. apply lookup_insert_eq.
      * intros st Hattached Hok. rewrite Hstorage, Hattached. simpl.
        unfold SecretStorage.store. by rewrite Hok.
    + intros ->. by rewrite Htrusted, Hstorage.
  - rewrite Hsuccess in Hres. by destruct (decide _).
Qed.

Lemma success_trusts_the_sender_only_in_a_dm_witness :
  let v := ChallengeAuth.verifyChallenge challenged_engine "telegram" "chat123" "123456"
             "user123" "testuser" false 1000 in
  ChallengeAuth.isAuthenticated v.2 "telegram" "chat123" = true
  ∧ ChallengeAuth.isUserTrusted v.2 "telegram" "user123" = false.
Proof.
  intros v.
  assert (v.1 = Success) as Hsuccess by (vm_compute; reflexivity).
  destruct (success_trusts_the_sender_only_in_a_dm challenged_engine "telegram" "chat123"
              "123456" "user123" "testuser" false 1000 Hsuccess)
    as (Hauth & _ & _ & Hgroup).
  split; [exact Hauth |].
  vm_compute. reflexivity.
Defined.

(** ** Lockouts *)

(** X6.  The lockout that the answer [blocked] creates lasts five minutes
    to the millisecond: the chat is blocked at every moment up to five
    minutes after the failed attempt and at no later one.  During that
    time the minutes reported as remaining lie between 0 and 5, and they
    are 5 right after the attempt. *)
Theorem lockout_lasts_five_minutes
    (s : ChallengeAuth.t) (transport chatId response userId username : string)
    (isDM : bool) (now : Z) :
  let v := ChallengeAuth.verifyChallenge s transport chatId response userId username
             isDM now in
  v.1 = Blocked →
  ∀ later : Z,
    ((ChallengeAuth.isBlocked v.2 transport chatId later).1 = true
     ↔ later ≤ now + 5 * 60 * 1000)
    ∧ (now ≤ later ≤ now + 5 * 60 * 1000 →
         0 ≤ ChallengeAuth.getBlockTimeRemaining v.2 transport chatId later ≤ 5)
    ∧ ChallengeAuth.getBlockTimeRemaining v.2 transport chatId now = 5.
Proof.
  intros v Hblocked later. subst v.
  destruct (verifyChallenge_effect s transport chatId response userId username isDM now)
    as [(Hres & _) | [(Hres & _) | (challenge & _ & _ & _ & Hlock & _ & Hres & _)]];
    try congruence.
  destruct (decide (PendingChallenge.attempts challenge + 1 < 3)); [congruence |].
  unfold ChallengeAuth.isBlocked, ChallengeAuth.getBlockTimeRemaining.
  rewrite Hlock, lookup_insert_eq. simpl.
  split_and!.
  - destruct (now + 5 * 60 * 1000 <? later) eqn:E; simpl.
    + apply Z.ltb_lt in E. split; [done | lia].
    + by apply Z.ltb_ge in E.
  - intros [Hafter Hbefore].
    pose proof (ceilMinutes_is_ceiling (now + 5 * 60 * 1000 - later)). lia.
  - pose proof (ceilMinutes_is_ceiling (now + 5 * 60 * 1000 - now)). lia.
Qed.

Lemma lockout_lasts_five_minutes_witness :
  let v := ChallengeAuth.verifyChallenge twice_failed_engine "telegram" "chat123" "000000"
             "user123" "testuser" true 3000 in
  ((ChallengeAuth.isBlocked v.2 "telegram" "chat123" 303000).1 = true
   ↔ 303000 ≤ 3000 + 5 * 60 * 1000)
  ∧ (3000 ≤ 303000 ≤ 3000 + 5 * 60 * 1000 →
       0 ≤ ChallengeAuth.getBlockTimeRemaining v.2 "telegram" "chat123" 303000 ≤ 5)
  ∧ ChallengeAuth.getBlockTimeRemaining v.2 "telegram" "chat123" 3000 = 5.
Proof.
  apply (lockout_lasts_five_minutes twice_failed_engine "telegram" "chat123" "000000"
           "user123" "testuser" true 3000).
  vm_compute. reflexivity.
Defined.

(** ** Channel authorization *)

(** X7.  [authorizeChannel] succeeds exactly when the named user is
    trusted on that transport.  On failure nothing changes.  On success
    the channel's record is the one built from the arguments (so a
    second authorization replaces the mode), every other channel keeps
    its record, the same channel id on another transport is unaffected,
    and neither the trusted users nor the storage are touched. *)
Theorem authorizeChannel_needs_a_trusted_user
    (s : ChallengeAuth.t) (transport channelId userId : string)
    (channelName : option string) (mode : string) (now : Z) :
  let r := ChallengeAuth.authorizeChannel s transport channelId userId channelName mode
             now in
  r.1 = ChallengeAuth.isUserTrusted s transport userId
  ∧ (r.1 = false → r.2 = s)
  ∧ (r.1 = true →
       ChallengeAuth.getChannelAuth r.2 transport channelId
       = Some (AuthorizedChannel.mk transport channelId channelName
                 (ChallengeAuth.makeUserKey transport userId) now mode)
       ∧ (∀ key, key ≠ ChallengeAuth.makeChannelKey transport channelId →
            ChallengeAuth.authorizedChannels r.2 !! key
            = ChallengeAuth.authorizedChannels s !! key)
       ∧ (∀ other, other ≠ transport →
            ChallengeAuth.isChannelAuthorized r.2 other channelId
            = ChallengeAuth.isChannelAuthorized s other channelId)
       ∧ ChallengeAuth.trustedUsers r.2 = ChallengeAuth.trustedUsers s
       ∧ ChallengeAuth.authenticatedChats r.2 = ChallengeAuth.authenticatedChats s
       ∧ ChallengeAuth.secretStorage r.2 = ChallengeAuth.secretStorage s).
Proof.
  intros r. subst r.
  unfold ChallengeAuth.authorizeChannel, ChallengeAuth.isUserTrusted,
    ChallengeAuth.getChannelAuth, ChallengeAuth.isChannelAuthorized.
  destruct (bool_decide (is_Some (ChallengeAuth.trustedUsers s
                                    !! ChallengeAuth.makeUserKey transport userId)));
    simpl; split_and!; try done.
  intros _. split_and!; try done.
  - apply lookup_insert_eq.
  - intros key Hne. by rewrite lookup_insert_ne.
  - intros other Hne. rewrite lookup_insert_ne; [done |].
    intros E. apply Hne. symmetry. by apply append_inv_tail in E.
Qed.

(** X8.  [revokeChannel] succeeds exactly when the channel is authorized
    and the revoking user is trusted on that transport; the revoker need
    not be the user who authorized it.  On failure nothing changes; on
    success the channel is no longer authorized and every other channel
    keeps its record. *)
Theorem revokeChannel_by_any_trusted_user
    (s : ChallengeAuth.t) (transport channelId byUserId : string) :
  let r := ChallengeAuth.revokeChannel s transport channelId byUserId in
  (r.1 = true
   ↔ ChallengeAuth.isChannelAuthorized s transport channelId = true
     ∧ ChallengeAuth.isUserTrusted s transport byUserId = true)
  ∧ (r.1 = false → r.2 = s)
  ∧ (r.1 = true →
       ChallengeAuth.isChannelAuthorized r.2 transport channelId = false
       ∧ (∀ key, key ≠ ChallengeAuth.makeChannelKey transport channelId →
            ChallengeAuth.authorizedChannels r.2 !! key
            = ChallengeAuth.authorizedChannels s !! key)
       ∧ ChallengeAuth.trustedUsers r.2 = ChallengeAuth.trustedUsers s).
Proof.
  intros r. subst r.
  unfold ChallengeAuth.revokeChannel, ChallengeAuth.isUserTrusted,
    ChallengeAuth.isChannelAuthorized.
  destruct (ChallengeAuth.authorizedChannels s
              !! ChallengeAuth.makeChannelKey transport channelId) as [channel|] eqn:Hchannel.
  - assert (bool_decide (is_Some (Some channel)) = true) as -> by by apply bool_decide_eq_true.
    destruct (bool_decide (is_Some (ChallengeAuth.trustedUsers s
                                      !! ChallengeAuth.makeUserKey transport byUserId)));
      simpl; split_and!; try done; try (split; [done | by intros [_ ?]]).
    intros _. split_and!; try done.
    + apply bool_decide_eq_false. rewrite lookup_delete_eq. by intros [? ?].
    + intros key Hne. by rewrite lookup_delete_ne.
  - assert (bool_decide (is_Some (@None AuthorizedChannel.t)) = false) as ->.
    { apply bool_decide_eq_false. by intros [? ?]. }
    simpl. split_and!; try done. split; [done | by intros [? _]].
Qed.

(** X9.  Enabling and disabling a channel, end to end.  Once a trusted
    user has authorized a channel in mode [all], every group message in
    that channel is allowed, whoever sends it; once any trusted user has
    revoked it again, every such message is denied as
    [channel-not-authorized]. *)
Theorem channel_enabled_for_all_then_disabled
    (s : ChallengeAuth.t) (transport channelId enabler disabler : string)
    (channelName : option string) (now : Z) :
  ChallengeAuth.isUserTrusted s transport enabler = true →
  ChallengeAuth.isUserTrusted s transport disabler = true →
  let enabled := ChallengeAuth.authorizeChannel s transport channelId enabler channelName
                   "all" now in
  let disabled := ChallengeAuth.revokeChannel enabled.2 transport channelId disabler in
  enabled.1 = true ∧ disabled.1 = true
  ∧ ∀ msg : ExternalMessage.t,
      ExternalMessage.isDM msg = false →
      ExternalMessage.transport msg = transport →
      ExternalMessage.chatId msg = channelId →
      ChallengeAuth.canRespondTo enabled.2 msg = Allowed
      ∧ ChallengeAuth.canRespondTo disabled.2 msg = Denied channel_not_authorized.
Proof.
  intros Henabler Hdisabler enabled disabled. subst disabled enabled.
  unfold ChallengeAuth.authorizeChannel, ChallengeAuth.revokeChannel.
  unfold ChallengeAuth.isUserTrusted in Henabler, Hdisabler.
  rewrite Henabler. simpl. rewrite lookup_insert_eq, Hdisabler. simpl.
  split_and!; [done | done |].
  intros msg Hgroup <- <-.
  unfold ChallengeAuth.canRespondTo, ChallengeAuth.getChannelAuth. rewrite Hgroup. simpl.
  by rewrite lookup_insert_eq, lookup_delete_eq.
Qed.

Lemma channel_enabled_for_all_then_disabled_witness :
  let enabled := ChallengeAuth.authorizeChannel two_admins "telegram" "ops" "user123"
                   (Some "ops") "all" 5000 in
  let disabled := ChallengeAuth.revokeChannel enabled.2 "telegram" "ops" "user456" in
  enabled.1 = true ∧ disabled.1 = true
  ∧ ∀ msg : ExternalMessage.t,
      ExternalMessage.isDM msg = false →
      ExternalMessage.transport msg = "telegram" →
      ExternalMessage.chatId msg = "ops" →
      ChallengeAuth.canRespondTo enabled.2 msg = Allowed
      ∧ ChallengeAuth.canRespondTo disabled.2 msg = Denied channel_not_authorized.
Proof.
  apply (channel_enabled_for_all_then_disabled two_admins "telegram" "ops" "user123"
           "user456" (Some "ops") 5000);
    vm_compute; reflexivity.
Defined.

(** ** Trusted users *)

(** X10.  [trustUser] makes the user trusted with exactly the record
    built from the arguments; trusting again replaces the record, so the
    number of trusted users grows by one for a new user and not at all
    for a known one.  Every other user keeps its record, an attached
    storage that accepts the write then holds the new map, and the set of
    authenticated chats is not touched: trusting a user does not by
    itself authenticate the user's chat. *)
Theorem trustUser_overwrites_and_saves
    (s : ChallengeAuth.t) (transport userId username dmChatId : string) (now : Z) :
  let key := ChallengeAuth.makeUserKey transport userId in
  let s' := ChallengeAuth.trustUser s transport userId username dmChatId now in
  ChallengeAuth.getTrustedUser s' transport userId
  = Some (TrustedUser.mk transport userId username dmChatId (Some now) (Some now))
  ∧ (∀ other, other ≠ key →
       ChallengeAuth.trustedUsers s' !! other = ChallengeAuth.trustedUsers s !! other)
  ∧ size (ChallengeAuth.trustedUsers s')
    = (if ChallengeAuth.isUserTrusted s transport userId
       then size (ChallengeAuth.trustedUsers s)
       else S (size (ChallengeAuth.trustedUsers s)))
  ∧ ChallengeAuth.authenticatedChats s' = ChallengeAuth.authenticatedChats s
  ∧ ChallengeAuth.authorizedChannels s' = ChallengeAuth.authorizedChannels s
  ∧ (∀ st, ChallengeAuth.secretStorage s = Some st →
           SecretStorage.failing st = false →
           ChallengeAuth.secretStorage s'
           = Some (SecretStorage.mk
                     (Some (SecretStorage.Document
                              (PersistedAuthData.mk (ChallengeAuth.trustedUsers s') 1)))
                     false (S (SecretStorage.writes st)))).
Proof.
  intros key s'. subst s'.
  destruct (trustUser_fields s transport userId username dmChatId now)
    as (Hchats & _ & _ & Htrusted & Hchannels).
  unfold ChallengeAuth.getTrustedUser. rewrite Htrusted. fold key.
  split_and!; try done.
  - apply lookup_insert_eq.
  - intros other Hne. by rewrite lookup_insert_ne.
  - unfold ChallengeAuth.isUserTrusted. fold key.
    destruct (ChallengeAuth.trustedUsers s !! key) as [old|] eqn:Hold.
    + rewrite bool_decide_eq_true_2 by done.
      rewrite <- (insert_delete_id (ChallengeAuth.trustedUsers s) key old) at 2 by done.
      rewrite <- insert_delete_eq.
      rewrite !map_size_insert_None by apply lookup_delete_eq. done.
    + rewrite bool_decide_eq_false_2 by by intros [? ?].
      by apply map_size_insert_None.
  - intros st Hattached Hok.
    unfold ChallengeAuth.trustUser, ChallengeAuth.saveToStorage. simpl.
    rewrite Hattached. simpl. unfold SecretStorage.store. by rewrite Hok.
Qed.

(** X11.  [touchUser] only moves the date of last activity of a trusted
    user: the user's other fields and every other user are as before, so
    nobody gains or loses trust; nothing is done for a user who is not
    trusted; and the storage is never written, so the stored ledger
    keeps the older date. *)
Theorem touchUser_only_moves_the_date
    (s : ChallengeAuth.t) (transport userId : string) (now : Z) :
  let key := ChallengeAuth.makeUserKey transport userId in
  let s' := ChallengeAuth.touchUser s transport userId now in
  (∀ t u, ChallengeAuth.isUserTrusted s' t u = ChallengeAuth.isUserTrusted s t u)
  ∧ (∀ user, ChallengeAuth.trustedUsers s !! key = Some user →
       ChallengeAuth.trustedUsers s' !! key
       = Some (TrustedUser.mk (TrustedUser.transport user) (TrustedUser.userId user)
                 (TrustedUser.username user) (TrustedUser.dmChatId user)
                 (TrustedUser.authenticatedAt user) (Some now))
       ∧ ChallengeAuth.trustExpired now
           (TrustedUser.mk (TrustedUser.transport user) (TrustedUser.userId user)
              (TrustedUser.username user) (TrustedUser.dmChatId user)
              (TrustedUser.authenticatedAt user) (Some now)) = false)
  ∧ (∀ other, other ≠ key →
       ChallengeAuth.trustedUsers s' !! other = ChallengeAuth.trustedUsers s !! other)
  ∧ (ChallengeAuth.trustedUsers s !! key = None → s' = s)
  ∧ ChallengeAuth.secretStorage s' = ChallengeAuth.secretStorage s
  ∧ ChallengeAuth.authenticatedChats s' = ChallengeAuth.authenticatedChats s
  ∧ ChallengeAuth.authorizedChannels s' = ChallengeAuth.authorizedChannels s.
Proof.
  intros key s'. subst s'. unfold ChallengeAuth.touchUser, ChallengeAuth.isUserTrusted.
  fold key.
  destruct (ChallengeAuth.trustedUsers s !! key) as [user|] eqn:Huser; simpl;
    split_and!; try done.
  - intros t u. destruct (decide (key = ChallengeAuth.makeUserKey t u)) as [<- | Hne].
    + rewrite lookup_insert_eq, Huser.
      rewrite !bool_decide_eq_true_2; done.
    + by rewrite lookup_insert_ne.
  - intros ? [= <-]. split; [apply lookup_insert_eq |].
    apply not_true_is_false. rewrite trustExpired_true. simpl.
    intros (lastActive & [= <-] & Hlt). lia.
  - intros other Hne. by rewrite lookup_insert_ne.
Qed.

(** ** Persistence *)

(** X12.  What is saved loads back.  After the engine has written its
    trusted users to a storage that accepts the write, a new engine
    initialized from that storage at time [now] trusts exactly the saved
    users that are not yet expired at [now], each with the saved record
    and with the direct-message chat authenticated; it has no authorized
    channel (these are never stored) and no challenge or lockout. *)
Theorem saved_ledger_loads_back
    (s : ChallengeAuth.t) (st : SecretStorage.t) (now : Z) :
  ChallengeAuth.secretStorage s = Some st →
  SecretStorage.failing st = false →
  ∃ st',
    ChallengeAuth.secretStorage (ChallengeAuth.saveToStorage s) = Some st'
    ∧ let restarted := ChallengeAuth.initialize ChallengeAuth.init st' now in
      (∀ key,
         ChallengeAuth.trustedUsers restarted !! key
         = match ChallengeAuth.trustedUsers s !! key with
           | Some user => if ChallengeAuth.trustExpired now user then None else Some user
           | None => None
           end)
      ∧ (∀ key user,
           ChallengeAuth.trustedUsers restarted !! key = Some user →
           ChallengeAuth.isAuthenticated restarted (TrustedUser.transport user)
             (TrustedUser.dmChatId user) = true)
      ∧ ChallengeAuth.authorizedChannels restarted = ∅
      ∧ ChallengeAuth.pendingChallenges restarted = ∅
      ∧ ChallengeAuth.blockedUsers restarted = ∅.
Proof.
  intros Hattached Hok.
  exists (SecretStorage.mk
            (Some (SecretStorage.Document
                     (PersistedAuthData.mk (ChallengeAuth.trustedUsers s) 1)))
            false (S (SecretStorage.writes st))).
  split.
  { unfold ChallengeAuth.saveToStorage. rewrite Hattached. simpl.
    unfold SecretStorage.store. by rewrite Hok. }
  unfold ChallengeAuth.initialize, ChallengeAuth.loadFromStorage, SecretStorage.get. simpl.
  pose proof (loading_loop
                (ChallengeAuth.with_secretStorage ChallengeAuth.init
                   (Some (SecretStorage.mk
                            (Some (SecretStorage.Document
                                     (PersistedAuthData.mk (ChallengeAuth.trustedUsers s) 1)))
                            false (S (SecretStorage.writes st)))))
                now (ChallengeAuth.trustedUsers s)) as Hloop.
  destruct (map_fold _ _ (ChallengeAuth.trustedUsers s))
    as [[s1 loadedCount] expiredCount].
  destruct Hloop as (Htrusted & Hchats & _ & Hpending & Hblocked & Hchannels & _).
  simpl in Htrusted, Hchats, Hpending, Hblocked, Hchannels.
  set (final := if Nat.ltb 0 expiredCount then ChallengeAuth.saveToStorage s1 else s1).
  assert (ChallengeAuth.trustedUsers final = ChallengeAuth.trustedUsers s1
          ∧ ChallengeAuth.authenticatedChats final = ChallengeAuth.authenticatedChats s1
          ∧ ChallengeAuth.authorizedChannels final = ChallengeAuth.authorizedChannels s1
          ∧ ChallengeAuth.pendingChallenges final = ChallengeAuth.pendingChallenges s1
          ∧ ChallengeAuth.blockedUsers final = ChallengeAuth.blockedUsers s1)
    as (Et & Ec & Ea & Ep & Eb).
  { subst final. destruct (Nat.ltb 0 expiredCount); [| done].
    by destruct (saveToStorage_fields s1) as (-> & -> & -> & -> & -> & _). }
  assert (∀ key,
            ChallengeAuth.trustedUsers final !! key
            = match ChallengeAuth.trustedUsers s !! key with
              | Some user => if ChallengeAuth.trustExpired now user then None else Some user
              | None => None
              end) as Hlookup.
  { intros key. rewrite Et, Htrusted, lookup_empty. done. }
  split_and!.
  - exact Hlookup.
  - intros key user Hin. apply isAuthenticated_true. rewrite Ec. apply Hchats. right.
    exists key, user. rewrite Hlookup in Hin.
    destruct (ChallengeAuth.trustedUsers s !! key) as [saved|]; [| done].
    destruct (ChallengeAuth.trustExpired now saved) eqn:Hexp; [done |].
    by injection Hin as ->.
  - by rewrite Ea, Hchannels.
  - by rewrite Ep, Hpending.
  - by rewrite Eb, Hblocked.
Qed.

Lemma saved_ledger_loads_back_witness :
  ∃ st',
    ChallengeAuth.secretStorage
      (ChallengeAuth.saveToStorage
         (ChallengeAuth.with_secretStorage two_admins
            (Some (SecretStorage.mk None false 0)))) = Some st'
    ∧ let restarted := ChallengeAuth.initialize ChallengeAuth.init st' (10 * day) in
      (∀ key,
         ChallengeAuth.trustedUsers restarted !! key
         = match ChallengeAuth.trustedUsers
                   (ChallengeAuth.with_secretStorage two_admins
                      (Some (SecretStorage.mk None false 0))) !! key with
           | Some user =>
               if ChallengeAuth.trustExpired (10 * day) user then None else Some user
           | None => None
           end)
      ∧ (∀ key user,
           ChallengeAuth.trustedUsers restarted !! key = Some user →
           ChallengeAuth.isAuthenticated restarted (TrustedUser.transport user)
             (TrustedUser.dmChatId user) = true)
      ∧ ChallengeAuth.authorizedChannels restarted = ∅
      ∧ ChallengeAuth.pendingChallenges restarted = ∅
      ∧ ChallengeAuth.blockedUsers restarted = ∅.
Proof.
  apply (saved_ledger_loads_back
           (ChallengeAuth.with_secretStorage two_admins
              (Some (SecretStorage.mk None false 0)))
           (SecretStorage.mk None false 0) (10 * day)); reflexivity.
Defined.

(** X13.  Loading degrades gracefully.  Without a storage, with a storage
    whose read fails, with no stored data, with data that does not
    parse, or with a document of another version, [loadFromStorage]
    leaves the engine exactly as it was; and a storage whose write fails
    leaves [saveToStorage] without effect. *)
Theorem loading_without_usable_data_changes_nothing (s : ChallengeAuth.t) (now : Z) :
  (ChallengeAuth.secretStorage s = None → ChallengeAuth.loadFromStorage s now = s)
  ∧ (∀ st, ChallengeAuth.secretStorage s = Some st →
       (SecretStorage.failing st = true
        ∨ SecretStorage.slot st = None
        ∨ SecretStorage.slot st = Some SecretStorage.Unparsable
        ∨ ∃ parsed, SecretStorage.slot st = Some (SecretStorage.Document parsed)
                    ∧ PersistedAuthData.version parsed ≠ 1) →
       ChallengeAuth.loadFromStorage s now = s)
  ∧ (∀ st, ChallengeAuth.secretStorage s = Some st →
       SecretStorage.failing st = true →
       ChallengeAuth.saveToStorage s = s).
Proof.
  unfold ChallengeAuth.loadFromStorage, ChallengeAuth.saveToStorage, SecretStorage.get,
    SecretStorage.store.
  split_and!.
  - by intros ->.
  - intros st -> [-> | Hslot]; [done |].
    destruct (SecretStorage.failing st); [done |].
    destruct Hslot as [-> | [-> | (parsed & -> & Hversion)]]; [done | done |].
    apply Z.eqb_neq in Hversion. unfold ChallengeAuth.STORAGE_VERSION. by rewrite Hversion.
  - intros st Hattached Hfailing. rewrite Hattached, Hfailing.
    unfold ChallengeAuth.with_secretStorage.
    rewrite <- Hattached. apply engine_eta.
Qed.

(** ** Clearing state *)

(** X14.  After [reset] the engine answers nobody: every direct message
    is denied as [not-dm-authed] and every group message as
    [channel-not-authorized], no user is trusted, and no chat has a
    pending challenge or a lockout.  The storage is not written, so the
    stored ledger still holds the users that were trusted. *)
Theorem reset_denies_everyone (s : ChallengeAuth.t) :
  (∀ msg : ExternalMessage.t,
     ChallengeAuth.canRespondTo (ChallengeAuth.reset s) msg
     = Denied (if ExternalMessage.isDM msg then not_dm_authed else channel_not_authorized))
  ∧ (∀ transport userId,
       ChallengeAuth.isUserTrusted (ChallengeAuth.reset s) transport userId = false)
  ∧ (∀ transport chatId now,
       ChallengeAuth.hasPendingChallenge (ChallengeAuth.reset s) transport chatId now
       = (false, ChallengeAuth.reset s)
       ∧ ChallengeAuth.isBlocked (ChallengeAuth.reset s) transport chatId now
         = (false, ChallengeAuth.reset s))
  ∧ ChallengeAuth.secretStorage (ChallengeAuth.reset s) = ChallengeAuth.secretStorage s.
Proof.
  split_and!; try done.
  intros msg. unfold ChallengeAuth.canRespondTo, ChallengeAuth.reset,
    ChallengeAuth.isAuthenticated, ChallengeAuth.isUserTrusted,
    ChallengeAuth.getChannelAuth. simpl.
  by destruct (ExternalMessage.isDM msg).
Qed.

(** X15.  [clearOnConnect] lifts every lockout and forgets every pending
    challenge, and changes no permission: the decision of [canRespondTo]
    is the same for every message, and the trusted users and the storage
    are untouched. *)
Theorem clearOnConnect_keeps_permissions (s : ChallengeAuth.t) :
  let s' := ChallengeAuth.clearOnConnect s in
  (∀ transport chatId now,
     ChallengeAuth.isBlocked s' transport chatId now = (false, s')
     ∧ ChallengeAuth.hasPendingChallenge s' transport chatId now = (false, s')
     ∧ ChallengeAuth.getBlockTimeRemaining s' transport chatId now = 0
     ∧ ChallengeAuth.getAttemptsRemaining s' transport chatId = 0)
  ∧ (∀ msg, ChallengeAuth.canRespondTo s' msg = ChallengeAuth.canRespondTo s msg)
  ∧ same_access s s'.
Proof.
  intros s'. subst s'. split_and!; try done.
Qed.

(** X16.  [trackChannel] records a named channel under the lower-cased
    name, the latest sighting replacing an earlier one; a missing or
    empty name records nothing; and in no case does tracking change a
    permission decision. *)
Theorem trackChannel_records_names_only
    (toLowerCase : string → string) (s : ChallengeAuth.t)
    (transport channelId : string) (channelName : option string) :
  let s' := ChallengeAuth.trackChannel toLowerCase s transport channelId channelName in
  (truthy_string channelName = false → s' = s)
  ∧ (∀ name, channelName = Some name → name ≠ "" →
       ChallengeAuth.seenChannels s' !! ChallengeAuth.makeKey transport (toLowerCase name)
       = Some (channelId, name)
       ∧ ∀ key, key ≠ ChallengeAuth.makeKey transport (toLowerCase name) →
           ChallengeAuth.seenChannels s' !! key = ChallengeAuth.seenChannels s !! key)
  ∧ (∀ msg, ChallengeAuth.canRespondTo s' msg = ChallengeAuth.canRespondTo s msg)
  ∧ ChallengeAuth.pendingChallenges s' = ChallengeAuth.pendingChallenges s
  ∧ ChallengeAuth.blockedUsers s' = ChallengeAuth.blockedUsers s
  ∧ ChallengeAuth.secretStorage s' = ChallengeAuth.secretStorage s.
Proof.
  intros s'. subst s'. unfold ChallengeAuth.trackChannel, truthy_string.
  destruct channelName as [name|]; [| split_and!; done].
  destruct (String.eqb_spec name "") as [-> | Hnamed]; simpl; split_and!; try done.
  - by intros ? [= <-] ?.
  - intros ? [= <-] _. split; [apply lookup_insert_eq |].
    intros key Hne. by rewrite lookup_insert_ne.
Qed.

(** ** What holds in every state the engine can reach *)

(** Loading never removes anything from memory: it leaves challenges,
    lockouts and channels alone, and keeps every trusted user and every
    authenticated chat. *)
Lemma loadFromStorage_only_adds (s : ChallengeAuth.t) (now : Z) :
  let s' := ChallengeAuth.loadFromStorage s now in
  ChallengeAuth.pendingChallenges s' = ChallengeAuth.pendingChallenges s
  ∧ ChallengeAuth.blockedUsers s' = ChallengeAuth.blockedUsers s
  ∧ ChallengeAuth.authorizedChannels s' = ChallengeAuth.authorizedChannels s
  ∧ (∀ key, is_Some (ChallengeAuth.trustedUsers s !! key) →
            is_Some (ChallengeAuth.trustedUsers s' !! key))
  ∧ ChallengeAuth.authenticatedChats s ⊆ ChallengeAuth.authenticatedChats s'.
Proof.
  intros s'. subst s'. unfold ChallengeAuth.loadFromStorage.
  destruct (ChallengeAuth.secretStorage s) as [st|]; [| done].
  destruct (SecretStorage.get st) as [[[| parsed]|]|]; try done.
  destruct (negb _); [done |].
  pose proof (loading_loop s now (PersistedAuthData.trustedUsers parsed)) as Hloop.
  destruct (map_fold _ _ _) as [[s1 loadedCount] expiredCount].
  destruct Hloop as (Htrusted & Hchats & _ & Hpending & Hblocked & Hchannels & _).
  simpl in *.
  set (final := if Nat.ltb 0 expiredCount then ChallengeAuth.saveToStorage s1 else s1).
  assert (ChallengeAuth.trustedUsers final = ChallengeAuth.trustedUsers s1
          ∧ ChallengeAuth.authenticatedChats final = ChallengeAuth.authenticatedChats s1
          ∧ ChallengeAuth.authorizedChannels final = ChallengeAuth.authorizedChannels s1
          ∧ ChallengeAuth.pendingChallenges final = ChallengeAuth.pendingChallenges s1
          ∧ ChallengeAuth.blockedUsers final = ChallengeAuth.blockedUsers s1)
    as (-> & -> & -> & -> & ->).
  { subst final. destruct (Nat.ltb 0 expiredCount); [| done].
    by destruct (saveToStorage_fields s1) as (-> & -> & -> & -> & -> & _). }
  split_and!; try done.
  - intros key Hkey. rewrite Htrusted.
    destruct (PersistedAuthData.trustedUsers parsed !! key) as [user|]; [| done].
    by destruct (ChallengeAuth.trustExpired now user).
  - intros chat Hchat. apply Hchats. by left.
Qed.

(** A channel table that is well formed stays so when trusted users are
    only added and the table is unchanged. *)
Lemma channels_stay_well_formed (s s' : ChallengeAuth.t) :
  channels_have_trusted_authorizers s →
  ChallengeAuth.authorizedChannels s' = ChallengeAuth.authorizedChannels s →
  (∀ key, is_Some (ChallengeAuth.trustedUsers s !! key) →
          is_Some (ChallengeAuth.trustedUsers s' !! key)) →
  channels_have_trusted_authorizers s'.
Proof.
  intros Hwf Hchannels Hgrows key channel Hin. rewrite Hchannels in Hin.
  destruct (Hwf key channel Hin) as (Hkey & userId & Hby & Htrusted).
  split; [done |]. exists userId. split; [done |].
  apply isUserTrusted_true, Hgrows. by apply isUserTrusted_true.
Qed.

Lemma callEngine_keeps_channels_well_formed
    (toLowerCase : string → string) (s : ChallengeAuth.t) (c : EngineCall) :
  channels_have_trusted_authorizers s →
  channels_have_trusted_authorizers (callEngine toLowerCase s c).
Proof.
  intros Hwf. destruct c; simpl.
  - (* initialize *)
    unfold ChallengeAuth.initialize.
    destruct (loadFromStorage_only_adds
                (ChallengeAuth.with_secretStorage s (Some storage)) now)
      as (_ & _ & Hchannels & Hgrows & _).
    by apply (channels_stay_well_formed s).
  - (* trustUser *)
    destruct (trustUser_fields s transport userId username dmChatId now)
      as (_ & _ & _ & Htrusted & Hchannels).
    apply (channels_stay_well_formed s); [done | done |].
    intros key Hkey. rewrite Htrusted.
    destruct (decide (ChallengeAuth.makeUserKey transport userId = key)) as [<- | Hne].
    + by rewrite lookup_insert_eq.
    + by rewrite lookup_insert_ne.
  - (* touchUser *)
    apply (channels_stay_well_formed s); [done | |].
    + unfold ChallengeAuth.touchUser. by destruct (_ !! _).
    + intros key Hkey. unfold ChallengeAuth.touchUser.
      destruct (ChallengeAuth.trustedUsers s !! ChallengeAuth.makeUserKey transport userId)
        eqn:Huser; [| done].
      simpl. destruct (decide (ChallengeAuth.makeUserKey transport userId = key))
        as [<- | Hne].
      * by rewrite lookup_insert_eq.
      * by rewrite lookup_insert_ne.
  - (* untrustUser *)
    destruct (ChallengeAuth.trustedUsers s !! ChallengeAuth.makeUserKey transport userId)
      as [user|] eqn:Huser.
    + destruct (untrustUser_trusted s transport userId user Huser)
        as (_ & Htrusted & Hchannels & _).
      intros key channel Hin. rewrite Hchannels, revocation_loop_lookup in Hin.
      destruct (ChallengeAuth.authorizedChannels s !! key) as [channel'|] eqn:Hold;
        [| done].
      destruct (decide (AuthorizedChannel.authorizedBy channel'
                        = ChallengeAuth.makeUserKey transport userId)) as [| Hother];
        [done |].
      injection Hin as <-.
      destruct (Hwf key channel' Hold) as (Hkey & authorizer & Hby & Hauthorizer).
      split; [done |]. exists authorizer. split; [done |].
      apply isUserTrusted_true. rewrite Htrusted, lookup_delete_ne.
      * by apply isUserTrusted_true.
      * by rewrite <- Hby.
    + unfold ChallengeAuth.untrustUser. by rewrite Huser.
  - (* authorizeChannel *)
    unfold ChallengeAuth.authorizeChannel.
    destruct (bool_decide (is_Some (ChallengeAuth.trustedUsers s
                                      !! ChallengeAuth.makeUserKey transport userId)))
      eqn:Htrusted; [| done].
    simpl. intros key channel Hin. simpl in Hin.
    apply lookup_insert_Some in Hin as [[<- <-] | [_ Hin]].
    + split; [done |]. by exists userId.
    + by apply Hwf.
  - (* revokeChannel *)
    unfold ChallengeAuth.revokeChannel.
    destruct (ChallengeAuth.authorizedChannels s !! _); [| done].
    destruct (negb _); [done |].
    simpl. intros key channel Hin. simpl in Hin.
    apply lookup_delete_Some in Hin as [_ Hin]. by apply Hwf.
  - (* trackChannel *)
    apply (channels_stay_well_formed s); [done | |];
      unfold ChallengeAuth.trackChannel; destruct channelName as [name|]; try done;
      by destruct (String.eqb name "").
  - (* isBlocked *)
    apply (channels_stay_well_formed s); [done | |];
      unfold ChallengeAuth.isBlocked; destruct (_ !! _) as [blocked|]; try done;
      by destruct (_ <? _).
  - (* hasPendingChallenge *)
    apply (channels_stay_well_formed s); [done | |];
      unfold ChallengeAuth.hasPendingChallenge; destruct (_ !! _) as [challenge|];
      try done; by destruct (_ <? _).
  - (* createChallenge *)
    by apply (channels_stay_well_formed s).
  - (* verifyChallenge *)
    destruct (verifyChallenge_effect s transport chatId response userId username isDM now)
      as [(_ & _ & _ & _ & _ & Htrusted & Hchannels & _)
         | [(_ & _ & _ & _ & _ & Hchannels & Htrusted & _)
           | (challenge & _ & _ & _ & _ & _ & _ & _ & Htrusted & Hchannels & _)]];
      apply (channels_stay_well_formed s); try done;
      try (intros key Hkey; by rewrite Htrusted).
    intros key Hkey. rewrite Htrusted. destruct isDM; [| done].
    destruct (decide (ChallengeAuth.makeUserKey transport userId = key)) as [<- | Hne].
    + by rewrite lookup_insert_eq.
    + by rewrite lookup_insert_ne.
  - (* clearOnConnect *)
    by apply (channels_stay_well_formed s).
  - (* reset *)
    intros key channel Hin. unfold ChallengeAuth.reset in Hin. simpl in Hin.
    by rewrite lookup_empty in Hin.
Qed.

Lemma callEngine_keeps_attempts_left
    (toLowerCase : string → string) (s : ChallengeAuth.t) (c : EngineCall) :
  challenges_have_attempts_left s →
  challenges_have_attempts_left (callEngine toLowerCase s c).
Proof.
  intros Hwf.
  assert (∀ s', ChallengeAuth.pendingChallenges s' = ChallengeAuth.pendingChallenges s →
                challenges_have_attempts_left s') as Hsame.
  { intros s' Heq key challenge Hin. rewrite Heq in Hin. by apply (Hwf key). }
  assert (∀ s' gone,
            ChallengeAuth.pendingChallenges s' = delete gone (ChallengeAuth.pendingChallenges s) →
            challenges_have_attempts_left s') as Hdeleted.
  { intros s' gone Heq key challenge Hin. rewrite Heq in Hin.
    apply lookup_delete_Some in Hin as [_ Hin]. by apply (Hwf key). }
  destruct c; simpl.
  - unfold ChallengeAuth.initialize.
    destruct (loadFromStorage_only_adds
                (ChallengeAuth.with_secretStorage s (Some storage)) now) as (Hpending & _).
    by apply Hsame.
  - destruct (trustUser_fields s transport userId username dmChatId now)
      as (_ & Hpending & _).
    by apply Hsame.
  - apply Hsame. unfold ChallengeAuth.touchUser. by destruct (_ !! _).
  - destruct (ChallengeAuth.trustedUsers s !! ChallengeAuth.makeUserKey transport userId)
      as [user|] eqn:Huser.
    + destruct (untrustUser_trusted s transport userId user Huser)
        as (_ & _ & _ & _ & Hpending & _).
      by apply Hsame.
    + unfold ChallengeAuth.untrustUser. by rewrite Huser.
  - apply Hsame. unfold ChallengeAuth.authorizeChannel. by destruct (negb _).
  - apply Hsame. unfold ChallengeAuth.revokeChannel.
    destruct (_ !! _); [| done]. by destruct (negb _).
  - apply Hsame. unfold ChallengeAuth.trackChannel.
    destruct channelName as [name|]; [| done]. by destruct (String.eqb name "").
  - apply Hsame. unfold ChallengeAuth.isBlocked.
    destruct (_ !! _) as [blocked|]; [| done]. by destruct (_ <? _).
  - unfold ChallengeAuth.hasPendingChallenge.
    destruct (_ !! _) as [challenge|]; [| done].
    destruct (_ <? _); [| done]. by apply (Hdeleted _ (ChallengeAuth.makeKey transport chatId)).
  - intros key challenge Hin. simpl in Hin.
    apply lookup_insert_Some in Hin as [[_ <-] | [_ Hin]]; [simpl; lia |].
    by apply (Hwf key).
  - destruct (verifyChallenge_effect s transport chatId response userId username isDM now)
      as [(_ & _ & Hpending & _) | [(_ & _ & Hpending & _)
         | (challenge & Hold & _ & _ & _ & Hpending & _)]].
    + by apply (Hdeleted _ (ChallengeAuth.makeKey transport chatId)).
    + by apply (Hdeleted _ (ChallengeAuth.makeKey transport chatId)).
    + destruct (decide (PendingChallenge.attempts challenge + 1 < 3)) as [Hfew |].
      * intros key challenge' Hin. rewrite Hpending in Hin.
        apply lookup_insert_Some in Hin as [[_ <-] | [_ Hin]]; [| by apply (Hwf key)].
        simpl. pose proof (Hwf _ _ Hold). lia.
      * by apply (Hdeleted _ (ChallengeAuth.makeKey transport chatId)).
  - intros key challenge Hin. unfold ChallengeAuth.clearOnConnect in Hin. simpl in Hin.
    by rewrite lookup_empty in Hin.
  - intros key challenge Hin. unfold ChallengeAuth.reset in Hin. simpl in Hin.
    by rewrite lookup_empty in Hin.
Qed.

(** X17.  In every state that calls to the engine can produce from a new
    engine, each authorized channel is stored under the key of its own
    transport and id and was authorized by a user of that transport who
    is trusted in that state: authorizing needs trust, and revoking a
    user's trust removes the channels that user authorized. *)
Theorem reachable_channels_have_trusted_authorizers
    (toLowerCase : string → string) (calls : list EngineCall) :
  channels_have_trusted_authorizers (engineAfter toLowerCase calls).
Proof.
  unfold engineAfter.
  assert (channels_have_trusted_authorizers ChallengeAuth.init) as Hinit.
  { intros key channel Hin. simpl in Hin. by rewrite lookup_empty in Hin. }
  revert Hinit. generalize ChallengeAuth.init.
  induction calls as [| c calls IH]; intros s Hwf; simpl; [done |].
  apply IH. by apply callEngine_keeps_channels_well_formed.
Qed.

(** X18.  In every such state a recorded challenge has used at most two
    of its three attempts, so the attempts reported as remaining lie
    between 0 and 3 for every chat and are at least 1 for a chat whose
    challenge is pending. *)
Theorem reachable_challenges_have_attempts_left
    (toLowerCase : string → string) (calls : list EngineCall) :
  let s := engineAfter toLowerCase calls in
  challenges_have_attempts_left s
  ∧ ∀ transport chatId,
      0 ≤ ChallengeAuth.getAttemptsRemaining s transport chatId ≤ 3
      ∧ ∀ now, (ChallengeAuth.hasPendingChallenge s transport chatId now).1 = true →
               1 ≤ ChallengeAuth.getAttemptsRemaining s transport chatId.
Proof.
  intros s.
  assert (challenges_have_attempts_left s) as Hwf.
  { subst s. unfold engineAfter.
    assert (challenges_have_attempts_left ChallengeAuth.init) as Hinit.
    { intros key challenge Hin. simpl in Hin. by rewrite lookup_empty in Hin. }
    revert Hinit. generalize ChallengeAuth.init.
    induction calls as [| c calls IH]; intros s Hwf; simpl; [done |].
    apply IH. by apply callEngine_keeps_attempts_left. }
  split; [done |]. intros transport chatId.
  unfold ChallengeAuth.getAttemptsRemaining, ChallengeAuth.hasPendingChallenge,
    ChallengeAuth.MAX_ATTEMPTS.
  destruct (ChallengeAuth.pendingChallenges s !! ChallengeAuth.makeKey transport chatId)
    as [challenge|] eqn:Hpending.
  - pose proof (Hwf _ _ Hpending). split; [lia |]. intros now _. lia.
  - split; [lia |]. by intros now [=].
Qed.

(** * Further properties of the router *)

(** The lockout check changes nothing but the table of lockouts. *)
Lemma isBlocked_effect (a : ChallengeAuth.t) (transport chatId : string) (now : Z) :
  let a1 := (ChallengeAuth.isBlocked a transport chatId now).2 in
  same_access a a1
  ∧ ChallengeAuth.pendingChallenges a1 = ChallengeAuth.pendingChallenges a
  ∧ ((ChallengeAuth.isBlocked a transport chatId now).1 = true → a1 = a)
  ∧ ((ChallengeAuth.isBlocked a transport chatId now).1 = false →
       ChallengeAuth.blockedUsers a1 !! ChallengeAuth.makeKey transport chatId = None).
Proof.
  unfold ChallengeAuth.isBlocked, same_access.
  destruct (ChallengeAuth.blockedUsers a !! ChallengeAuth.makeKey transport chatId)
    as [blocked|] eqn:Hblocked; simpl; [| done].
  destruct (BlockedUser.until blocked <? now); simpl; split_and!; try done.
  intros _. apply lookup_delete_eq.
Qed.

Lemma deliver_effects (m : TransportManager.t) (msg : ExternalMessage.t) :
  Forall (concerns msg) (TransportManager.deliver m msg).2
  ∧ TransportManager.transports (TransportManager.deliver m msg).1
    = TransportManager.transports m.
Proof.
  unfold TransportManager.deliver.
  destruct (TransportManager.waitingResolver m); simpl; split; try done.
  by repeat constructor.
Qed.

Section RouterProperties.

Variable toLowerCase : string → string.
Variable trim : string → string.
Variable adminCommands :
  ChallengeAuth.t → ExternalMessage.t → Z → bool * ChallengeAuth.t * list Reply.

(** The router's steps, one test at a time. *)
Ltac router_cases a m msg now :=
  unfold TransportManager.handleMessage;
  destruct (bool_decide (ExternalMessage.transport msg ∈ TransportManager.transports m))
    eqn:Hregistered; simpl;
  [ pose proof (isBlocked_effect a (ExternalMessage.transport msg)
                  (ExternalMessage.chatId msg) now) as Hcheck;
    destruct (ChallengeAuth.isBlocked a (ExternalMessage.transport msg)
                (ExternalMessage.chatId msg) now) as [locked a1] eqn:Hlock;
    simpl in Hcheck;
    destruct Hcheck as ((Hchats1 & Htrusted1 & Hchannels1 & Hseen1 & Hstorage1)
                        & Hpending1 & Hsame1 & Hfree1);
    destruct locked; simpl;
    [ | destruct (ExternalMessage.isDM msg) eqn:HDM; simpl;
        [ destruct (ChallengeAuth.isAuthenticated a1 (ExternalMessage.transport msg)
                      (ExternalMessage.chatId msg)) eqn:Hauth; simpl | ] ]
  | ].

(** X19.  The router gives a message to the consumer only if it may, and
    a group message is never answered.  When the message is not routable
    (unknown transport, locked-out chat, direct message of a chat that
    is not authenticated, group message that [canRespondTo] denies), the
    queue and the waiter are untouched and no waiter is resolved.  A
    routable group message is handed over and draws no reply at all. *)
Theorem only_routable_messages_are_delivered
    (a : ChallengeAuth.t) (m : TransportManager.t) (msg : ExternalMessage.t)
    (code : string) (now : Z) :
  let handled :=
    TransportManager.handleMessage toLowerCase trim adminCommands a m msg code now in
  (routable a m msg now = false →
     handled.1.2 = m ∧ Forall (λ e, isSend e = true) handled.2)
  ∧ (routable a m msg now = true → ExternalMessage.isDM msg = false →
       handled.1.2 = (TransportManager.deliver m msg).1
       ∧ handled.2 = (TransportManager.deliver m msg).2
       ∧ Forall (λ e, isSend e = false) handled.2)
  ∧ (routable a m msg now = true → ExternalMessage.isDM msg = true →
       (handled.1.2 = m ∧ Forall (λ e, isSend e = true) handled.2)
       ∨ handled.1.2 = (TransportManager.deliver m msg).1).
Proof.
  intros handled. subst handled. unfold routable.
  router_cases a m msg now.
  - (* locked out *) split_and!; try done. intros _. split; [done |]. by repeat constructor.
  - (* direct message, authenticated chat *)
    assert (ChallengeAuth.isAuthenticated a (ExternalMessage.transport msg)
              (ExternalMessage.chatId msg) = true) as ->.
    { unfold ChallengeAuth.isAuthenticated in *. by rewrite <- Hchats1. }
    split_and!; try done. intros _ _.
    unfold TransportManager.handleAdminCommand. rewrite HDM. simpl.
    destruct (ChallengeAuth.getTrustedUser a1 _ _).
    + destruct (adminCommands a1 msg now) as [[wasCommand a2] replies]. simpl.
      destruct wasCommand; simpl.
      * left. split; [done |]. apply Forall_forall. intros e He.
        apply list_elem_of_In, in_map_iff in He as (reply & <- & _). done.
      * right. by destruct (TransportManager.deliver m msg).
    + right. simpl. by destruct (TransportManager.deliver m msg).
  - (* direct message, chat not authenticated *)
    assert (ChallengeAuth.isAuthenticated a (ExternalMessage.transport msg)
              (ExternalMessage.chatId msg) = false) as ->.
    { unfold ChallengeAuth.isAuthenticated in *. by rewrite <- Hchats1. }
    split_and!; try done. intros _.
    destruct (ChallengeAuth.hasPendingChallenge a1 _ _ now) as [pending a2]. simpl.
    destruct pending; simpl; [| split; [done | by repeat constructor]].
    destruct (isNumeric _); simpl; [| split; [done | by repeat constructor]].
    destruct (_ || _); simpl; [split; [done | by repeat constructor] |].
    destruct (Nat.eqb _ 6); simpl; [| split; [done | by repeat constructor]].
    destruct (ChallengeAuth.verifyChallenge _ _ _ _ _ _ _ _) as [[] a3]; simpl;
      (split; [done | by repeat constructor]).
  - (* group message *)
    assert (ChallengeAuth.canRespondTo
              (ChallengeAuth.trackChannel toLowerCase a1 (ExternalMessage.transport msg)
                 (ExternalMessage.chatId msg) (ExternalMessage.channelName msg)) msg
            = ChallengeAuth.canRespondTo a msg) as ->.
    { apply canRespondTo_ext;
        unfold ChallengeAuth.trackChannel;
        destruct (ExternalMessage.channelName msg) as [name|]; try done;
        by destruct (String.eqb name ""). }
    destruct (ChallengeAuth.canRespondTo a msg); simpl; split_and!; try done.
    intros _ _. destruct (TransportManager.deliver m msg) as [m' out] eqn:Hdeliver.
    simpl. split_and!; try done.
    unfold TransportManager.deliver in Hdeliver.
    destruct (TransportManager.waitingResolver m); injection Hdeliver as <- <-;
      by repeat constructor.
  - (* unknown transport *) split_and!; try done.
Qed.

(** X20.  Whatever the router sends goes to the chat the message came
    from, on the transport it came by; and the only message it ever
    gives to the waiter is the incoming one.  The set of registered
    transports is never changed. *)
Theorem router_answers_only_the_sender
    (a : ChallengeAuth.t) (m : TransportManager.t) (msg : ExternalMessage.t)
    (code : string) (now : Z) :
  let handled :=
    TransportManager.handleMessage toLowerCase trim adminCommands a m msg code now in
  Forall (concerns msg) handled.2
  ∧ TransportManager.transports handled.1.2 = TransportManager.transports m.
Proof.
  intros handled. subst handled.
  router_cases a m msg now.
  - split; [| done]. by repeat constructor.
  - unfold TransportManager.handleAdminCommand. rewrite HDM. simpl.
    destruct (deliver_effects m msg) as [Hout Hnames].
    destruct (ChallengeAuth.getTrustedUser a1 _ _).
    + destruct (adminCommands a1 msg now) as [[wasCommand a2] replies]. simpl.
      assert (Forall (concerns msg)
                (map (Send (ExternalMessage.transport msg) (ExternalMessage.chatId msg))
                   replies)) as Hreplies.
      { apply Forall_forall. intros e He.
        apply list_elem_of_In, in_map_iff in He as (reply & <- & _). done. }
      destruct wasCommand; simpl; [done |].
      destruct (TransportManager.deliver m msg). simpl in *.
      split; [| done]. by apply Forall_app.
    + simpl. by destruct (TransportManager.deliver m msg).
  - destruct (ChallengeAuth.hasPendingChallenge a1 _ _ now) as [pending a2]. simpl.
    destruct pending; simpl; [| split; [by repeat constructor | done]].
    destruct (isNumeric _); simpl; [| done].
    destruct (_ || _); simpl; [split; [by repeat constructor | done] |].
    destruct (Nat.eqb _ 6); simpl; [| done].
    destruct (ChallengeAuth.verifyChallenge _ _ _ _ _ _ _ _) as [[] a3]; simpl;
      (split; [by repeat constructor | done]).
  - destruct (deliver_effects m msg) as [Hout Hnames].
    destruct (ChallengeAuth.canRespondTo _ msg); simpl; [| done].
    by destruct (TransportManager.deliver m msg).
  - done.
Qed.

(** X21.  A group message never touches the security state and never
    starts an authentication: for a group message whose chat is not
    locked out, the engine afterwards is the engine after the lockout
    check with the channel's name recorded, so the pending challenges,
    the trusted users, the authenticated chats and the authorized
    channels are as before; and when [canRespondTo] denies the message,
    nothing at all is sent, queued or resolved. *)
Theorem group_messages_change_no_security_state
    (a : ChallengeAuth.t) (m : TransportManager.t) (msg : ExternalMessage.t)
    (code : string) (now : Z) :
  ExternalMessage.isDM msg = false →
  ExternalMessage.transport msg ∈ TransportManager.transports m →
  (ChallengeAuth.isBlocked a (ExternalMessage.transport msg) (ExternalMessage.chatId msg)
     now).1 = false →
  let handled :=
    TransportManager.handleMessage toLowerCase trim adminCommands a m msg code now in
  handled.1.1
  = ChallengeAuth.trackChannel toLowerCase
      (ChallengeAuth.isBlocked a (ExternalMessage.transport msg)
         (ExternalMessage.chatId msg) now).2
      (ExternalMessage.transport msg) (ExternalMessage.chatId msg)
      (ExternalMessage.channelName msg)
  ∧ ChallengeAuth.pendingChallenges handled.1.1 = ChallengeAuth.pendingChallenges a
  ∧ ChallengeAuth.trustedUsers handled.1.1 = ChallengeAuth.trustedUsers a
  ∧ ChallengeAuth.authenticatedChats handled.1.1 = ChallengeAuth.authenticatedChats a
  ∧ ChallengeAuth.authorizedChannels handled.1.1 = ChallengeAuth.authorizedChannels a
  ∧ ChallengeAuth.secretStorage handled.1.1 = ChallengeAuth.secretStorage a
  ∧ (ChallengeAuth.canRespondTo a msg ≠ Allowed →
       handled.1.2 = m ∧ handled.2 = []).
Proof.
  intros Hgroup Hreg Hfree handled. subst handled.
  rewrite handleMessage_group by done.
  pose proof (isBlocked_effect a (ExternalMessage.transport msg)
                (ExternalMessage.chatId msg) now) as Hcheck.
  destruct (ChallengeAuth.isBlocked a _ _ now) as [locked a1]. simpl in *.
  destruct Hcheck as ((Hchats1 & Htrusted1 & Hchannels1 & Hseen1 & Hstorage1)
                      & Hpending1 & _).
  set (a2 := ChallengeAuth.trackChannel toLowerCase a1 _ _ _).
  assert (ChallengeAuth.pendingChallenges a2 = ChallengeAuth.pendingChallenges a1
          ∧ ChallengeAuth.trustedUsers a2 = ChallengeAuth.trustedUsers a1
          ∧ ChallengeAuth.authenticatedChats a2 = ChallengeAuth.authenticatedChats a1
          ∧ ChallengeAuth.authorizedChannels a2 = ChallengeAuth.authorizedChannels a1
          ∧ ChallengeAuth.secretStorage a2 = ChallengeAuth.secretStorage a1)
    as (Ep & Et & Ec & Ea & Es).
  { subst a2. unfold ChallengeAuth.trackChannel.
    destruct (ExternalMessage.channelName msg) as [name|]; [| done].
    by destruct (String.eqb name ""). }
  assert (ChallengeAuth.canRespondTo a2 msg = ChallengeAuth.canRespondTo a msg) as Hsame.
  { apply canRespondTo_ext; congruence. }
  rewrite Hsame.
  destruct (ChallengeAuth.canRespondTo a msg) eqn:Hdecision; simpl;
    split_and!; try congruence; done.
Qed.

End RouterProperties.

Lemma group_messages_change_no_security_state_witness :
  let msg := ExternalMessage.mk "7" "general" "stranger" (Some "mallory") "hello bot" 9000
               "telegram" false (Some false) (Some "General") in
  let handled := TransportManager.handleMessage id id no_commands trusted_engine
                   four_transports msg "555555" 9000 in
  handled.1.1
  = ChallengeAuth.trackChannel id
      (ChallengeAuth.isBlocked trusted_engine "telegram" "general" 9000).2
      "telegram" "general" (Some "General")
  ∧ ChallengeAuth.pendingChallenges handled.1.1
    = ChallengeAuth.pendingChallenges trusted_engine
  ∧ ChallengeAuth.trustedUsers handled.1.1 = ChallengeAuth.trustedUsers trusted_engine
  ∧ ChallengeAuth.authenticatedChats handled.1.1
    = ChallengeAuth.authenticatedChats trusted_engine
  ∧ ChallengeAuth.authorizedChannels handled.1.1
    = ChallengeAuth.authorizedChannels trusted_engine
  ∧ ChallengeAuth.secretStorage handled.1.1 = ChallengeAuth.secretStorage trusted_engine
  ∧ (ChallengeAuth.canRespondTo trusted_engine msg ≠ Allowed →
       handled.1.2 = four_transports ∧ handled.2 = []).
Proof.
  intros msg.
  apply (group_messages_change_no_security_state id id no_commands trusted_engine
           four_transports msg "555555" 9000).
  - reflexivity.
  - vm_compute. reflexivity.
  - vm_compute. reflexivity.
Defined.

(** X22.  The command interpreter is consulted only for a direct message
    of a trusted sender in an authenticated chat that is not locked out:
    for every other message the router behaves the same whatever the
    interpreter is; and for such a message the interpreter is run on the
    engine as the lockout check left it, its replies go to the sender's
    chat, and the message is handed to the consumer exactly when the
    interpreter did not take it as a command. *)
Theorem commands_reach_only_trusted_senders
    (toLowerCase trim : string → string)
    (adminCommands other :
       ChallengeAuth.t → ExternalMessage.t → Z → bool * ChallengeAuth.t * list Reply)
    (a : ChallengeAuth.t) (m : TransportManager.t) (msg : ExternalMessage.t)
    (code : string) (now : Z) :
  let transport := ExternalMessage.transport msg in
  let chatId := ExternalMessage.chatId msg in
  (reachesCommands a m msg now = false →
     TransportManager.handleMessage toLowerCase trim adminCommands a m msg code now
     = TransportManager.handleMessage toLowerCase trim other a m msg code now)
  ∧ (reachesCommands a m msg now = true →
       let cmd := adminCommands (ChallengeAuth.isBlocked a transport chatId now).2 msg now in
       TransportManager.handleMessage toLowerCase trim adminCommands a m msg code now
       = if cmd.1.1
         then (cmd.1.2, m, map (Send transport chatId) cmd.2)
         else (cmd.1.2, (TransportManager.deliver m msg).1,
               (map (Send transport chatId) cmd.2 ++ (TransportManager.deliver m msg).2)%list)).
Proof.
  intros transport chatId. subst transport chatId.
  unfold reachesCommands, routable, TransportManager.handleMessage.
  destruct (bool_decide (ExternalMessage.transport msg ∈ TransportManager.transports m));
    simpl; [| done].
  pose proof (isBlocked_effect a (ExternalMessage.transport msg)
                (ExternalMessage.chatId msg) now) as Hcheck.
  destruct (ChallengeAuth.isBlocked a _ _ now) as [locked a1]. simpl in Hcheck.
  destruct Hcheck as ((Hchats1 & Htrusted1 & _) & _).
  destruct locked; simpl; [done |].
  destruct (ExternalMessage.isDM msg) eqn:HDM; simpl; [| by rewrite andb_false_r].
  assert (ChallengeAuth.isAuthenticated a1 (ExternalMessage.transport msg)
            (ExternalMessage.chatId msg)
          = ChallengeAuth.isAuthenticated a (ExternalMessage.transport msg)
              (ExternalMessage.chatId msg)) as ->.
  { unfold ChallengeAuth.isAuthenticated. by rewrite Hchats1. }
  destruct (ChallengeAuth.isAuthenticated a _ _); simpl; [| done].
  unfold TransportManager.handleAdminCommand, ChallengeAuth.getTrustedUser,
    ChallengeAuth.isUserTrusted.
  rewrite HDM, Htrusted1. simpl.
  destruct (ChallengeAuth.trustedUsers a
              !! ChallengeAuth.makeUserKey (ExternalMessage.transport msg)
                   (ExternalMessage.userId msg)) as [user|].
  - rewrite bool_decide_eq_true_2 by done. split; [done |]. intros _.
    destruct (adminCommands a1 msg now) as [[wasCommand a2] replies]. simpl.
    destruct wasCommand; [done |]. by destruct (TransportManager.deliver m msg).
  - rewrite bool_decide_eq_false_2 by by intros [? ?]. done.
Qed.

(** X23.  While a challenge is pending for an unauthenticated direct
    chat, only an input of exactly six digits is taken as an attempt.
    Any other input leaves the engine as the lockout check left it, so
    no attempt is used up, and leaves the queue alone; it draws the
    reminder when it is numeric with five or seven digits and nothing
    otherwise, and the handler has nothing left to do.  A six-digit
    input is passed to [verifyChallenge] before the handler waits, and
    nothing is sent in that stretch.  The reply is made when the handler
    resumes: it belongs to the answer that [verifyChallenge] gave, and
    for a wrong code it tells the attempts that remain in the engine as
    it is at that moment. *)
Theorem only_six_digits_count_as_an_attempt
    (toLowerCase trim : string → string)
    (adminCommands :
       ChallengeAuth.t → ExternalMessage.t → Z → bool * ChallengeAuth.t * list Reply)
    (a : ChallengeAuth.t) (m : TransportManager.t) (msg : ExternalMessage.t)
    (code : string) (now : Z) :
  let transport := ExternalMessage.transport msg in
  let chatId := ExternalMessage.chatId msg in
  let a1 := (ChallengeAuth.isBlocked a transport chatId now).2 in
  let input := trim (ExternalMessage.content msg) in
  let started :=
    TransportManager.handleMessageStart toLowerCase trim adminCommands a m msg code now in
  transport ∈ TransportManager.transports m →
  ExternalMessage.isDM msg = true →
  (ChallengeAuth.isBlocked a transport chatId now).1 = false →
  ChallengeAuth.isAuthenticated a transport chatId = false →
  (ChallengeAuth.hasPendingChallenge a transport chatId now).1 = true →
  (isNumeric input = false ∨ String.length input ≠ 6%nat →
     started.1.1.1 = a1 ∧ started.1.1.2 = m
     ∧ ChallengeAuth.getAttemptsRemaining started.1.1.1 transport chatId
       = ChallengeAuth.getAttemptsRemaining a transport chatId
     ∧ started.1.2
       = (if isNumeric input
             && (Nat.eqb (String.length input) 5 || Nat.eqb (String.length input) 7)
          then [Send transport chatId CodeLengthReminder]
          else [])
     ∧ started.2 = TransportManager.Finished)
  ∧ (isNumeric input = true → String.length input = 6%nat →
       let v := ChallengeAuth.verifyChallenge a1 transport chatId input
                  (ExternalMessage.userId msg)
                  (or_else (ExternalMessage.username msg) chatId) true now in
       started.1.1.1 = v.2 ∧ started.1.1.2 = m ∧ started.1.2 = []
       ∧ started.2 = TransportManager.Report v.1 msg
       ∧ ∀ (a' : ChallengeAuth.t) (m' : TransportManager.t),
           TransportManager.handleMessageResume a' m' started.2
           = (m',
              [Send transport chatId
                 match v.1 with
                 | Success => AuthenticatedNotice
                 | Expired => ChallengeExpiredNotice
                 | Blocked => BlockedNotice
                 | Wrong =>
                     WrongCodeNotice
                       (ChallengeAuth.getAttemptsRemaining a' transport chatId)
                 end])).
Proof.
  intros transport chatId a1 input started Hreg HDM Hfree Hauth Hpending.
  subst started input a1 transport chatId.
  unfold TransportManager.handleMessageStart.
  rewrite (bool_decide_eq_true_2 _ Hreg). simpl.
  pose proof (isBlocked_effect a (ExternalMessage.transport msg)
                (ExternalMessage.chatId msg) now) as Hcheck.
  destruct (ChallengeAuth.isBlocked a _ _ now) as [locked a1]. simpl in *. subst locked.
  destruct Hcheck as ((Hchats1 & _) & Hpending1 & _).
  assert (ChallengeAuth.isAuthenticated a1 (ExternalMessage.transport msg)
            (ExternalMessage.chatId msg) = false) as ->.
  { unfold ChallengeAuth.isAuthenticated in *. by rewrite Hchats1. }
  rewrite HDM. simpl.
  assert (ChallengeAuth.hasPendingChallenge a1 (ExternalMessage.transport msg)
            (ExternalMessage.chatId msg) now = (true, a1)) as ->.
  { unfold ChallengeAuth.hasPendingChallenge in *. rewrite Hpending1.
    destruct (ChallengeAuth.pendingChallenges a !! _) as [challenge|]; [| done].
    by destruct (PendingChallenge.expiresAt challenge <? now). }
  assert (ChallengeAuth.getAttemptsRemaining a1 (ExternalMessage.transport msg)
            (ExternalMessage.chatId msg)
          = ChallengeAuth.getAttemptsRemaining a (ExternalMessage.transport msg)
              (ExternalMessage.chatId msg)) as Hattempts.
  { unfold ChallengeAuth.getAttemptsRemaining. by rewrite Hpending1. }
  simpl. split.
  - intros Hnoise.
    destruct (isNumeric (trim (ExternalMessage.content msg))); simpl; [| done].
    destruct Hnoise as [? | Hlength]; [done |].
    destruct (Nat.eqb _ 5 || Nat.eqb _ 7) eqn:Hnear; simpl; [done |].
    apply Nat.eqb_neq in Hlength. by rewrite Hlength.
  - intros -> Hsix. rewrite Hsix. simpl.
    destruct (ChallengeAuth.verifyChallenge a1 _ _ _ _ _ _ _) as [result a3]. simpl.
    split_and!; [done | done | done | done |].
    intros a' m'. by destruct result.
Qed.

Lemma only_six_digits_count_as_an_attempt_witness :
  let msg := wrong_code "3B01" in
  let started := TransportManager.handleMessageStart id id no_commands
                   whatsapp_challenged_engine four_transports msg "" 1000 in
  let later := (startAll id id no_commands started.1.1.1 started.1.1.2
                  [(wrong_code "3B02", ""); (wrong_code "3B03", "")] 1000).1.1.1 in
  started.1.2 = []
  ∧ started.2 = TransportManager.Report Wrong msg
  ∧ ChallengeAuth.getAttemptsRemaining started.1.1.1 "whatsapp" "15550002222@s.whatsapp.net"
    = 2
  ∧ TransportManager.handleMessageResume started.1.1.1 four_transports started.2
    = (four_transports,
       [Send "whatsapp" "15550002222@s.whatsapp.net" (WrongCodeNotice 2)])
  ∧ TransportManager.handleMessageResume later four_transports started.2
    = (four_transports,
       [Send "whatsapp" "15550002222@s.whatsapp.net" (WrongCodeNotice 0)]).
Proof.
  intros msg started later.
  assert (ExternalMessage.transport msg ∈ TransportManager.transports four_transports)
    as Hreg by (vm_compute; reflexivity).
  assert ((ChallengeAuth.isBlocked whatsapp_challenged_engine
             (ExternalMessage.transport msg) (ExternalMessage.chatId msg) 1000).1 = false)
    as Hfree by (vm_compute; reflexivity).
  assert (ChallengeAuth.isAuthenticated whatsapp_challenged_engine
            (ExternalMessage.transport msg) (ExternalMessage.chatId msg) = false) as Hauth
    by (vm_compute; reflexivity).
  assert ((ChallengeAuth.hasPendingChallenge whatsapp_challenged_engine
             (ExternalMessage.transport msg) (ExternalMessage.chatId msg) 1000).1 = true)
    as Hpending by (vm_compute; reflexivity).
  destruct (only_six_digits_count_as_an_attempt id id no_commands
              whatsapp_challenged_engine four_transports msg "" 1000 Hreg eq_refl Hfree
              Hauth Hpending)
    as [_ Hattempt].
  assert (isNumeric (id (ExternalMessage.content msg)) = true) as Hdigits
    by (vm_compute; reflexivity).
  assert (String.length (id (ExternalMessage.content msg)) = 6%nat) as Hsix
    by (vm_compute; reflexivity).
  destruct (Hattempt Hdigits Hsix) as (_ & _ & Hout & Hleft & Hreply).
  fold started in Hout, Hleft, Hreply.
  assert (started.2 = TransportManager.Report Wrong msg) as Hwrong.
  { rewrite Hleft. vm_compute. reflexivity. }
  split_and!.
  - exact Hout.
  - exact Hwrong.
  - vm_compute. reflexivity.
  - rewrite Hreply. vm_compute. reflexivity.
  - rewrite Hreply. vm_compute. reflexivity.
Defined.

(** Three wrong codes that the WhatsApp provider passes on in one loop:
    all three are verified before the first reply is made, so the two
    replies to a wrong code tell that no attempt remains; handled one
    after the other, the same messages are told 2 and 1. *)
Example three_wrong_codes_in_one_batch :
  (handleBatch id id no_commands whatsapp_challenged_engine four_transports
     [(wrong_code "3B01", ""); (wrong_code "3B02", ""); (wrong_code "3B03", "")] 1000).2
  = [Send "whatsapp" "15550002222@s.whatsapp.net" (WrongCodeNotice 0);
     Send "whatsapp" "15550002222@s.whatsapp.net" (WrongCodeNotice 0);
     Send "whatsapp" "15550002222@s.whatsapp.net" BlockedNotice]
  ∧ route whatsapp_challenged_engine four_transports
      [(wrong_code "3B01", "", 1000); (wrong_code "3B02", "", 1000);
       (wrong_code "3B03", "", 1000)]
    = [[Send "whatsapp" "15550002222@s.whatsapp.net" (WrongCodeNotice 2)];
       [Send "whatsapp" "15550002222@s.whatsapp.net" (WrongCodeNotice 1)];
       [Send "whatsapp" "15550002222@s.whatsapp.net" BlockedNotice]].
Proof. split; vm_compute; reflexivity. Qed.

(** X24.  Waiting, cancelling and delivering.  Cancelling a wait removes
    the waiter and leaves the queue alone.  A message that arrives while
    a call waits resolves that call and is not queued; a message that
    arrives after the wait was cancelled resolves nobody, is queued, and
    is what the next call receives.  A second call that waits on an
    empty queue replaces the first waiter, so the next message resolves
    the second call only; and the cancellation of either call removes
    the waiter that is registered, after which the message is queued. *)
Theorem cancelled_wait_loses_no_message :
  (∀ m : TransportManager.t,
     TransportManager.messageQueue (TransportManager.onCancellationRequested m)
     = TransportManager.messageQueue m
     ∧ TransportManager.waitingResolver (TransportManager.onCancellationRequested m) = None)
  ∧ (∀ (m : TransportManager.t) (waiter next : nat) (msg : ExternalMessage.t),
       TransportManager.messageQueue m = [] →
       let waiting := (TransportManager.waitForMessage m waiter).2 in
       let cancelled := TransportManager.onCancellationRequested waiting in
       TransportManager.deliver waiting msg
       = (TransportManager.mk (TransportManager.transports m) [] None,
          [Resolve waiter msg])
       ∧ (TransportManager.deliver cancelled msg).2 = []
       ∧ TransportManager.waitForMessage (TransportManager.deliver cancelled msg).1 next
         = (Some msg, TransportManager.mk (TransportManager.transports m) [] None))
  ∧ (∀ (m : TransportManager.t) (first second : nat) (msg : ExternalMessage.t),
       TransportManager.messageQueue m = [] →
       let twice :=
         (TransportManager.waitForMessage (TransportManager.waitForMessage m first).2
            second).2 in
       TransportManager.deliver twice msg
       = (TransportManager.mk (TransportManager.transports m) [] None,
          [Resolve second msg])
       ∧ TransportManager.deliver (TransportManager.onCancellationRequested twice) msg
         = (TransportManager.mk (TransportManager.transports m) [msg] None, [])).
Proof.
  split_and!.
  - done.
  - intros m waiter next msg Hempty.
    unfold TransportManager.waitForMessage. rewrite Hempty. done.
  - intros m first second msg Hempty.
    unfold TransportManager.waitForMessage. rewrite Hempty. done.
Qed.

(** X25.  Authentication through the router, end to end.  The first
    direct message of a chat that is unknown to the engine draws the
    authentication prompt and opens a challenge; an answer from that chat
    whose trimmed text is the six-digit code, sent within two minutes,
    draws the confirmation, authenticates the chat and makes its sender
    trusted, with nothing given to the consumer so far; and from then on
    every direct message of that chat is routable, at any time. *)
Theorem authentication_flow_through_the_router
    (toLowerCase trim : string → string)
    (adminCommands :
       ChallengeAuth.t → ExternalMessage.t → Z → bool * ChallengeAuth.t * list Reply)
    (a : ChallengeAuth.t) (m : TransportManager.t) (hello answer : ExternalMessage.t)
    (code unused : string) (t0 t1 : Z) :
  let transport := ExternalMessage.transport hello in
  let chatId := ExternalMessage.chatId hello in
  let key := ChallengeAuth.makeKey transport chatId in
  transport ∈ TransportManager.transports m →
  ExternalMessage.isDM hello = true →
  ExternalMessage.isDM answer = true →
  ExternalMessage.transport answer = transport →
  ExternalMessage.chatId answer = chatId →
  ChallengeAuth.blockedUsers a !! key = None →
  ChallengeAuth.pendingChallenges a !! key = None →
  ChallengeAuth.isAuthenticated a transport chatId = false →
  trim (ExternalMessage.content answer) = code →
  isNumeric code = true →
  String.length code = 6%nat →
  t1 ≤ t0 + 2 * 60 * 1000 →
  let step1 :=
    TransportManager.handleMessage toLowerCase trim adminCommands a m hello code t0 in
  let step2 :=
    TransportManager.handleMessage toLowerCase trim adminCommands step1.1.1 step1.1.2
      answer unused t1 in
  step1.2 = [Send transport chatId AuthenticationRequired]
  ∧ step2.2 = [Send transport chatId AuthenticatedNotice]
  ∧ step2.1.2 = m
  ∧ ChallengeAuth.isAuthenticated step2.1.1 transport chatId = true
  ∧ ChallengeAuth.isUserTrusted step2.1.1 transport (ExternalMessage.userId answer) = true
  ∧ ∀ (next : ExternalMessage.t) (t2 : Z),
      ExternalMessage.isDM next = true →
      ExternalMessage.transport next = transport →
      ExternalMessage.chatId next = chatId →
      routable step2.1.1 m next t2 = true.
Proof.
  intros transport chatId key Hreg HDM HDM' Htransport Hchat Hfree Hnone Hauth
    Htrim Hnumeric Hlength Hlive step1 step2.
  assert (step1
          = ((ChallengeAuth.createChallenge a transport chatId
                (or_else (ExternalMessage.username hello) chatId) code t0).2,
             m, [Send transport chatId AuthenticationRequired])) as E1.
  { subst step1. by apply handleMessage_unauthenticated_dm. }
  set (a1 := (ChallengeAuth.createChallenge a transport chatId
                (or_else (ExternalMessage.username hello) chatId) code t0).2) in *.
  set (username := or_else (ExternalMessage.username answer) chatId).
  set (v := ChallengeAuth.verifyChallenge a1 transport chatId code
              (ExternalMessage.userId answer) username true t1).
  assert (step2 = (v.2, m, [Send transport chatId AuthenticatedNotice]) ∧ v.1 = Success)
    as [E2 Hsuccess].
  { assert (v.1 = Success) as Hsuccess.
    { subst v a1. unfold ChallengeAuth.verifyChallenge, ChallengeAuth.createChallenge.
      simpl. fold key. rewrite lookup_insert_eq. simpl.
      assert ((t0 + ChallengeAuth.CHALLENGE_EXPIRY_MS <? t1) = false) as ->.
      { apply Z.ltb_ge. unfold ChallengeAuth.CHALLENGE_EXPIRY_MS. lia. }
      by rewrite String.eqb_refl. }
    split; [| done].
    subst step2. rewrite E1. simpl.
    unfold TransportManager.handleMessage. rewrite Htransport, Hchat.
    rewrite (bool_decide_eq_true_2 _ Hreg). simpl.
    unfold ChallengeAuth.isBlocked.
    assert (ChallengeAuth.blockedUsers a1 !! ChallengeAuth.makeKey transport chatId = None)
      as -> by done.
    assert (ChallengeAuth.isAuthenticated a1 transport chatId = false) as -> by done.
    rewrite HDM'. simpl.
    unfold ChallengeAuth.hasPendingChallenge.
    assert (ChallengeAuth.pendingChallenges a1 !! ChallengeAuth.makeKey transport chatId
            = Some (PendingChallenge.mk code (t0 + ChallengeAuth.CHALLENGE_EXPIRY_MS) 0))
      as -> by apply lookup_insert_eq.
    simpl.
    assert ((t0 + ChallengeAuth.CHALLENGE_EXPIRY_MS <? t1) = false) as ->.
    { apply Z.ltb_ge. unfold ChallengeAuth.CHALLENGE_EXPIRY_MS. lia. }
    rewrite Htrim, Hnumeric, Hlength. simpl.
    fold username. fold v.
    destruct v as [result a2]. simpl in Hsuccess. by subst result. }
  destruct (verifyChallenge_effect a1 transport chatId code (ExternalMessage.userId answer)
              username true t1)
    as [(Hres & _) | [(_ & _ & _ & Hblocked & Hchats & _ & Htrusted & _)
                     | (challenge & _ & _ & _ & _ & _ & Hres & _)]];
    fold v in Hres || idtac.
  - fold v in Hres. congruence.
  - fold v in Hblocked, Hchats, Htrusted.
    assert (ChallengeAuth.isAuthenticated v.2 transport chatId = true) as Hnow.
    { apply isAuthenticated_true. rewrite Hchats.
      apply elem_of_union; left. by apply elem_of_singleton. }
    rewrite E1, E2. simpl. split_and!; try done.
    + apply isUserTrusted_true. rewrite Htrusted. by rewrite lookup_insert_eq.
    + intros next t2 Hdm Hnt Hnc. unfold routable, ChallengeAuth.isBlocked.
      rewrite Hdm, Hnt, Hnc, (bool_decide_eq_true_2 _ Hreg), Hblocked. simpl.
      fold key. by rewrite Hfree.
  - fold v in Hres. rewrite Hsuccess in Hres. by destruct (decide _).
Qed.

Lemma authentication_flow_through_the_router_witness :
  let hello := dm "chat123" "user123" "hello" in
  let answer := dm "chat123" "user123" "123456" in
  let step1 := TransportManager.handleMessage id id no_commands ChallengeAuth.init
                 four_transports hello "123456" 0 in
  let step2 := TransportManager.handleMessage id id no_commands step1.1.1 step1.1.2
                 answer "" 1000 in
  step1.2 = [Send "telegram" "chat123" AuthenticationRequired]
  ∧ step2.2 = [Send "telegram" "chat123" AuthenticatedNotice]
  ∧ step2.1.2 = four_transports
  ∧ ChallengeAuth.isAuthenticated step2.1.1 "telegram" "chat123" = true
  ∧ ChallengeAuth.isUserTrusted step2.1.1 "telegram" "user123" = true
  ∧ ∀ (next : ExternalMessage.t) (t2 : Z),
      ExternalMessage.isDM next = true →
      ExternalMessage.transport next = "telegram" →
      ExternalMessage.chatId next = "chat123" →
      routable step2.1.1 four_transports next t2 = true.
Proof.
  intros hello answer.
  apply (authentication_flow_through_the_router id id no_commands ChallengeAuth.init
           four_transports hello answer "123456" "" 0 1000);
    try reflexivity; try (vm_compute; reflexivity).
  simpl. lia.
Defined.
